(** * Material Gnome: colour remapping, file recolouring, backups and the
    step orchestrator

    A shallow embedding of the core of [material-you-installer-gui.py]
    (palettes, [hex_to_hsl], [hsl_to_hex], [build_full_color_map],
    [recolor_file]) and of [material_you_installer.py] ([BackupManager],
    the installer steps, [ThemeInstaller]), followed by the properties the
    specification states about them.

    Conventions of the embedding:
    - a Python [str] is a [string]; file text is modelled as ASCII text;
    - a Python [float] is a primitive binary64 [float], so every float
      operation rounds exactly as CPython's does;
    - a [dict] used as a map is a [gmap]; a [dict] whose iteration order is
      observable (a palette, the manifest lists) is an association list;
    - a raised exception is an explicit [None] or a dedicated constructor;
    - the filesystem and dconf are explicit state that is passed around. *)

From Stdlib Require Import ZArith Lia Ascii String List Bool.
From Stdlib Require Import PrimFloat FloatOps SpecFloat Uint63.
From stdpp Require Import gmap strings list.

Local Open Scope string_scope.

(** The thresholds of the source (0.05, 0.5) are decimal literals: they
    denote the nearest binary64 value, as they do in Python. *)
Set Warnings "-inexact-float".

(* ===================================================================== *)
(** * Python string primitives *)
(* ===================================================================== *)

Module PyStr.

Definition is_upper_letter (c : ascii) : bool :=
  let n := N_of_ascii c in ((65 <=? n) && (n <=? 90))%N.

Definition is_lower_letter (c : ascii) : bool :=
  let n := N_of_ascii c in ((97 <=? n) && (n <=? 122))%N.

Definition is_digit (c : ascii) : bool :=
  let n := N_of_ascii c in ((48 <=? n) && (n <=? 57))%N.

(** [c.lower()] and [c.upper()] on one ASCII character. *)
Definition lower_char (c : ascii) : ascii :=
  if is_upper_letter c then ascii_of_N (N_of_ascii c + 32) else c.

Definition upper_char (c : ascii) : ascii :=
  if is_lower_letter c then ascii_of_N (N_of_ascii c - 32) else c.

(** [s.lower()], [s.upper()]. *)
Fixpoint lower (s : string) : string :=
  match s with
  | EmptyString => EmptyString
  | String c r => String (lower_char c) (lower r)
  end.

Fixpoint upper (s : string) : string :=
  match s with
  | EmptyString => EmptyString
  | String c r => String (upper_char c) (upper r)
  end.

Fixpoint has_upper (s : string) : bool :=
  match s with
  | EmptyString => false
  | String c r => is_upper_letter c || has_upper r
  end.

Fixpoint has_lower (s : string) : bool :=
  match s with
  | EmptyString => false
  | String c r => is_lower_letter c || has_lower r
  end.

(** [s.isupper()]: at least one cased character and no lowercase one. *)
Definition isupper (s : string) : bool := has_upper s && negb (has_lower s).

(** [s[1:]]. *)
Definition tail (s : string) : string :=
  match s with
  | EmptyString => EmptyString
  | String _ r => r
  end.

(** [s[n:]]. *)
Fixpoint drop (n : nat) (s : string) : string :=
  match n, s with
  | O, _ => s
  | S k, EmptyString => EmptyString
  | S k, String _ r => drop k r
  end.

(** [s[:n]]. *)
Fixpoint take (n : nat) (s : string) : string :=
  match n, s with
  | O, _ => EmptyString
  | S k, EmptyString => EmptyString
  | S k, String c r => String c (take k r)
  end.

(** [s[a:b]] for [a <= b]. *)
Definition slice (a b : nat) (s : string) : string := take (b - a) (drop a s).

(** [s.startswith(p)]. *)
Fixpoint startswith (p s : string) : bool :=
  match p, s with
  | EmptyString, _ => true
  | String _ _, EmptyString => false
  | String a p', String b s' => if ascii_dec a b then startswith p' s' else false
  end.

(** [s.replace(old, new)] for a non-empty [old]: every occurrence, scanned
    from the left, occurrences not overlapping.  [skip] counts the
    characters of an occurrence that are still to be passed over. *)
Fixpoint replace_from (old new : string) (skip : nat) (s : string) : string :=
  match s with
  | EmptyString => EmptyString
  | String c r =>
      match skip with
      | S k => replace_from old new k r
      | O =>
          if startswith old s
          then new +:+ replace_from old new (String.length old - 1) r
          else String c (replace_from old new 0 r)
      end
  end.

Definition replace (s old new : string) : string := replace_from old new 0 s.

Fixpoint mem_char (c : ascii) (chars : string) : bool :=
  match chars with
  | EmptyString => false
  | String d r => if ascii_dec c d then true else mem_char c r
  end.

(** [s.lstrip(chars)]: drops every leading character found in [chars]. *)
Fixpoint lstrip (chars : string) (s : string) : string :=
  match s with
  | EmptyString => EmptyString
  | String c r => if mem_char c chars then lstrip chars r else s
  end.

End PyStr.

(* ===================================================================== *)
(** * Python floats and the [colorsys] module *)
(* ===================================================================== *)

Module PyFloat.

Local Open Scope float_scope.

(** [float(n)] for a small non-negative integer. *)
Definition of_Z (n : Z) : float := PrimFloat.of_uint63 (Uint63.of_Z n).

(** [int(x)]: truncation towards zero (Python raises on NaN and
    infinities, which no colour computation produces; they give 0 here). *)
Definition to_int (x : float) : Z :=
  match Prim2SF x with
  | S754_finite s m e =>
      let mag := if (0 <=? e)%Z then Z.shiftl (Zpos m) e
                 else Z.shiftr (Zpos m) (- e) in
      if s then (- mag)%Z else mag
  | _ => 0%Z
  end.

(** C's [fmod(x, w)]: the exact remainder, with the sign of [x]. *)
Definition fmod (x w : float) : float :=
  match Prim2SF x, Prim2SF w with
  | S754_finite sx mx ex, S754_finite _ mw ew =>
      let e := Z.min ex ew in
      let X := Z.shiftl (Zpos mx) (ex - e) in
      let W := Z.shiftl (Zpos mw) (ew - e) in
      match (X mod W)%Z with
      | Zpos r => SF2Prim (S754_finite sx r e)
      | _ => if sx then neg_zero else zero
      end
  | S754_zero _, S754_finite _ _ _ => x
  | S754_finite _ _ _, S754_infinity _ => x
  | S754_zero _, S754_infinity _ => x
  | _, _ => nan
  end.

(** [x % w] on floats ([float_rem] of CPython) for [w <> 0]: the result
    takes the sign of the divisor. *)
Definition mod_ (x w : float) : float :=
  let m := fmod x w in
  if m =? 0 then (if get_sign w then neg_zero else zero)
  else if xorb (w <? 0) (m <? 0) then m + w else m.

(** [max(a, b, c)] and [min(a, b, c)]: the first extremal argument. *)
Definition max3 (a b c : float) : float :=
  let m := if a <? b then b else a in
  if m <? c then c else m.

Definition min3 (a b c : float) : float :=
  let m := if b <? a then b else a in
  if c <? m then c else m.

End PyFloat.

Module Colorsys.

Local Open Scope float_scope.

Definition ONE_THIRD : float := 1 / 3.
Definition ONE_SIXTH : float := 1 / 6.
Definition TWO_THIRD : float := 2 / 3.

(** [colorsys.rgb_to_hls(r, g, b)], returning [(h, l, s)]. *)
Definition rgb_to_hls (r g b : float) : float * float * float :=
  let maxc := PyFloat.max3 r g b in
  let minc := PyFloat.min3 r g b in
  let sumc := maxc + minc in
  let rangec := maxc - minc in
  let l := sumc / 2 in
  if minc =? maxc then (0, l, 0)
  else
    let s := if l <=? 0.5 then rangec / sumc
             else rangec / (2 - maxc - minc) in
    let rc := (maxc - r) / rangec in
    let gc := (maxc - g) / rangec in
    let bc := (maxc - b) / rangec in
    let h := if r =? maxc then bc - gc
             else if g =? maxc then 2 + rc - bc
             else 4 + gc - rc in
    let h := PyFloat.mod_ (h / 6) 1 in
    (h, l, s).

Definition _v (m1 m2 hue : float) : float :=
  let hue := PyFloat.mod_ hue 1 in
  if hue <? ONE_SIXTH then m1 + (m2 - m1) * hue * 6
  else if hue <? 0.5 then m2
  else if hue <? TWO_THIRD then m1 + (m2 - m1) * (TWO_THIRD - hue) * 6
  else m1.

(** [colorsys.hls_to_rgb(h, l, s)]. *)
Definition hls_to_rgb (h l s : float) : float * float * float :=
  if s =? 0 then (l, l, l)
  else
    let m2 := if l <=? 0.5 then l * (1 + s) else l + s - (l * s) in
    let m1 := 2 * l - m2 in
    (_v m1 m2 (h + ONE_THIRD), _v m1 m2 h, _v m1 m2 (h - ONE_THIRD)).

End Colorsys.

(* ===================================================================== *)
(** * The filesystem *)
(* ===================================================================== *)

(** The manifest written by [json.dump] and read back by [json.load]: the
    dict [{"timestamp": .., "files": [..], "dconf": [..]}], each record of
    ["files"] a pair (original, backup) and each record of ["dconf"] a pair
    (path, backup). *)
Record Manifest := mkManifest {
  m_timestamp : string;
  m_files : list (string * string);
  m_dconf : list (string * string)
}.

Global Instance Manifest_eq_dec : EqDecision Manifest.
Proof. solve_decision. Defined.

Module Fs.

(** A file holds text or a JSON document; the concrete JSON syntax is not
    modelled, so a document is what [json.load] returns for it. *)
Inductive data :=
| Text (s : string)
| Json (m : Manifest).

(** A regular file with the two permission bits the code can observe
    through [OSError].  Directories are implicit: creating a file creates
    its parents, which is what [ensure_dir] does before every write. *)
Record file := mkFile {
  content : data;
  readable : bool;
  writable : bool
}.

Global Instance data_eq_dec : EqDecision data.
Proof. solve_decision. Defined.

Global Instance file_eq_dec : EqDecision file.
Proof. solve_decision. Defined.

Abbreviation filesystem := (gmap string file).

(** [path.exists()]. *)
Definition exists_ (fs : filesystem) (p : string) : bool :=
  match fs !! p with Some _ => true | None => false end.

(** The bytes behind [open(p)]; [None] is an [OSError]. *)
Definition read (fs : filesystem) (p : string) : option data :=
  match fs !! p with
  | Some f => if readable f then Some (content f) else None
  | None => None
  end.

(** [open(p, "w").write(d)]: an existing file keeps its permission bits; a
    file that is not writable is left as it is and [OSError] is raised. *)
Definition write (fs : filesystem) (p : string) (d : data) : option filesystem :=
  match fs !! p with
  | Some f =>
      if writable f then Some (<[p := mkFile d (readable f) (writable f)]> fs)
      else None
  | None => Some (<[p := mkFile d true true]> fs)
  end.

(** [path.read_text()]. *)
Definition read_text (fs : filesystem) (p : string) : option string :=
  match read fs p with
  | Some (Text s) => Some s
  | _ => None
  end.

(** [path.write_text(s)]. *)
Definition write_text (fs : filesystem) (p : string) (s : string) : option filesystem :=
  write fs p (Text s).

(** [shutil.copy2(src, dst)]. *)
Definition copy2 (fs : filesystem) (src dst : string) : option filesystem :=
  match read fs src with
  | Some d => write fs dst d
  | None => None
  end.

(** [pathlib]'s [a / b] on normalised paths. *)
Definition join (a b : string) : string :=
  match b with
  | EmptyString => a
  | String "/" _ => b
  | _ => a +:+ "/" +:+ b
  end.

End Fs.

Infix "//" := Fs.join (at level 40, left associativity).

(* ===================================================================== *)
(** * Palettes, colour map and file recolouring (GUI module) *)
(* ===================================================================== *)

Module Gui.

(** A palette: a [dict] from token to hex colour, in insertion order. *)
Definition palette := list (string * string).

(** [d[key]]; [None] is a [KeyError]. *)
Fixpoint dict_get (d : palette) (key : string) : option string :=
  match d with
  | [] => None
  | (k, v) :: r => if decide (k = key) then Some v else dict_get r key
  end.

Definition palette_Orange : palette :=
  [ ("seed", "#ffb86c");
    ("primary", "#ffb86c");
    ("on_primary", "#1a1110");
    ("primary_container", "#5c3a1a");
    ("on_primary_container", "#ffdcbe");
    ("secondary", "#e4bfa8");
    ("secondary_container", "#3d2e20");
    ("tertiary", "#b2dfdb");
    ("tertiary_container", "#1e3533");
    ("error", "#ffb4ab");
    ("error_container", "#93000a");
    ("surface", "#1a1110");
    ("surface_cont_lowest", "#140e0c");
    ("surface_cont_low", "#1e1514");
    ("surface_cont", "#231918");
    ("surface_cont_high", "#2d2220");
    ("surface_cont_highest", "#3d312e");
    ("on_surface", "#efe0db");
    ("on_surface_var", "#d5c4bc");
    ("outline", "#9e8e86");
    ("outline_var", "#51443e");
    ("success", "#a8c77a");
    ("warning", "#ffc888") ].

Definition palette_Blue : palette :=
  [ ("seed", "#82b1ff");
    ("primary", "#82b1ff");
    ("on_primary", "#0d1a2e");
    ("primary_container", "#1a3a5c");
    ("on_primary_container", "#c4dcff");
    ("secondary", "#a8c4e4");
    ("secondary_container", "#20303d");
    ("tertiary", "#d4bfdb");
    ("tertiary_container", "#331e35");
    ("error", "#ffb4ab");
    ("error_container", "#93000a");
    ("surface", "#101418");
    ("surface_cont_lowest", "#0b0f12");
    ("surface_cont_low", "#141a1e");
    ("surface_cont", "#181e23");
    ("surface_cont_high", "#20282d");
    ("surface_cont_highest", "#2e373d");
    ("on_surface", "#dbe3ef");
    ("on_surface_var", "#bcc6d5");
    ("outline", "#86919e");
    ("outline_var", "#3e4851");
    ("success", "#a8c77a");
    ("warning", "#ffc888") ].

Definition palette_Green : palette :=
  [ ("seed", "#a8c77a");
    ("primary", "#a8c77a");
    ("on_primary", "#142010");
    ("primary_container", "#2a3d1a");
    ("on_primary_container", "#d0e8b0");
    ("secondary", "#bcc8a8");
    ("secondary_container", "#2d3520");
    ("tertiary", "#a8c4c0");
    ("tertiary_container", "#1e3330");
    ("error", "#ffb4ab");
    ("error_container", "#93000a");
    ("surface", "#121410");
    ("surface_cont_lowest", "#0d0f0b");
    ("surface_cont_low", "#161a14");
    ("surface_cont", "#1a1e18");
    ("surface_cont_high", "#232820");
    ("surface_cont_highest", "#31382e");
    ("on_surface", "#e0e8db");
    ("on_surface_var", "#c4ccbc");
    ("outline", "#8e9686");
    ("outline_var", "#444e3e");
    ("success", "#a8c77a");
    ("warning", "#ffc888") ].

Definition palette_Purple : palette :=
  [ ("seed", "#ce93d8");
    ("primary", "#ce93d8");
    ("on_primary", "#201025");
    ("primary_container", "#3d1a4a");
    ("on_primary_container", "#ecc4f2");
    ("secondary", "#d4b8d8");
    ("secondary_container", "#352a38");
    ("tertiary", "#c8c0a8");
    ("tertiary_container", "#33301e");
    ("error", "#ffb4ab");
    ("error_container", "#93000a");
    ("surface", "#161214");
    ("surface_cont_lowest", "#100d0f");
    ("surface_cont_low", "#1a1618");
    ("surface_cont", "#1e1a1d");
    ("surface_cont_high", "#282325");
    ("surface_cont_highest", "#383234");
    ("on_surface", "#ece0ee");
    ("on_surface_var", "#d2c4d4");
    ("outline", "#9c8e9e");
    ("outline_var", "#4e424f");
    ("success", "#a8c77a");
    ("warning", "#ffc888") ].

Definition palette_Red : palette :=
  [ ("seed", "#ff897d");
    ("primary", "#ff897d");
    ("on_primary", "#2e0e0a");
    ("primary_container", "#5c1a1a");
    ("on_primary_container", "#ffc4be");
    ("secondary", "#e4b8a8");
    ("secondary_container", "#3d2820");
    ("tertiary", "#b2c8c4");
    ("tertiary_container", "#1e3330");
    ("error", "#ffb4ab");
    ("error_container", "#93000a");
    ("surface", "#1a1010");
    ("surface_cont_lowest", "#140c0c");
    ("surface_cont_low", "#1e1414");
    ("surface_cont", "#231818");
    ("surface_cont_high", "#2d2020");
    ("surface_cont_highest", "#3d302e");
    ("on_surface", "#efe0db");
    ("on_surface_var", "#d5c0bc");
    ("outline", "#9e8686");
    ("outline_var", "#51403e");
    ("success", "#a8c77a");
    ("warning", "#ffc888") ].

Definition palette_Teal : palette :=
  [ ("seed", "#80cbc4");
    ("primary", "#80cbc4");
    ("on_primary", "#0a2420");
    ("primary_container", "#1a3d3a");
    ("on_primary_container", "#b8e8e4");
    ("secondary", "#a8c8c4");
    ("secondary_container", "#203533");
    ("tertiary", "#c0b8d4");
    ("tertiary_container", "#2a2638");
    ("error", "#ffb4ab");
    ("error_container", "#93000a");
    ("surface", "#101614");
    ("surface_cont_lowest", "#0b100f");
    ("surface_cont_low", "#141a18");
    ("surface_cont", "#181e1d");
    ("surface_cont_high", "#202826");
    ("surface_cont_highest", "#2e3836");
    ("on_surface", "#dbe8e6");
    ("on_surface_var", "#bcccc8");
    ("outline", "#869694");
    ("outline_var", "#3e4e4b");
    ("success", "#a8c77a");
    ("warning", "#ffc888") ].

Definition palette_Pink : palette :=
  [ ("seed", "#f48fb1");
    ("primary", "#f48fb1");
    ("on_primary", "#2e0e1a");
    ("primary_container", "#5c1a3a");
    ("on_primary_container", "#ffc4d8");
    ("secondary", "#e4b0c0");
    ("secondary_container", "#3d2030");
    ("tertiary", "#b2c8a8");
    ("tertiary_container", "#1e3320");
    ("error", "#ffb4ab");
    ("error_container", "#93000a");
    ("surface", "#1a1014");
    ("surface_cont_lowest", "#140c10");
    ("surface_cont_low", "#1e1418");
    ("surface_cont", "#23181d");
    ("surface_cont_high", "#2d2025");
    ("surface_cont_highest", "#3d2e34");
    ("on_surface", "#efe0e6");
    ("on_surface_var", "#d5c0ca");
    ("outline", "#9e868e");
    ("outline_var", "#51404a");
    ("success", "#a8c77a");
    ("warning", "#ffc888") ].

Definition palette_Yellow : palette :=
  [ ("seed", "#fff176");
    ("primary", "#fff176");
    ("on_primary", "#2e2a0a");
    ("primary_container", "#4a4a1a");
    ("on_primary_container", "#fff8b8");
    ("secondary", "#e4dca8");
    ("secondary_container", "#3d3820");
    ("tertiary", "#b8c8d4");
    ("tertiary_container", "#202a33");
    ("error", "#ffb4ab");
    ("error_container", "#93000a");
    ("surface", "#181610");
    ("surface_cont_lowest", "#12110b");
    ("surface_cont_low", "#1c1a14");
    ("surface_cont", "#201e18");
    ("surface_cont_high", "#2a2820");
    ("surface_cont_highest", "#3a382e");
    ("on_surface", "#efe8db");
    ("on_surface_var", "#d5d0bc");
    ("outline", "#9e9886");
    ("outline_var", "#514c3e");
    ("success", "#a8c77a");
    ("warning", "#ffc888") ].

Definition PALETTES : list (string * palette) :=
  [ ("Orange", palette_Orange);
    ("Blue", palette_Blue);
    ("Green", palette_Green);
    ("Purple", palette_Purple);
    ("Red", palette_Red);
    ("Teal", palette_Teal);
    ("Pink", palette_Pink);
    ("Yellow", palette_Yellow) ].

(** Colours that must never be hue-shifted. *)
Definition PROTECTED_COLORS : gset string :=
  list_to_set
    [ "#3584e4"; "#1c71d8"; "#1a5fb4"; "#99c1f1"; "#62a0ea";
      "#33d17a"; "#2ec27e"; "#26a269"; "#57e389"; "#8ff0a4";
      "#8cd48c"; "#1b5e20"; "#f9f06b"; "#f8e45c"; "#f6d32d";
      "#f5c211"; "#e5a50a"; "#f66151"; "#ed333b"; "#e01b24";
      "#c01c28"; "#a51d2d"; "#dc8add"; "#c061cb"; "#9141ac";
      "#813d9c"; "#613583"; "#e4dfff"; "#c8bfff"; "#2f2d5e";
      "#464490"; "#ffffff"; "#f6f5f4"; "#deddda"; "#c0bfbc";
      "#9a9996"; "#77767b"; "#5e5c64"; "#3d3846"; "#241f31";
      "#000000"; "#93000a"; "#a5000c"; "#ffb4ab"; "#a8c77a";
      "#ffc888" ].

(** ** HSL helpers *)

Definition is_hex_digit (c : ascii) : bool :=
  let n := N_of_ascii c in
  (((48 <=? n) && (n <=? 57)) || ((97 <=? n) && (n <=? 102))
   || ((65 <=? n) && (n <=? 70)))%N.

Definition hex_value (c : ascii) : Z :=
  let n := Z.of_N (N_of_ascii c) in
  if PyStr.is_digit c then n - 48
  else if PyStr.is_lower_letter c then n - 87
  else n - 55.

Fixpoint all_hex (s : string) : bool :=
  match s with
  | EmptyString => true
  | String c r => is_hex_digit c && all_hex r
  end.

Fixpoint hex_number (acc : Z) (s : string) : Z :=
  match s with
  | EmptyString => acc
  | String c r => hex_number (16 * acc + hex_value c) r
  end.

(** [int(s, 16)] on a slice made of hex digits; [None] is the
    [ValueError] of an empty slice or of a character that is no hex digit
    (signs, blanks and underscores, which Python also reads, occur in no
    colour and are reported as errors here). *)
Definition int16 (s : string) : option Z :=
  match s with
  | EmptyString => None
  | _ => if all_hex s then Some (hex_number 0 s) else None
  end.

(** [hex_to_hsl(hex_color)]: #rrggbb to (H, S, L), H in degrees. *)
Definition hex_to_hsl (hex_color : string) : option (float * float * float) :=
  ri ← int16 (PyStr.slice 1 3 hex_color);
  gi ← int16 (PyStr.slice 3 5 hex_color);
  bi ← int16 (PyStr.slice 5 7 hex_color);
  let r := (PyFloat.of_Z ri / 255)%float in
  let g := (PyFloat.of_Z gi / 255)%float in
  let b := (PyFloat.of_Z bi / 255)%float in
  let '(h, l, s) := Colorsys.rgb_to_hls r g b in
  Some ((h * 360)%float, s, l).

Definition hex_digit (d : Z) : ascii :=
  if (d <? 10)%Z then ascii_of_N (Z.to_N (d + 48))
  else ascii_of_N (Z.to_N (d + 87)).

(** The format [{n:02x}] for [0 <= n <= 255]. *)
Definition format_02x (n : Z) : string :=
  String (hex_digit (n / 16)) (String (hex_digit (n mod 16)) EmptyString).

(** [max(0, min(255, int(x * 255 + 0.5)))]. *)
Definition channel (x : float) : Z :=
  Z.max 0 (Z.min 255 (PyFloat.to_int (x * 255 + 0.5)%float)).

(** [hsl_to_hex(h, s, l)]: (H, S, L) to #rrggbb. *)
Definition hsl_to_hex (h s l : float) : string :=
  let '(r, g, b) := Colorsys.hls_to_rgb (h / 360)%float l s in
  "#" +:+ format_02x (channel r) +:+ format_02x (channel g)
      +:+ format_02x (channel b).

(** ** [re.findall(r'#[0-9a-fA-F]{6}\b', text)] *)

Definition is_word_char (c : ascii) : bool :=
  PyStr.is_digit c || PyStr.is_upper_letter c || PyStr.is_lower_letter c
  || (if ascii_dec c "_" then true else false).

Definition starts_with_word_char (s : string) : bool :=
  match s with
  | EmptyString => false
  | String c _ => is_word_char c
  end.

(** The match of the pattern at the very start of [s], if any. *)
Definition hex_literal_at (s : string) : option string :=
  match s with
  | String "#" r =>
      let d := PyStr.take 6 r in
      if (String.length d =? 6)%nat && all_hex d
         && negb (starts_with_word_char (PyStr.drop 6 r))
      then Some (String "#" d) else None
  | _ => None
  end.

Fixpoint findall_from (skip : nat) (text : string) : list string :=
  match text with
  | EmptyString => []
  | String c r =>
      match skip with
      | S k => findall_from k r
      | O =>
          match hex_literal_at text with
          | Some lit => lit :: findall_from 6 r
          | None => findall_from 0 r
          end
      end
  end.

Definition findall (text : string) : list string := findall_from 0 text.

(** ** [build_full_color_map] *)

(** Step 1: the direct token mappings, in the order of [old_palette]; a
    later token with the same old colour overwrites the earlier one. *)
Fixpoint direct_mappings (items : list (string * string)) (new_palette : palette)
    (mapping : gmap string string) : option (gmap string string) :=
  match items with
  | [] => Some mapping
  | (key, old_value) :: rest =>
      new_value ← dict_get new_palette key;
      let old_hex := PyStr.lower old_value in
      let new_hex := PyStr.lower new_value in
      direct_mappings rest new_palette
        (if decide (old_hex = new_hex) then mapping
         else <[old_hex := new_hex]> mapping)
  end.

(** Step 3: the hex colours of the files that exist and can be read. *)
Fixpoint collect_hexes (fs : Fs.filesystem) (css_files : list string)
    (all_hexes : gset string) : gset string :=
  match css_files with
  | [] => all_hexes
  | path :: rest =>
      let found :=
        if Fs.exists_ fs path then
          match Fs.read_text fs path with
          | Some text => list_to_set (PyStr.lower <$> findall text)
          | None => ∅
          end
        else ∅ in
      collect_hexes fs rest (all_hexes ∪ found)
  end.

(** The circular hue distance of step 4. *)
Definition hue_distance (h old_hue : float) : float :=
  let hue_dist := PrimFloat.abs (h - old_hue)%float in
  if (180 <? hue_dist)%float then (360 - hue_dist)%float else hue_dist.

(** The guard of step 4: within 35 degrees, saturation above 0.05. *)
Definition in_accent_family (old_hue h s : float) : bool :=
  (hue_distance h old_hue <=? 35)%float && (0.05 <? s)%float.

(** One iteration of the loop of step 4. *)
Definition shift_one (old_hue hue_shift : float) (target_values : gset string)
    (mapping : gmap string string) (hex_color : string)
    : option (gmap string string) :=
  if bool_decide (is_Some (mapping !! hex_color))
     || bool_decide (hex_color ∈ PROTECTED_COLORS)
     || bool_decide (hex_color ∈ target_values)
  then Some mapping
  else
    '(h, s, l) ← hex_to_hsl hex_color;
    if in_accent_family old_hue h s then
      let new_h := PyFloat.mod_ (h + hue_shift)%float 360 in
      let new_hex := hsl_to_hex new_h s l in
      if decide (new_hex = hex_color) then Some mapping
      else Some (<[hex_color := new_hex]> mapping)
    else Some mapping.

Fixpoint shift_all (old_hue hue_shift : float) (target_values : gset string)
    (hexes : list string) (mapping : gmap string string)
    : option (gmap string string) :=
  match hexes with
  | [] => Some mapping
  | hex_color :: rest =>
      mapping' ← shift_one old_hue hue_shift target_values mapping hex_color;
      shift_all old_hue hue_shift target_values rest mapping'
  end.

(** [build_full_color_map(old_palette, new_palette, css_files)], reading
    the files from [fs]; [None] is a [KeyError] or a [ValueError]. *)
Definition build_full_color_map (old_palette new_palette : palette)
    (css_files : list string) (fs : Fs.filesystem)
    : option (gmap string string) :=
  mapping ← direct_mappings old_palette new_palette ∅;
  old_primary ← dict_get old_palette "primary";
  '(old_hue, _, _) ← hex_to_hsl old_primary;
  new_primary ← dict_get new_palette "primary";
  '(new_hue, _, _) ← hex_to_hsl new_primary;
  let hue_shift := (new_hue - old_hue)%float in
  if (PrimFloat.abs hue_shift <? 0.5)%float then Some mapping
  else
    let all_hexes := collect_hexes fs css_files ∅ in
    let target_values : gset string := map_img mapping in
    shift_all old_hue hue_shift target_values (elements all_hexes) mapping.

(** ** [recolor_file] *)

Definition ieq_char (a b : ascii) : bool :=
  if ascii_dec (PyStr.lower_char a) (PyStr.lower_char b) then true else false.

(** The literal [key] matches at the start of [s], ignoring case. *)
Fixpoint imatches (key s : string) : bool :=
  match key, s with
  | EmptyString, _ => true
  | String _ _, EmptyString => false
  | String a k', String b s' => ieq_char a b && imatches k' s'
  end.

(** The text matched at the start of [s] by the alternation of [keys]:
    the first alternative that matches.  (An empty alternative is passed
    over: a colour map has none.) *)
Fixpoint match_at (keys : list string) (s : string) : option string :=
  match keys with
  | [] => None
  | key :: rest =>
      if negb (String.length key =? 0)%nat && imatches key s
      then Some (PyStr.take (String.length key) s)
      else match_at rest s
  end.

(** [_replacer(m)] applied to the matched text [m.group(0)]. *)
Definition _replacer (color_map : gmap string string) (group0 : string) : string :=
  let matched := PyStr.lower group0 in
  let new := default group0 (color_map !! matched) in
  if PyStr.isupper (PyStr.tail group0)
  then "#" +:+ PyStr.upper (PyStr.tail new)
  else new.

(** [pattern.sub(_replacer, text)]: one pass from the left. *)
Fixpoint sub_from (color_map : gmap string string) (keys : list string)
    (skip : nat) (text : string) : string :=
  match text with
  | EmptyString => EmptyString
  | String c r =>
      match skip with
      | S k => sub_from color_map keys k r
      | O =>
          match match_at keys text with
          | Some group0 =>
              _replacer color_map group0
                +:+ sub_from color_map keys (String.length group0 - 1) r
          | None => String c (sub_from color_map keys 0 r)
          end
      end
  end.

Definition sub (color_map : gmap string string) (text : string) : string :=
  sub_from color_map (map_to_list color_map).*1 0 text.

(** [recolor_file(path, color_map)]: the returned flag and the filesystem
    after the call. *)
Definition recolor_file (path : string) (color_map : gmap string string)
    (fs : Fs.filesystem) : bool * Fs.filesystem :=
  match Fs.read_text fs path with
  | None => (false, fs)
  | Some text =>
      if decide (color_map = ∅) then (false, fs)
      else
        let new_text := sub color_map text in
        if decide (new_text = text) then (false, fs)
        else
          match Fs.write_text fs path new_text with
          | Some fs' => (true, fs')
          | None => (false, fs)
          end
  end.

(** ** The recolouring loop of [_run_aggiorna] *)

(** [[p for p in targets if p.exists()]]; [targets] is the list once the
    Firefox profiles have been searched. *)
Definition existing_targets (fs : Fs.filesystem) (targets : list string)
    : list string :=
  filter (λ p, Fs.exists_ fs p = true) targets.

(** [for path in existing: if recolor_file(path, color_map): changed += 1]. *)
Fixpoint recolor_each (color_map : gmap string string) (paths : list string)
    (changed : nat) (fs : Fs.filesystem) : nat * Fs.filesystem :=
  match paths with
  | [] => (changed, fs)
  | path :: rest =>
      let r := recolor_file path color_map fs in
      recolor_each color_map rest (if r.1 then S changed else changed) r.2
  end.

(** Step 1 of [_run_aggiorna]: the number of files changed and the files
    afterwards; [None] as for [build_full_color_map]. *)
Definition recolor_targets (old_palette new_palette : palette)
    (targets : list string) (fs : Fs.filesystem)
    : option (nat * Fs.filesystem) :=
  let existing := existing_targets fs targets in
  color_map ← build_full_color_map old_palette new_palette existing fs;
  Some (recolor_each color_map existing 0 fs).

(** ** Vocabulary of the specification *)

Definition is_lower_hex_digit (c : ascii) : bool :=
  let n := N_of_ascii c in
  (((48 <=? n) && (n <=? 57)) || ((97 <=? n) && (n <=? 102)))%N.

Fixpoint all_lower_hex (s : string) : bool :=
  match s with
  | EmptyString => true
  | String c r => is_lower_hex_digit c && all_lower_hex r
  end.

(** A valid 6-digit hex colour, [#rrggbb] in either case. *)
Definition is_hex_color (s : string) : bool :=
  match s with
  | String "#" d => (String.length d =? 6)%nat && all_hex d
  | _ => false
  end.

(** A lowercase 6-digit hex colour. *)
Definition is_lower_hex_color (s : string) : bool :=
  match s with
  | String "#" d => (String.length d =? 6)%nat && all_lower_hex d
  | _ => false
  end.

(** The palette invariant: every value is a valid 6-digit hex colour. *)
Definition palette_ok (p : palette) : Prop :=
  Forall (λ kv, is_hex_color kv.2 = true) p.

(** Every token of [p] is a token of [q]. *)
Definition tokens_within (p q : palette) : Prop :=
  Forall (λ kv, is_Some (dict_get q kv.1)) p.

(** The colour-map invariant: lowercase hex colours on both sides. *)
Definition color_map_ok (m : gmap string string) : Prop :=
  ∀ k v, m !! k = Some v →
    is_lower_hex_color k = true ∧ is_lower_hex_color v = true.

(** No colour introduced by the map is itself rewritten by the map. *)
Definition no_chain (m : gmap string string) : Prop :=
  ∀ k v, m !! k = Some v → m !! v = None.

End Gui.

(* ===================================================================== *)
(** * The installer (material_you_installer.py) *)
(* ===================================================================== *)

Module Installer.

Definition nl : string := String (ascii_of_nat 10) EmptyString.

(** ** Enums and data classes *)

Inductive Status := SUCCESS | SKIPPED | FAILED | PENDING.

Inductive Distro := BAZZITE | SILVERBLUE | FEDORA | UBUNTU | ARCH | UNKNOWN.

Inductive PkgManager := DNF | APT | PACMAN | RPM_OSTREE | NONE.

Record SystemInfo := mkSystemInfo {
  distro : Distro;
  distro_name : string;
  gnome_version : string;
  pkg_manager : PkgManager;
  is_immutable : bool;
  is_wayland : bool;
  home : string;
  has_flatpak : bool
}.

Record ComponentResult := mkResult {
  number : Z;
  name : string;
  status : Status;
  message : string
}.

Global Instance Status_eq_dec : EqDecision Status.
Proof. solve_decision. Defined.

(** ** Exceptions, state and the monad of effectful code *)

Inductive exn :=
| OSError (what : string)
| KeyError (what : string)
| JSONDecodeError
| EOFError
| RuntimeError (what : string)
| KeyboardInterrupt (what : string).

(** [isinstance(e, Exception)]: everything but [KeyboardInterrupt]. *)
Definition is_Exception (e : exn) : bool :=
  match e with KeyboardInterrupt _ => false | _ => true end.

(** [str(e)]. *)
Definition exn_str (e : exn) : string :=
  match e with
  | OSError w | KeyError w | RuntimeError w | KeyboardInterrupt w => w
  | JSONDecodeError => "Expecting value"
  | EOFError => ""
  end.

Inductive result (A : Type) :=
| Ok (a : A)
| Raise (e : exn).
Global Arguments Ok {A} a.
Global Arguments Raise {A} e.

(** What an observer sees of a run: console lines, and the entry of the
    calls the specification speaks about. *)
Inductive event :=
| Print (line : string)
| BackupFileCall (path : string)
| BackupDconfCall (path : string)
| InstallCall (step : Z)
| SaveManifestCall.

(** The [BackupManager] object. *)
Record BackupManager := mkBackupManager {
  bm_dry_run : bool;
  bm_timestamp : string;
  bm_backup_dir : string;
  bm_manifest : Manifest
}.

(** The machine and the one live [BackupManager] of a run.
    [dconf] maps a dconf path to its dump; [dconf_refused] holds the paths
    for which [dconf load] exits with an error. *)
Record State := mkState {
  fs : Fs.filesystem;
  dconf : gmap string string;
  dconf_refused : gset string;
  log : list event;
  backup : BackupManager
}.

Definition M (A : Type) : Type := State → result A * State.

Global Instance M_ret : MRet M := λ A a st, (Ok a, st).
Global Instance M_bind : MBind M := λ A B f m st,
  match m st with
  | (Ok a, st') => f a st'
  | (Raise e, st') => (Raise e, st')
  end.

Definition raise {A} (e : exn) : M A := λ st, (Raise e, st).
Definition get : M State := λ st, (Ok st, st).
Definition put (st : State) : M unit := λ _, (Ok tt, st).

Definition set_fs (f : Fs.filesystem) : M unit := λ st,
  (Ok tt, mkState f (dconf st) (dconf_refused st) (log st) (backup st)).
Definition set_dconf (d : gmap string string) : M unit := λ st,
  (Ok tt, mkState (fs st) d (dconf_refused st) (log st) (backup st)).
Definition set_backup (b : BackupManager) : M unit := λ st,
  (Ok tt, mkState (fs st) (dconf st) (dconf_refused st) (log st) b).
Definition emit (e : event) : M unit := λ st,
  (Ok tt, mkState (fs st) (dconf st) (dconf_refused st) (log st ++ [e]) (backup st)).

(** [console.print(line)]. *)
Definition print (line : string) : M unit := emit (Print line).

(** A filesystem operation whose failure is an [OSError]. *)
Definition fs_op (what : string) (op : Fs.filesystem → option Fs.filesystem) : M unit :=
  st ← get;
  match op (fs st) with
  | Some f => set_fs f
  | None => raise (OSError what)
  end.

(** [copy_file(src, dst)]: [ensure_dir(dst.parent)], [shutil.copy2]. *)
Definition copy_file (src dst : string) : M unit :=
  fs_op "copy" (λ f, Fs.copy2 f src dst).

Definition path_exists (p : string) : M bool :=
  st ← get; mret (Fs.exists_ (fs st) p).

(** ** dconf helpers *)

(** [dconf_dump(path)]: the dump, empty when there is nothing. *)
Definition dconf_dump (path : string) : M string :=
  st ← get; mret (default "" (dconf st !! path)).

(** [run(["dconf", "reset", "-f", path])]. *)
Definition dconf_reset (path : string) : M unit :=
  st ← get; set_dconf (delete path (dconf st)).

(** [dconf_load(path, data)]: false when the command fails. *)
Definition dconf_load (path data : string) : M bool :=
  st ← get;
  if bool_decide (path ∈ dconf_refused st) then mret false
  else set_dconf (<[path := data]> (dconf st));; mret true.

Section WithEnvironment.

(** [Path.home()] and [THEME_DIR]. *)
Variable HOME : string.
Variable THEME_DIR : string.

Definition BACKUP_BASE : string :=
  HOME // ".local" // "share" // "material-you-orange" // "backups".

(** ** BackupManager *)

(** [BackupManager(dry_run)], [now] being the formatted current time. *)
Definition BackupManager_new (dry_run : bool) (now : string) : BackupManager :=
  mkBackupManager dry_run now (BACKUP_BASE // now) (mkManifest now [] []).

(** [self.init()]: creates the backup directory, which is implicit. *)
Definition BackupManager_init : M unit := mret tt.

Definition add_file_record (b : BackupManager) (original dest : string) : BackupManager :=
  let m := bm_manifest b in
  mkBackupManager (bm_dry_run b) (bm_timestamp b) (bm_backup_dir b)
    (mkManifest (m_timestamp m) (m_files m ++ [(original, dest)]) (m_dconf m)).

Definition add_dconf_record (b : BackupManager) (path dest : string) : BackupManager :=
  let m := bm_manifest b in
  mkBackupManager (bm_dry_run b) (bm_timestamp b) (bm_backup_dir b)
    (mkManifest (m_timestamp m) (m_files m) (m_dconf m ++ [(path, dest)])).

(** Where [backup_file] puts the copy of [path]. *)
Definition backup_rel (path : string) : string := PyStr.replace path HOME "~".

Definition backup_dest (backup_dir path : string) : string :=
  backup_dir // "files" // PyStr.lstrip "~/" (backup_rel path).

(** [self.backup_file(path)]. *)
Definition backup_file (path : string) : M bool :=
  emit (BackupFileCall path);;
  present ← path_exists path;
  if negb present then mret false
  else
    st ← get;
    let self := backup st in
    let rel := backup_rel path in
    let dest := backup_dest (bm_backup_dir self) path in
    if bm_dry_run self then
      print ("  [muted]Would backup: " +:+ rel +:+ "[/]");; mret true
    else
      fs_op "copy" (λ f, Fs.copy2 f path dest);;
      set_backup (add_file_record self path dest);;
      mret true.

(** [path.strip("/").replace("/", "_")]. *)
Definition dconf_file_name (path : string) : string :=
  let stripped :=
    String.rev (PyStr.lstrip "/" (String.rev (PyStr.lstrip "/" path))) in
  PyStr.replace stripped "/" "_".

(** [self.backup_dconf(path)]. *)
Definition backup_dconf (path : string) : M bool :=
  emit (BackupDconfCall path);;
  data ← dconf_dump path;
  if decide (data = "") then mret false
  else
    st ← get;
    let self := backup st in
    if bm_dry_run self then
      print ("  [muted]Would backup dconf: " +:+ path +:+ "[/]");; mret true
    else
      let dest := bm_backup_dir self // "dconf" // dconf_file_name path in
      fs_op "write" (λ f, Fs.write_text f dest data);;
      set_backup (add_dconf_record self path dest);;
      mret true.

(** [self.save_manifest()]. *)
Definition save_manifest : M unit :=
  emit SaveManifestCall;;
  st ← get;
  let self := backup st in
  if bm_dry_run self then mret tt
  else
    let manifest_path := bm_backup_dir self // "manifest.json" in
    fs_op "open" (λ f, Fs.write f manifest_path (Fs.Json (bm_manifest self))).

(** The body of the first loop of [restore]. *)
Definition restore_file_entry (entry : string * string) : M unit :=
  let src := entry.2 in
  let dst := entry.1 in
  present ← path_exists src;
  if (present : bool) then
    copy_file src dst;;
    print ("  [success]Restored:[/] " +:+ dst)
  else
    print ("  [warning]Backup file missing:[/] " +:+ src).

Fixpoint restore_files (entries : list (string * string)) : M unit :=
  match entries with
  | [] => mret tt
  | entry :: rest => restore_file_entry entry;; restore_files rest
  end.

(** The body of the second loop of [restore]. *)
Definition restore_dconf_entry (entry : string * string) : M unit :=
  let src := entry.2 in
  let path := entry.1 in
  present ← path_exists src;
  if (present : bool) then
    st ← get;
    match Fs.read_text (fs st) src with
    | None => raise (OSError "read")
    | Some data =>
        dconf_reset path;;
        ok ← dconf_load path data;
        if (ok : bool) then print ("  [success]Restored dconf:[/] " +:+ path)
        else print ("  [error]Failed to restore dconf:[/] " +:+ path)
    end
  else
    print ("  [warning]Backup file missing:[/] " +:+ src).

Fixpoint restore_dconf (entries : list (string * string)) : M unit :=
  match entries with
  | [] => mret tt
  | entry :: rest => restore_dconf_entry entry;; restore_dconf rest
  end.

(** [BackupManager.restore(backup_dir)]. *)
Definition restore (backup_dir : string) : M bool :=
  let manifest_path := backup_dir // "manifest.json" in
  present ← path_exists manifest_path;
  if negb present then
    print "[error]No manifest.json found in backup[/]";; mret false
  else
    st ← get;
    match Fs.read (fs st) manifest_path with
    | None => raise (OSError "open")
    | Some (Fs.Text _) => raise JSONDecodeError
    | Some (Fs.Json manifest) =>
        print (nl +:+ "[info]Restoring from backup: "
               +:+ m_timestamp manifest +:+ "[/]" +:+ nl);;
        restore_files (m_files manifest);;
        restore_dconf (m_dconf manifest);;
        mret true
    end.

(** ** Installer steps *)

(** An [InstallerStep] object: its fields and its [install] method (the
    [backup] argument is the manager held by the state). *)
Record InstallerStep := mkStep {
  step_number : Z;
  step_name : string;
  requires_sudo : bool;
  install : SystemInfo → bool → M ComponentResult
}.

(** The body shared by the steps that install one file: steps 1, 2, 3, 4
    and 7 differ in their paths and messages only. *)
Definition install_by_copy (number : Z) (name src dst missing : string)
    (dry_run : bool) : M ComponentResult :=
  present ← path_exists src;
  if negb present then mret (mkResult number name FAILED missing)
  else
    backup_file dst;;
    if dry_run then
      mret (mkResult number name SUCCESS ("Would copy to " +:+ dst))
    else
      copy_file src dst;;
      mret (mkResult number name SUCCESS "Installed").

Definition GnomeShellInstaller : InstallerStep :=
  mkStep 1 "GNOME Shell Theme" false (λ sys_info dry_run,
    install_by_copy 1 "GNOME Shell Theme"
      (THEME_DIR // "gnome-shell" // "gnome-shell.css")
      (home sys_info // ".themes" // "Material-You-Orange" // "gnome-shell"
         // "gnome-shell.css")
      "Source gnome-shell.css not found" dry_run).

Definition Gtk4Installer : InstallerStep :=
  mkStep 2 "GTK4 Theme" false (λ sys_info dry_run,
    install_by_copy 2 "GTK4 Theme"
      (THEME_DIR // "gtk-4.0" // "gtk.css")
      (home sys_info // ".config" // "gtk-4.0" // "gtk.css")
      "Source gtk-4.0/gtk.css not found" dry_run).

Definition Gtk3Installer : InstallerStep :=
  mkStep 3 "GTK3 Theme" false (λ sys_info dry_run,
    install_by_copy 3 "GTK3 Theme"
      (THEME_DIR // "gtk-3.0" // "gtk.css")
      (home sys_info // ".config" // "gtk-3.0" // "gtk.css")
      "Source gtk-3.0/gtk.css not found" dry_run).

Definition PtyxisInstaller : InstallerStep :=
  mkStep 4 "Ptyxis Palette" false (λ sys_info dry_run,
    install_by_copy 4 "Ptyxis Palette"
      (THEME_DIR // "ptyxis" // "material-you-orange.palette")
      (home sys_info // ".local" // "share" // "org.gnome.Ptyxis" // "palettes"
         // "material-you-orange.palette")
      "Source palette not found" dry_run).

Definition WallpaperInstaller : InstallerStep :=
  mkStep 7 "Wallpaper" false (λ sys_info dry_run,
    install_by_copy 7 "Wallpaper"
      (THEME_DIR // "wallpaper" // "lockscreen.png")
      (home sys_info // ".local" // "share" // "backgrounds" // "lockscreen.png")
      "Source wallpaper not found" dry_run).

Definition global_override : string :=
  "[Context]" +:+ nl +:+
  "filesystems=xdg-config/gtk-3.0:ro;xdg-config/gtk-4.0:ro;~/.local/share/icons:ro;~/.icons:ro;~/.themes:ro"
    +:+ nl +:+ nl +:+
  "[Environment]" +:+ nl +:+
  "GTK_THEME=Marble-red-dark" +:+ nl +:+
  "ICON_THEME=Papirus-Dark" +:+ nl +:+
  "QT_QPA_PLATFORMTHEME=gtk3" +:+ nl +:+
  "QT_STYLE_OVERRIDE=adwaita-dark" +:+ nl.

Definition FlatpakOverridesInstaller : InstallerStep :=
  mkStep 13 "Flatpak Overrides" false (λ sys_info dry_run,
    if negb (has_flatpak sys_info) then
      mret (mkResult 13 "Flatpak Overrides" SKIPPED "Flatpak not available")
    else
      let overrides_dir :=
        home sys_info // ".local" // "share" // "flatpak" // "overrides" in
      if dry_run then
        mret (mkResult 13 "Flatpak Overrides" SUCCESS
                "Would write global Flatpak override")
      else
        let global_file := overrides_dir // "global" in
        backup_file global_file;;
        fs_op "write" (λ f, Fs.write_text f global_file global_override);;
        mret (mkResult 13 "Flatpak Overrides" SUCCESS "Global override written")).

(** The steps that download, unpack or call external programs are not
    modelled: [external n] is what the [install] of step [n] does and
    the status and message it reports (or the exception it raises).
    Like every step, they answer with their own number and name. *)
Variable external : Z → SystemInfo → bool → M (Status * string).

Definition ExternalStep (number : Z) (name : string) (sudo : bool) : InstallerStep :=
  mkStep number name sudo (λ sys_info dry_run,
    r ← external number sys_info dry_run;
    mret (mkResult number name r.1 r.2)).

Definition ALL_STEPS : list InstallerStep :=
  [ GnomeShellInstaller;
    Gtk4Installer;
    Gtk3Installer;
    PtyxisInstaller;
    ExternalStep 5 "Fastfetch Config" false;
    ExternalStep 6 "Burn My Windows" false;
    WallpaperInstaller;
    ExternalStep 8 "Fonts (Inter, Fira Code, Noto Serif)" false;
    ExternalStep 9 "Papirus Icons" false;
    ExternalStep 10 "Bibata Cursor" false;
    ExternalStep 11 "GNOME Extensions" false;
    ExternalStep 12 "dconf Settings" false;
    FlatpakOverridesInstaller;
    ExternalStep 14 "Flatpak GTK Symlinks" false;
    ExternalStep 15 "Firefox Theme" false;
    ExternalStep 16 "GDM Theme" true;
    ExternalStep 17 "DING Desktop Icons Fix" false;
    ExternalStep 18 "rEFInd Boot Manager" true;
    ExternalStep 19 "rEFInd Material You Theme" true ].

(** ** ThemeInstaller *)

(** The parsed command line; [arg_components] is the set [nums] that
    [_select_components] builds from the [--components] string. *)
Record Args := mkArgs {
  arg_non_interactive : bool;
  arg_dry_run : bool;
  arg_components : option (gset Z);
  arg_no_backup : bool
}.

(** [[s for s in ALL_STEPS if s.number in nums]]. *)
Definition select_steps (nums : gset Z) : list InstallerStep :=
  filter (λ s, step_number s ∈ nums) ALL_STEPS.

(** [self._select_components()] for [--components] and for
    [--non-interactive]; the interactive checklist evaluates the same
    comprehension on the numbers typed at its prompt. *)
Definition _select_components (args : Args) : list InstallerStep :=
  match arg_components args with
  | Some nums => select_steps nums
  | None => ALL_STEPS
  end.

(** [try: m except BaseException as e: ..]: the outcome as a value. *)
Definition try_ {A} (m : M A) : M (result A) := λ st,
  let '(r, st') := m st in (Ok r, st').

(** [step.install(self.sys_info, self.backup, self.args.dry_run)]. *)
Definition call_install (step : InstallerStep) (sys_info : SystemInfo)
    (dry_run : bool) : M ComponentResult :=
  emit (InstallCall (step_number step));;
  install step sys_info dry_run.

(** The [while True] loop of [_install_single]: [Prompt.ask] takes the
    next line typed (an empty line is the default, "s"; a line outside
    the choices is refused and the question asked again; the end of the
    input is an [EOFError]).  Returns the result and the lines left. *)
Fixpoint error_prompt (step : InstallerStep) (sys_info : SystemInfo)
    (dry_run : bool) (answers : list string)
    : M (ComponentResult * list string) :=
  match answers with
  | [] => raise EOFError
  | choice :: rest =>
      if decide (choice = "r") then
        r ← try_ (call_install step sys_info dry_run);
        match r with
        | Ok result => mret (result, rest)
        | Raise e2 =>
            if is_Exception e2 then
              print ("  [error]Retry failed: " +:+ exn_str e2 +:+ "[/]");;
              error_prompt step sys_info dry_run rest
            else raise e2
        end
      else if bool_decide (choice = "s" ∨ choice = "") then
        mret (mkResult (step_number step) (step_name step) SKIPPED
                "Skipped by user", rest)
      else if decide (choice = "a") then
        raise (KeyboardInterrupt "Aborted by user")
      else
        print "[prompt.invalid.choice]Please select one of the available options";;
        error_prompt step sys_info dry_run rest
  end.

(** [self._install_single(step)]. *)
Definition _install_single (args : Args) (sys_info : SystemInfo)
    (step : InstallerStep) (answers : list string)
    : M (ComponentResult * list string) :=
  r ← try_ (call_install step sys_info (arg_dry_run args));
  match r with
  | Ok result => mret (result, answers)
  | Raise (KeyboardInterrupt _) =>
      mret (mkResult (step_number step) (step_name step) FAILED "Interrupted",
            answers)
  | Raise e =>
      if arg_non_interactive args then
        mret (mkResult (step_number step) (step_name step) FAILED (exn_str e),
              answers)
      else
        print (nl +:+ "  [error]Error in " +:+ step_name step +:+ ": "
               +:+ exn_str e +:+ "[/]");;
        error_prompt step sys_info (arg_dry_run args) answers
  end.

(** The icon table of [_install_steps]; it has no entry for [PENDING]. *)
Definition status_icon (s : Status) : option string :=
  match s with
  | SUCCESS => Some "[success]v[/]"
  | SKIPPED => Some "[warning]o[/]"
  | FAILED => Some "[error]x[/]"
  | PENDING => None
  end.

(** The loop of [self._install_steps(steps)]; [results] is
    [self.results]. *)
Fixpoint _install_steps (args : Args) (sys_info : SystemInfo)
    (steps : list InstallerStep) (answers : list string)
    (results : list ComponentResult)
    : M (list ComponentResult * list string) :=
  match steps with
  | [] => mret (results, answers)
  | step :: later =>
      ra ← _install_single args sys_info step answers;
      let result : ComponentResult := ra.1 in
      let results := (results ++ [result])%list in
      match status_icon (status result) with
      | None => raise (KeyError "Status.PENDING")
      | Some icon =>
          print ("  " +:+ icon +:+ " " +:+ step_name step +:+ ": "
                 +:+ message result);;
          _install_steps args sys_info later ra.2 results
      end
  end.

Definition result_ok (r : ComponentResult) : bool :=
  match status r with SUCCESS | SKIPPED => true | _ => false end.

(** The install mode of [self.run()], from the selection of the
    components on ([now] is the time the [BackupManager] reads; the
    banner, the detection of the system, the confirmation questions and
    the final table only read and print).  Returns the exit code. *)
Definition run (args : Args) (sys_info : SystemInfo) (now : string)
    (answers : list string) : M Z :=
  let steps := _select_components args in
  match steps with
  | [] => print "[muted]No components selected. Exiting.[/]";; mret 0%Z
  | _ =>
      (if negb (arg_no_backup args) then
         let b := BackupManager_new (arg_dry_run args) now in
         set_backup b;;
         BackupManager_init;;
         if negb (arg_dry_run args) then
           print ("[info]Backup directory:[/] " +:+ bm_backup_dir b +:+ nl)
         else mret tt
       else set_backup (BackupManager_new true now));;
      ra ← _install_steps args sys_info steps answers [];
      (if negb (arg_no_backup args) then save_manifest else mret tt);;
      mret (if forallb result_ok ra.1 then 0%Z else 1%Z)
  end.

(** [main()]: the exit code, 130 after a [KeyboardInterrupt]. *)
Definition main (args : Args) (sys_info : SystemInfo) (now : string)
    (answers : list string) : M Z :=
  r ← try_ (run args sys_info now answers);
  match r with
  | Ok code => mret code
  | Raise (KeyboardInterrupt _) =>
      print (nl +:+ "[warning]Interrupted.[/]");; mret 130%Z
  | Raise e => raise e
  end.

End WithEnvironment.

End Installer.

(* ===================================================================== *)
(** * The installation thread of the GUI (material-you-installer-gui.py) *)
(* ===================================================================== *)

Module GuiInstall.
Import Installer.

Section WithEnvironment.

Variable HOME : string.

(** The loop of [_run_install]: an [Exception] of a step becomes a
    [FAILED] result; [results] is [self.results]. *)
Fixpoint install_loop (sys_info : SystemInfo) (steps : list InstallerStep)
    (results : list ComponentResult) : M (list ComponentResult) :=
  match steps with
  | [] => mret results
  | step :: later =>
      r ← try_ (call_install step sys_info false);
      result ← match r with
               | Ok result => mret result
               | Raise e =>
                   if is_Exception e then
                     mret (mkResult (step_number step) (step_name step) FAILED
                             (exn_str e))
                   else raise e
               end;
      install_loop sys_info later (results ++ [result])%list
  end.

(** [self._run_install(steps)] up to [backup.save_manifest()]; [now] is
    the time the [BackupManager] reads.  What follows stores the name of
    the palette and shows the results.  Returns [self.results]. *)
Definition _run_install (sys_info : SystemInfo) (now : string)
    (steps : list InstallerStep) : M (list ComponentResult) :=
  set_backup (BackupManager_new HOME false now);;
  BackupManager_init;;
  results ← install_loop sys_info steps [];
  save_manifest;;
  mret results.

End WithEnvironment.

End GuiInstall.

(* ===================================================================== *)
(** * Vocabulary of the statements about the installer *)
(* ===================================================================== *)

Module InstallerVocab.
Import Installer.

(** Every file can be read and written. *)
Definition accessible (f : Fs.filesystem) : Prop :=
  map_Forall (λ _ g, Fs.readable g = true ∧ Fs.writable g = true) f.

Definition is_text (d : Fs.data) : bool :=
  match d with Fs.Text _ => true | Fs.Json _ => false end.


(** A step answers with its own number and name. *)
Definition own_result (s : InstallerStep) : Prop :=
  ∀ si d st r st', install s si d st = (Ok r, st') →
                   number r = step_number s ∧ name r = step_name s.

End InstallerVocab.

(* ===================================================================== *)
(** * Facts about strings *)
(* ===================================================================== *)

Module PyStrFacts.
Import PyStr.

Lemma app_cons c a b : String c a +:+ b = String c (a +:+ b).
Proof. reflexivity. Qed.

Lemma app_nil_l s : "" +:+ s = s.
Proof. reflexivity. Qed.

Lemma take_drop n s : take n s +:+ drop n s = s.
Proof.
  revert s; induction n as [|n IH]; intros [|c r]; try reflexivity.
  cbn [take drop]. rewrite app_cons, IH. reflexivity.
Qed.

Lemma length_take_le n s : String.length (take n s) <= n.
Proof.
  revert s; induction n as [|n IH]; intros [|c r]; cbn; try lia.
  specialize (IH r). lia.
Qed.

Lemma length_lower s : String.length (lower s) = String.length s.
Proof. induction s as [|c r IH]; cbn; congruence. Qed.

Lemma length_upper s : String.length (upper s) = String.length s.
Proof. induction s as [|c r IH]; cbn; congruence. Qed.

Lemma length_app a b : String.length (a +:+ b) = String.length a + String.length b.
Proof. induction a as [|c a IH]; [reflexivity|]. rewrite app_cons. cbn. lia. Qed.

Lemma take_app_length a b : take (String.length a) (a +:+ b) = a.
Proof.
  induction a as [|c a IH]; [reflexivity|].
  rewrite app_cons. cbn. congruence.
Qed.

Lemma drop_app_length a b : drop (String.length a) (a +:+ b) = b.
Proof. induction a as [|c a IH]; [reflexivity|]. rewrite app_cons. cbn. exact IH. Qed.

Lemma lower_take n s : lower (take n s) = take n (lower s).
Proof.
  revert s; induction n as [|n IH]; intros [|c r]; cbn; try reflexivity.
  rewrite IH. reflexivity.
Qed.

Lemma lower_char_idem c : lower_char (lower_char c) = lower_char c.
Proof. destruct c as [[] [] [] [] [] [] [] []]; reflexivity. Qed.

Lemma lower_upper_char c : lower_char (upper_char c) = lower_char c.
Proof. destruct c as [[] [] [] [] [] [] [] []]; reflexivity. Qed.

Lemma lower_upper s : lower (upper s) = lower s.
Proof. induction s as [|c r IH]; cbn; [reflexivity|]. rewrite lower_upper_char, IH. reflexivity. Qed.

Lemma lower_char_hash c : lower_char c = "#"%char → c = "#"%char.
Proof. destruct c as [[] [] [] [] [] [] [] []]; cbv; congruence. Qed.

Lemma has_lower_upper s : has_lower (upper s) = false.
Proof.
  induction s as [|c r IH]; cbn; [reflexivity|]. rewrite IH.
  destruct c as [[] [] [] [] [] [] [] []]; reflexivity.
Qed.

End PyStrFacts.

(* ===================================================================== *)
(** * Facts about the colour map *)
(* ===================================================================== *)

Module GuiFacts.
Import PyStr PyStrFacts Gui.

(** ** Hex colours *)

Lemma lower_hex_digit_of_hex c :
  is_hex_digit c = true → is_lower_hex_digit (lower_char c) = true.
Proof. destruct c as [[] [] [] [] [] [] [] []]; cbv; congruence. Qed.

Lemma lower_hex_is_hex c : is_lower_hex_digit c = true → is_hex_digit c = true.
Proof. destruct c as [[] [] [] [] [] [] [] []]; cbv; congruence. Qed.

Lemma lower_char_lower_hex c : is_lower_hex_digit c = true → lower_char c = c.
Proof. destruct c as [[] [] [] [] [] [] [] []]; cbv; congruence. Qed.

Lemma lower_hex_of_lowered c :
  is_lower_hex_digit (lower_char c) = true → is_hex_digit c = true.
Proof. destruct c as [[] [] [] [] [] [] [] []]; cbv; congruence. Qed.

Lemma hex_digit_not_hash c : is_hex_digit c = true → c ≠ "#"%char.
Proof. destruct c as [[] [] [] [] [] [] [] []]; cbv; congruence. Qed.

Lemma upper_lower_hex_is_hex c :
  is_lower_hex_digit c = true → is_hex_digit (upper_char c) = true.
Proof. destruct c as [[] [] [] [] [] [] [] []]; cbv; congruence. Qed.

Lemma all_lower_hex_lower d : all_hex d = true → all_lower_hex (lower d) = true.
Proof.
  induction d as [|c r IH]; cbn; [reflexivity|].
  intros [Hc Hr]%andb_true_iff.
  rewrite lower_hex_digit_of_hex, IH; auto.
Qed.

Lemma all_lower_hex_all_hex d : all_lower_hex d = true → all_hex d = true.
Proof.
  induction d as [|c r IH]; cbn; [reflexivity|].
  intros [Hc Hr]%andb_true_iff. rewrite lower_hex_is_hex, IH; auto.
Qed.

Lemma lower_all_lower_hex d : all_lower_hex d = true → lower d = d.
Proof.
  induction d as [|c r IH]; cbn; [reflexivity|].
  intros [Hc Hr]%andb_true_iff. rewrite lower_char_lower_hex, IH; auto.
Qed.

Lemma lower_hex_color s : is_hex_color s = true → is_lower_hex_color (lower s) = true.
Proof.
  destruct s as [|c d]; [discriminate|].
  unfold is_hex_color. destruct (ascii_dec c "#") as [->|Hc].
  - intros [Hl Hd]%andb_true_iff. cbn.
    rewrite length_lower, Hl, all_lower_hex_lower; auto.
  - destruct c as [[] [] [] [] [] [] [] []]; try discriminate. congruence.
Qed.

Lemma lower_hex_color_is_hex s : is_lower_hex_color s = true → is_hex_color s = true.
Proof.
  destruct s as [|c d]; [discriminate|].
  unfold is_lower_hex_color, is_hex_color.
  destruct c as [[] [] [] [] [] [] [] []]; try discriminate.
  intros [Hl Hd]%andb_true_iff. rewrite Hl, all_lower_hex_all_hex; auto.
Qed.

Lemma lower_hex_color_fix s : is_lower_hex_color s = true → lower s = s.
Proof.
  destruct s as [|c d]; [discriminate|].
  unfold is_lower_hex_color.
  destruct c as [[] [] [] [] [] [] [] []]; try discriminate.
  intros [Hl Hd]%andb_true_iff. cbn [lower]. rewrite lower_all_lower_hex by auto.
  reflexivity.
Qed.

(** The shape of a valid hex colour. *)
Lemma hex_color_inv s :
  is_hex_color s = true →
  ∃ c1 c2 c3 c4 c5 c6,
    s = String "#" (String c1 (String c2 (String c3 (String c4 (String c5
          (String c6 EmptyString))))))
    ∧ is_hex_digit c1 = true ∧ is_hex_digit c2 = true ∧ is_hex_digit c3 = true
    ∧ is_hex_digit c4 = true ∧ is_hex_digit c5 = true ∧ is_hex_digit c6 = true.
Proof.
  destruct s as [|c d]; [discriminate|].
  unfold is_hex_color.
  destruct (ascii_dec c "#") as [->|Hc];
    [|destruct c as [[] [] [] [] [] [] [] []]; try discriminate; congruence].
  intros [Hl Hd]%andb_true_iff.
  destruct d as [|c1 [|c2 [|c3 [|c4 [|c5 [|c6 [|c7 d]]]]]]]; try discriminate.
  cbn in Hd. repeat (apply andb_true_iff in Hd as [? Hd]).
  exists c1, c2, c3, c4, c5, c6. auto 10.
Qed.

Lemma hex_to_hsl_total s :
  is_hex_color s = true → is_Some (hex_to_hsl s).
Proof.
  intros (c1 & c2 & c3 & c4 & c5 & c6 & -> & H1 & H2 & H3 & H4 & H5 & H6)%hex_color_inv.
  unfold hex_to_hsl, slice. cbn [drop take Nat.sub].
  unfold int16. cbn [all_hex]. rewrite H1, H2, H3, H4, H5, H6. cbn [andb mbind option_bind].
  destruct (Colorsys.rgb_to_hls _ _ _) as [[h l] sat]. eauto.
Qed.

(** ** [hsl_to_hex] returns a lowercase hex colour *)

Lemma hex_digit_lower d : (0 ≤ d < 16)%Z → is_lower_hex_digit (hex_digit d) = true.
Proof.
  intros Hd. replace d with (Z.of_nat (Z.to_nat d)) by lia.
  assert (Hn : Z.to_nat d < 16) by lia.
  generalize dependent (Z.to_nat d). intros n Hn.
  do 16 (destruct n as [|n]; [reflexivity|]). lia.
Qed.

Lemma channel_range x : (0 ≤ channel x ≤ 255)%Z.
Proof. unfold channel. lia. Qed.

Lemma format_02x_lower n :
  (0 ≤ n ≤ 255)%Z →
  ∃ a b, format_02x n = String a (String b EmptyString)
         ∧ is_lower_hex_digit a = true ∧ is_lower_hex_digit b = true.
Proof.
  intros Hn. unfold format_02x. do 2 eexists. split; [reflexivity|].
  split; apply hex_digit_lower.
  - split; [apply Z.div_pos; lia | apply Z.div_lt_upper_bound; lia].
  - apply Z.mod_pos_bound. lia.
Qed.

Lemma hsl_to_hex_lower h s l : is_lower_hex_color (hsl_to_hex h s l) = true.
Proof.
  unfold hsl_to_hex. destruct (Colorsys.hls_to_rgb _ _ _) as [[r g] b].
  destruct (format_02x_lower (channel r) (channel_range r)) as (r1 & r2 & -> & Hr1 & Hr2).
  destruct (format_02x_lower (channel g) (channel_range g)) as (g1 & g2 & -> & Hg1 & Hg2).
  destruct (format_02x_lower (channel b) (channel_range b)) as (b1 & b2 & -> & Hb1 & Hb2).
  cbv [String.append]. cbn [is_lower_hex_color String.length all_lower_hex].
  rewrite Hr1, Hr2, Hg1, Hg2, Hb1, Hb2. reflexivity.
Qed.

(** ** The literals found in a text are hex colours *)

Lemma hex_literal_at_hex s lit : hex_literal_at s = Some lit → is_hex_color lit = true.
Proof.
  destruct s as [|c r]; [discriminate|]. unfold hex_literal_at.
  destruct (ascii_dec c "#") as [->|Hc];
    [|destruct c as [[] [] [] [] [] [] [] []]; try discriminate; congruence].
  destruct (_ && _) eqn:E; [|discriminate].
  intros [= <-]. apply andb_true_iff in E as [E _]. exact E.
Qed.

Lemma findall_from_hex skip text :
  Forall (λ lit, is_hex_color lit = true) (findall_from skip text).
Proof.
  revert skip; induction text as [|c r IH]; intros skip; [constructor|].
  cbn [findall_from]. destruct skip as [|k]; [|apply IH].
  destruct (hex_literal_at _) eqn:E; [|apply IH].
  constructor; [eapply hex_literal_at_hex; eauto | apply IH].
Qed.

Lemma collect_hexes_lower fs css_files acc x :
  x ∈ collect_hexes fs css_files acc →
  x ∈ acc ∨ is_lower_hex_color x = true.
Proof.
  revert acc; induction css_files as [|p rest IH]; intros acc; cbn; [auto|].
  intros [Hx|Hx]%IH; [|auto].
  apply elem_of_union in Hx as [Hx|Hx]; [auto|right].
  destruct (Fs.exists_ fs p); [|set_solver].
  destruct (Fs.read_text fs p) as [text|]; [|set_solver].
  apply elem_of_list_to_set, list_elem_of_fmap in Hx as (lit & -> & Hlit).
  apply lower_hex_color.
  pose proof (findall_from_hex 0 text) as HF.
  rewrite Forall_forall in HF. exact (HF _ Hlit).
Qed.

(** ** The loops of [build_full_color_map] *)

Lemma dict_get_elem (d : palette) k v : dict_get d k = Some v → (k, v) ∈ d.
Proof.
  induction d as [|[k' v'] r IH]; cbn; [discriminate|].
  destruct (decide (k' = k)) as [->|Hne].
  - intros [= ->]. left.
  - intros H. right. auto.
Qed.

Lemma direct_mappings_total items new_palette mapping :
  tokens_within items new_palette →
  is_Some (direct_mappings items new_palette mapping).
Proof.
  revert mapping; induction items as [|[key ov] rest IH]; intros mapping Hin; cbn.
  - eauto.
  - inversion Hin as [|? ? [nv Hnv] Hrest]; subst. cbn in Hnv. rewrite Hnv. cbn.
    apply IH, Hrest.
Qed.

(** Induction principle for step 1: every entry written is a pair of
    lowered token values that differ. *)
Lemma direct_mappings_ind (Inv : gmap string string → Prop) items new_palette mapping m :
  Inv mapping →
  (∀ m0 key ov nv,
      Inv m0 → (key, ov) ∈ items → dict_get new_palette key = Some nv →
      lower ov ≠ lower nv → Inv (<[lower ov := lower nv]> m0)) →
  direct_mappings items new_palette mapping = Some m → Inv m.
Proof.
  revert mapping; induction items as [|[key ov] rest IH]; intros mapping H0 Hstep; cbn.
  - intros [= <-]. exact H0.
  - destruct (dict_get new_palette key) as [nv|] eqn:Hnv; [|discriminate]. cbn.
    apply IH.
    + destruct (decide (lower ov = lower nv)); [exact H0|].
      eapply Hstep; eauto. left.
    + intros m0 key' ov' nv' Hm0 Hin. apply Hstep; auto. right. exact Hin.
Qed.

(** What one iteration of step 4 can do. *)
Lemma shift_one_spec old_hue hue_shift target_values mapping x m' :
  shift_one old_hue hue_shift target_values mapping x = Some m' →
  m' = mapping
  ∨ ∃ h s l,
      mapping !! x = None ∧ (x ∉ PROTECTED_COLORS) ∧ (x ∉ target_values)
      ∧ hex_to_hsl x = Some (h, s, l)
      ∧ in_accent_family old_hue h s = true
      ∧ hsl_to_hex (PyFloat.mod_ (h + hue_shift)%float 360) s l ≠ x
      ∧ m' = <[x := hsl_to_hex (PyFloat.mod_ (h + hue_shift)%float 360) s l]> mapping.
Proof.
  unfold shift_one.
  destruct (bool_decide (is_Some (mapping !! x))) eqn:E1; cbn [orb];
    [intros [= <-]; auto|].
  destruct (bool_decide (x ∈ PROTECTED_COLORS)) eqn:E2; cbn [orb];
    [intros [= <-]; auto|].
  destruct (bool_decide (x ∈ target_values)) eqn:E3; cbn [orb];
    [intros [= <-]; auto|].
  apply bool_decide_eq_false in E1, E2, E3.
  destruct (hex_to_hsl x) as [[[h s] l]|] eqn:Eh; cbn; [|discriminate].
  destruct (in_accent_family old_hue h s) eqn:Ea; [|intros [= <-]; auto].
  destruct (decide (_ = x)) as [|Hne]; [intros [= <-]; auto|].
  intros [= <-]. right. exists h, s, l.
  repeat split; auto.
  destruct (mapping !! x) eqn:Ex; [exfalso; apply E1; eauto | reflexivity].
Qed.

Lemma shift_one_total old_hue hue_shift target_values mapping x :
  is_hex_color x = true →
  is_Some (shift_one old_hue hue_shift target_values mapping x).
Proof.
  intros [[[h s] l] Hh]%hex_to_hsl_total. unfold shift_one.
  destruct (_ || _); [eauto|]. rewrite Hh. cbn.
  destruct (in_accent_family _ _ _); [|eauto].
  destruct (decide _); eauto.
Qed.

Lemma shift_all_total old_hue hue_shift target_values hexes mapping :
  Forall (λ x, is_hex_color x = true) hexes →
  is_Some (shift_all old_hue hue_shift target_values hexes mapping).
Proof.
  revert mapping; induction hexes as [|x rest IH]; intros mapping Hall; cbn; [eauto|].
  inversion Hall as [|? ? Hx Hrest]; subst.
  destruct (shift_one_total old_hue hue_shift target_values mapping x Hx) as [m1 ->].
  cbn. apply IH, Hrest.
Qed.

(** Induction principle for step 4: every entry written passed the guards
    of the loop. *)
Lemma shift_all_ind (Inv : gmap string string → Prop)
    old_hue hue_shift target_values hexes mapping m :
  Inv mapping →
  (∀ m0 x h s l,
      Inv m0 → x ∈ hexes → m0 !! x = None →
      x ∉ PROTECTED_COLORS → x ∉ target_values →
      hex_to_hsl x = Some (h, s, l) → in_accent_family old_hue h s = true →
      hsl_to_hex (PyFloat.mod_ (h + hue_shift)%float 360) s l ≠ x →
      Inv (<[x := hsl_to_hex (PyFloat.mod_ (h + hue_shift)%float 360) s l]> m0)) →
  shift_all old_hue hue_shift target_values hexes mapping = Some m → Inv m.
Proof.
  revert mapping; induction hexes as [|x rest IH]; intros mapping H0 Hstep; cbn.
  - intros [= <-]. exact H0.
  - destruct (shift_one _ _ _ mapping x) as [m1|] eqn:E1; [|discriminate]. cbn.
    apply IH.
    + apply shift_one_spec in E1
        as [->|(h & s & l & Hnone & Hp & Ht & Hh & Ha & Hne & ->)]; [exact H0|].
      eapply Hstep; eauto. left.
    + intros m0 y h s l Hm0 Hin. apply Hstep; auto. right. exact Hin.
Qed.

(** The parts of a successful [build_full_color_map]. *)
Lemma build_full_color_map_inv old_palette new_palette css_files fs m :
  build_full_color_map old_palette new_palette css_files fs = Some m →
  ∃ d old_primary old_hue old_s old_l new_primary new_hue new_s new_l,
    direct_mappings old_palette new_palette ∅ = Some d
    ∧ dict_get old_palette "primary" = Some old_primary
    ∧ hex_to_hsl old_primary = Some (old_hue, old_s, old_l)
    ∧ dict_get new_palette "primary" = Some new_primary
    ∧ hex_to_hsl new_primary = Some (new_hue, new_s, new_l)
    ∧ ((PrimFloat.abs (new_hue - old_hue) <? 0.5)%float = true ∧ m = d
       ∨ (PrimFloat.abs (new_hue - old_hue) <? 0.5)%float = false
         ∧ shift_all old_hue (new_hue - old_hue)%float (map_img d)
             (elements (collect_hexes fs css_files ∅)) d = Some m).
Proof.
  unfold build_full_color_map.
  destruct (direct_mappings _ _ _) as [d|] eqn:Ed; [|discriminate]. cbn.
  destruct (dict_get old_palette "primary") as [op|] eqn:Eop; [|discriminate]. cbn.
  destruct (hex_to_hsl op) as [[[oh os] ol]|] eqn:Eoh; [|discriminate]. cbn.
  destruct (dict_get new_palette "primary") as [np|] eqn:Enp; [|discriminate]. cbn.
  destruct (hex_to_hsl np) as [[[nh ns] nl_]|] eqn:Enh; [|discriminate]. cbn.
  intros H. exists d, op, oh, os, ol, np, nh, ns, nl_.
  repeat (split; [assumption || reflexivity|]).
  destruct (_ <? _)%float eqn:E; [left|right]; split; auto. congruence.
Qed.

Definition entry_ok (k v : string) : Prop :=
  is_lower_hex_color k = true ∧ is_lower_hex_color v = true ∧ k ≠ v.

Lemma collected_hexes_are_colors fs css_files :
  Forall (λ x, is_hex_color x = true) (elements (collect_hexes fs css_files ∅)).
Proof.
  apply Forall_forall. intros x Hx%elem_of_elements.
  apply collect_hexes_lower in Hx as [Hx|Hx]; [set_solver|].
  apply lower_hex_color_is_hex, Hx.
Qed.

Lemma direct_mappings_entries old_palette new_palette d :
  palette_ok old_palette → palette_ok new_palette →
  direct_mappings old_palette new_palette ∅ = Some d →
  map_Forall entry_ok d.
Proof.
  intros Hold Hnew. apply direct_mappings_ind.
  - apply map_Forall_empty.
  - intros m0 key ov nv Hm0 Hin Hget Hne.
    apply map_Forall_insert_2; [|exact Hm0].
    unfold palette_ok in Hold, Hnew. rewrite Forall_forall in Hold, Hnew.
    repeat split; [| |exact Hne]; apply lower_hex_color.
    + exact (Hold _ Hin).
    + exact (Hnew _ (dict_get_elem _ _ _ Hget)).
Qed.

Lemma shift_all_entries old_hue hue_shift target_values hexes d m :
  map_Forall entry_ok d →
  Forall (λ x, is_lower_hex_color x = true) hexes →
  shift_all old_hue hue_shift target_values hexes d = Some m →
  map_Forall entry_ok m.
Proof.
  intros Hd Hhex. apply shift_all_ind; [exact Hd|].
  intros m0 x h s l Hm0 Hin _ _ _ _ _ Hne.
  apply map_Forall_insert_2; [|exact Hm0].
  rewrite Forall_forall in Hhex.
  repeat split; [exact (Hhex _ Hin) | apply hsl_to_hex_lower | congruence].
Qed.

(** C9: on palettes that satisfy the palette invariant (every value a
    valid 6-digit hex colour, the tokens of the old palette defined by the
    new one, a "primary" token), [build_full_color_map] returns a map, and
    every key and every value of that map is a lowercase 6-digit hex
    colour and no key maps to itself. *)
Theorem color_map_keys_values_lowercase_hex old_palette new_palette css_files fs :
  palette_ok old_palette → palette_ok new_palette →
  tokens_within old_palette new_palette →
  is_Some (dict_get old_palette "primary") →
  ∃ m, build_full_color_map old_palette new_palette css_files fs = Some m
       ∧ ∀ k v, m !! k = Some v →
           is_lower_hex_color k = true ∧ is_lower_hex_color v = true ∧ k ≠ v.
Proof.
  intros Hold Hnew Htok [op Hop].
  destruct (direct_mappings_total old_palette new_palette ∅ Htok) as [d Hd].
  pose proof (direct_mappings_entries _ _ _ Hold Hnew Hd) as Hdok.
  pose proof (dict_get_elem _ _ _ Hop) as Hopin.
  assert (Hoph : is_hex_color op = true).
  { unfold palette_ok in Hold. rewrite Forall_forall in Hold. exact (Hold _ Hopin). }
  assert (Hnp : is_Some (dict_get new_palette "primary")).
  { unfold tokens_within in Htok. rewrite Forall_forall in Htok. exact (Htok _ Hopin). }
  destruct Hnp as [np Hnp].
  assert (Hnph : is_hex_color np = true).
  { unfold palette_ok in Hnew. rewrite Forall_forall in Hnew.
    exact (Hnew _ (dict_get_elem _ _ _ Hnp)). }
  destruct (hex_to_hsl_total _ Hoph) as [[[oh os] ol] Hoh].
  destruct (hex_to_hsl_total _ Hnph) as [[[nh ns] nl_] Hnh].
  unfold build_full_color_map. rewrite Hd. cbn. rewrite Hop. cbn. rewrite Hoh. cbn.
  rewrite Hnp. cbn. rewrite Hnh. cbn.
  destruct (_ <? _)%float.
  - exists d. split; [reflexivity|]. intros k v Hkv. exact (Hdok k v Hkv).
  - destruct (shift_all_total oh (nh - oh)%float (map_img d)
                (elements (collect_hexes fs css_files ∅)) d
                (collected_hexes_are_colors fs css_files)) as [m Hm].
    exists m. split; [exact Hm|]. intros k v Hkv.
    refine (shift_all_entries _ _ _ _ _ _ Hdok _ Hm k v Hkv).
    apply Forall_forall. intros x Hx%elem_of_elements.
    apply collect_hexes_lower in Hx as [Hx|Hx]; [set_solver|exact Hx].
Qed.

(** A run of C9: the Orange and Blue palettes and a stylesheet. *)
Definition sample_css : Fs.filesystem :=
  {[ "/gtk.css" :=
       Fs.mkFile (Fs.Text "a { color: #ffb86c; b: #FFFFFF; c: #ff8800 }") true true ]}.

(** An option that holds a value holds its default-free reading. *)
Lemma some_default {A} (o : option A) (d : A) :
  match o with Some _ => true | None => false end = true →
  o = Some (default d o).
Proof. destruct o; [reflexivity | discriminate]. Qed.

(** The map built for that run. *)
Definition sample_map : gmap string string :=
  default ∅ (build_full_color_map palette_Orange palette_Blue ["/gtk.css"] sample_css).

Lemma sample_map_built :
  build_full_color_map palette_Orange palette_Blue ["/gtk.css"] sample_css
  = Some sample_map.
Proof. apply some_default. vm_compute. reflexivity. Qed.

Lemma color_map_keys_values_lowercase_hex_witness :
  ∃ m, build_full_color_map palette_Orange palette_Blue ["/gtk.css"] sample_css = Some m
       ∧ ∀ k v, m !! k = Some v →
           is_lower_hex_color k = true ∧ is_lower_hex_color v = true ∧ k ≠ v.
Proof.
  apply (color_map_keys_values_lowercase_hex palette_Orange palette_Blue).
  - unfold palette_ok. repeat constructor.
  - unfold palette_ok. repeat constructor.
  - unfold tokens_within. repeat (constructor; [vm_compute; eauto|]). constructor.
  - vm_compute. eauto.
Defined.

(** C2, as amended: in every map that [build_full_color_map] returns, the
    direct token entries are kept as they are, and every other
    (extrapolated) entry has a source colour that is not protected, lies
    at a circular hue distance of at most 35 degrees (inclusive) from the
    old primary hue and has a saturation strictly above 0.05. *)
Theorem extrapolated_entries_guarded old_palette new_palette css_files fs m :
  build_full_color_map old_palette new_palette css_files fs = Some m →
  ∃ d old_primary old_hue old_s old_l,
    direct_mappings old_palette new_palette ∅ = Some d
    ∧ dict_get old_palette "primary" = Some old_primary
    ∧ hex_to_hsl old_primary = Some (old_hue, old_s, old_l)
    ∧ (∀ k v, d !! k = Some v → m !! k = Some v)
    ∧ ∀ k v, m !! k = Some v → d !! k = None →
        (k ∉ PROTECTED_COLORS)
        ∧ ∃ h s l, hex_to_hsl k = Some (h, s, l)
                   ∧ (hue_distance h old_hue <=? 35)%float = true
                   ∧ (0.05 <? s)%float = true.
Proof.
  intros (d & op & oh & os & ol & np & nh & ns & nl_ & Hd & Hop & Hoh & _ & _ & Hm)
    %build_full_color_map_inv.
  exists d, op, oh, os, ol. repeat (split; [assumption|]).
  destruct Hm as [[_ ->]|[_ Hm]].
  - split; [auto|]. intros k v Hk Hn. congruence.
  - revert Hm.
    apply (shift_all_ind (λ m0,
      (∀ k v, d !! k = Some v → m0 !! k = Some v)
      ∧ ∀ k v, m0 !! k = Some v → d !! k = None →
          (k ∉ PROTECTED_COLORS)
          ∧ ∃ h s l, hex_to_hsl k = Some (h, s, l)
                     ∧ (hue_distance h oh <=? 35)%float = true
                     ∧ (0.05 <? s)%float = true)).
    + split; [auto|]. intros k v Hk Hn. congruence.
    + intros m0 x h s l [Hkeep Hguard] _ Hnone Hprot _ Hh Hacc _. split.
      * intros k v Hk. rewrite lookup_insert_ne; [auto|].
        intros <-. apply Hkeep in Hk. congruence.
      * intros k v Hk Hn. destruct (decide (x = k)) as [<-|Hne].
        -- split; [exact Hprot|]. exists h, s, l.
           apply andb_true_iff in Hacc as [? ?]. auto.
        -- rewrite lookup_insert_ne in Hk by exact Hne. eauto.
Qed.

Lemma extrapolated_entries_guarded_witness :
  ∃ m, build_full_color_map palette_Orange palette_Blue ["/gtk.css"] sample_css = Some m
    ∧ ∃ d old_primary old_hue old_s old_l,
        direct_mappings palette_Orange palette_Blue ∅ = Some d
        ∧ dict_get palette_Orange "primary" = Some old_primary
        ∧ hex_to_hsl old_primary = Some (old_hue, old_s, old_l)
        ∧ (∀ k v, d !! k = Some v → m !! k = Some v)
        ∧ ∀ k v, m !! k = Some v → d !! k = None →
            (k ∉ PROTECTED_COLORS)
            ∧ ∃ h s l, hex_to_hsl k = Some (h, s, l)
                       ∧ (hue_distance h old_hue <=? 35)%float = true
                       ∧ (0.05 <? s)%float = true.
Proof.
  exists sample_map. split; [exact sample_map_built|].
  apply (extrapolated_entries_guarded palette_Orange palette_Blue ["/gtk.css"] sample_css).
  exact sample_map_built.
Defined.

(** The map of that run does hold an extrapolated entry. *)
Example sample_extrapolated_entry :
  ∃ m d, build_full_color_map palette_Orange palette_Blue ["/gtk.css"] sample_css = Some m
         ∧ direct_mappings palette_Orange palette_Blue ∅ = Some d
         ∧ m !! "#ff8800" = Some "#005cff" ∧ d !! "#ff8800" = None
         ∧ m !! "#ffffff" = None.
Proof.
  exists sample_map, (default ∅ (direct_mappings palette_Orange palette_Blue ∅)).
  split; [exact sample_map_built|].
  split; [apply some_default; vm_compute; reflexivity|].
  repeat split; vm_compute; reflexivity.
Qed.

(** C2 as stated fails: from Green to Orange the primary hues differ by
    more than half a degree, and the map holds a direct entry whose source,
    Green's primary [#a8c77a], is a protected colour. *)
Lemma protected_source_in_direct_entry :
  ∃ m old_hue s1 l1 new_hue s2 l2,
    build_full_color_map palette_Green palette_Orange [] ∅ = Some m
    ∧ (dict_get palette_Green "primary" ≫= hex_to_hsl) = Some (old_hue, s1, l1)
    ∧ (dict_get palette_Orange "primary" ≫= hex_to_hsl) = Some (new_hue, s2, l2)
    ∧ (PrimFloat.abs (new_hue - old_hue) <? 0.5)%float = false
    ∧ m !! "#a8c77a" = Some "#ffb86c"
    ∧ "#a8c77a" ∈ PROTECTED_COLORS.
Proof.
  exists (default ∅ (build_full_color_map palette_Green palette_Orange [] ∅)).
  do 6 eexists. split; [apply some_default; vm_compute; reflexivity|].
  split; [vm_compute; reflexivity|].
  split; [vm_compute; reflexivity|].
  split; [vm_compute; reflexivity|].
  split; [vm_compute; reflexivity|].
  apply (bool_decide_eq_true_1 _). vm_compute. reflexivity.
Qed.

(** ** The single pass of [recolor_file] *)

(** No ['#'] in the string. *)
Fixpoint hashless (s : string) : bool :=
match s with
| EmptyString => true
| String c r => if ascii_dec c "#" then false else hashless r
end.

Lemma imatches_spec key s :
imatches key s = true ↔ lower (take (String.length key) s) = lower key.
Proof.
revert s; induction key as [|a k IH]; intros [|b s]; cbn; try (split; congruence).
unfold ieq_char. rewrite andb_true_iff, IH.
destruct (ascii_dec (lower_char a) (lower_char b)) as [E|E].
- rewrite E. split; [intros [_ ->]; reflexivity | intros [= ->]; auto].
- split; [intros [? _]; discriminate | intros [= E' _]; congruence].
Qed.

Lemma lower_hex_color_length k : is_lower_hex_color k = true → String.length k = 7.
Proof.
destruct k as [|c d]; [discriminate|]. unfold is_lower_hex_color.
destruct c as [[] [] [] [] [] [] [] []]; try discriminate.
intros [Hl _]%andb_true_iff. apply Nat.eqb_eq in Hl. cbn. lia.
Qed.

Lemma lower_hex_color_shape k :
is_lower_hex_color k = true →
∃ t, k = String "#" t ∧ String.length t = 6 ∧ all_lower_hex t = true.
Proof.
destruct k as [|c d]; [discriminate|]. unfold is_lower_hex_color.
destruct c as [[] [] [] [] [] [] [] []]; try discriminate.
intros [Hl Hd]%andb_true_iff. apply Nat.eqb_eq in Hl. eauto.
Qed.

Lemma match_at_lower_hex keys s :
Forall (λ k, is_lower_hex_color k = true) keys →
match_at keys s
= if bool_decide (lower (take 7 s) ∈ keys) then Some (take 7 s) else None.
Proof.
induction keys as [|k keys IH]; intros Hall; cbn [match_at].
- rewrite bool_decide_eq_false_2; [reflexivity | apply not_elem_of_nil].
- inversion Hall as [|? ? Hk Hrest]; subst.
  pose proof (lower_hex_color_length _ Hk) as Hlen.
  pose proof (lower_hex_color_fix _ Hk) as Hfix.
  rewrite Hlen. cbn [Nat.eqb negb andb].
  destruct (imatches k s) eqn:E.
  + apply imatches_spec in E. rewrite Hlen, Hfix in E.
    rewrite bool_decide_eq_true_2; [reflexivity | rewrite E; left].
  + rewrite IH by exact Hrest.
    assert (Hne : lower (take 7 s) ≠ k).
    { intros Heq. apply not_true_iff_false in E. apply E, imatches_spec.
      rewrite Hlen, Hfix. exact Heq. }
    destruct (bool_decide (lower (take 7 s) ∈ keys)) eqn:E2.
    * apply bool_decide_eq_true in E2.
      rewrite bool_decide_eq_true_2; [reflexivity | right; exact E2].
    * apply bool_decide_eq_false in E2.
      rewrite bool_decide_eq_false_2; [reflexivity|].
      intros [?|?]%elem_of_cons; auto.
Qed.

Lemma keys_lower_hex (m : gmap string string) :
color_map_ok m → Forall (λ k, is_lower_hex_color k = true) (map_to_list m).*1.
Proof.
intros Hok. apply Forall_forall. intros k Hk.
apply list_elem_of_fmap in Hk as ([k' v] & -> & Hkv).
apply elem_of_map_to_list in Hkv. exact (proj1 (Hok _ _ Hkv)).
Qed.

Lemma elem_of_keys (m : gmap string string) k :
k ∈ (map_to_list m).*1 ↔ is_Some (m !! k).
Proof.
split.
- intros Hk. apply list_elem_of_fmap in Hk as ([k' v] & -> & Hkv).
  apply elem_of_map_to_list in Hkv. eauto.
- intros [v Hv]. apply list_elem_of_fmap. exists (k, v). split; [reflexivity|].
  apply elem_of_map_to_list. exact Hv.
Qed.

Lemma match_at_hit (m : gmap string string) s v :
color_map_ok m → m !! lower (take 7 s) = Some v →
match_at (map_to_list m).*1 s = Some (take 7 s).
Proof.
intros Hok Hv. rewrite match_at_lower_hex by (apply keys_lower_hex, Hok).
rewrite bool_decide_eq_true_2; [reflexivity|]. apply elem_of_keys. eauto.
Qed.

Lemma match_at_miss (m : gmap string string) s :
color_map_ok m → m !! lower (take 7 s) = None →
match_at (map_to_list m).*1 s = None.
Proof.
intros Hok Hv. rewrite match_at_lower_hex by (apply keys_lower_hex, Hok).
rewrite bool_decide_eq_false_2; [reflexivity|].
intros [v Hv']%elem_of_keys. congruence.
Qed.

Lemma sub_from_skip m keys k s :
sub_from m keys k s = sub_from m keys 0 (drop k s).
Proof.
revert k; induction s as [|c r IH]; intros [|k]; try reflexivity.
cbn [sub_from drop]. apply IH.
Qed.

Lemma sub_nil m : sub m "" = "".
Proof. reflexivity. Qed.

Lemma sub_cons_hit m c r v :
color_map_ok m → m !! lower (take 7 (String c r)) = Some v →
sub m (String c r) = _replacer m (take 7 (String c r)) +:+ sub m (drop 6 r).
Proof.
intros Hok Hv. unfold sub. cbn [sub_from].
rewrite (match_at_hit m _ v Hok Hv).
assert (Hlen : String.length (take 7 (String c r)) = 7).
{ rewrite <- length_lower. apply lower_hex_color_length. exact (proj1 (Hok _ _ Hv)). }
rewrite Hlen. cbn [Nat.sub]. rewrite sub_from_skip. reflexivity.
Qed.

Lemma sub_cons_miss m c r :
color_map_ok m → m !! lower (take 7 (String c r)) = None →
sub m (String c r) = String c (sub m r).
Proof.
intros Hok Hv. unfold sub. cbn [sub_from].
rewrite (match_at_miss m _ Hok Hv). reflexivity.
Qed.

Lemma key_starts_with_hash (m : gmap string string) a t v :
color_map_ok m → m !! String a t = Some v → a = "#"%char.
Proof.
intros Hok Hv. destruct (Hok _ _ Hv) as [Hk _].
apply lower_hex_color_shape in Hk as (t' & [= -> _] & _). reflexivity.
Qed.

Lemma hashless_lower_hex t : all_lower_hex t = true → hashless t = true.
Proof.
induction t as [|c r IH]; cbn; [reflexivity|].
intros [Hc Hr]%andb_true_iff.
destruct (ascii_dec c "#") as [->|_]; [discriminate | auto].
Qed.

Lemma hashless_upper_lower_hex t : all_lower_hex t = true → hashless (upper t) = true.
Proof.
induction t as [|c r IH]; cbn; [reflexivity|].
intros [Hc Hr]%andb_true_iff.
destruct (ascii_dec (upper_char c) "#") as [E|_]; [|auto].
apply upper_lower_hex_is_hex, hex_digit_not_hash in Hc. contradiction.
Qed.

Lemma hashless_of_lowered t : all_lower_hex (lower t) = true → hashless t = true.
Proof.
induction t as [|c r IH]; cbn; [reflexivity|].
intros [Hc Hr]%andb_true_iff.
destruct (ascii_dec c "#") as [->|_]; [discriminate | auto].
Qed.

(** What [_replacer] writes for a matched literal: a ['#'], then six
    characters, the whole a spelling of the new colour. *)
Lemma replacer_shape (m : gmap string string) g v :
color_map_ok m → m !! lower g = Some v →
∃ w, _replacer m g = String "#" w ∧ String.length w = 6
     ∧ hashless w = true ∧ lower (String "#" w) = v.
Proof.
intros Hok Hv. destruct (Hok _ _ Hv) as [_ Hvok].
apply lower_hex_color_shape in Hvok as (t & -> & Hlen & Ht).
unfold _replacer. rewrite Hv. cbn [default tail].
destruct (isupper (tail g)).
- exists (upper t). rewrite length_upper.
  repeat split; auto using hashless_upper_lower_hex.
  cbn [lower]. rewrite lower_upper, lower_all_lower_hex by exact Ht. reflexivity.
- exists t. repeat split; auto using hashless_lower_hex.
  cbn [lower]. rewrite lower_all_lower_hex by exact Ht. reflexivity.
Qed.

(** A stretch without ['#'] is copied as it is. *)
Lemma sub_hashless_prefix (m : gmap string string) p y :
color_map_ok m → hashless p = true → sub m (p +:+ y) = p +:+ sub m y.
Proof.
intros Hok. induction p as [|c p IH]; [reflexivity|].
cbn [hashless]. destruct (ascii_dec c "#") as [|Hc]; [discriminate|]. intros Hp.
rewrite !app_cons, sub_cons_miss; [rewrite IH by exact Hp; reflexivity | exact Hok|].
destruct (m !! _) eqn:E; [|reflexivity].
change (take 7 (String c (p +:+ y))) with (String c (take 6 (p +:+ y))) in E.
cbn [lower] in E. apply key_starts_with_hash in E; [|exact Hok].
apply lower_char_hash in E. contradiction.
Qed.

(** A stretch of the output without ['#'] was copied from the input. *)
Lemma take_sub_hashless (m : gmap string string) n r :
color_map_ok m →
String.length (take n (sub m r)) = n → hashless (take n (sub m r)) = true →
take n (sub m r) = take n r.
Proof.
intros Hok. revert r; induction n as [|n IH]; intros r; [reflexivity|].
destruct r as [|a r]; [rewrite sub_nil; cbn; discriminate|].
destruct (m !! lower (take 7 (String a r))) as [v|] eqn:E.
- rewrite (sub_cons_hit _ _ _ _ Hok E).
  destruct (replacer_shape _ _ _ Hok E) as (w & -> & _).
  rewrite app_cons. cbn. discriminate.
- rewrite (sub_cons_miss _ _ _ Hok E). cbn [take String.length hashless].
  destruct (ascii_dec a "#"); [discriminate|].
  intros [= Hlen] Hh. rewrite IH; auto.
Qed.

Lemma length_drop_le n s : String.length (drop n s) <= String.length s.
Proof.
revert s; induction n as [|n IH]; intros [|c r]; cbn; try lia.
specialize (IH r). lia.
Qed.

(** The second pass of the substitution finds nothing to rewrite when no
    colour written by the map is a key of the map. *)
Lemma sub_idempotent (m : gmap string string) text :
color_map_ok m → no_chain m → sub m (sub m text) = sub m text.
Proof.
intros Hok Hnc.
assert (H : ∀ n s, String.length s <= n → sub m (sub m s) = sub m s).
{ induction n as [|n IH]; intros [|c r] Hlen; cbn in Hlen;
    try reflexivity; try lia.
  destruct (m !! lower (take 7 (String c r))) as [v|] eqn:E.
  - rewrite (sub_cons_hit _ _ _ _ Hok E).
    destruct (replacer_shape _ _ _ Hok E) as (w & -> & Hw & Hh & Hlow).
    rewrite app_cons.
    rewrite sub_cons_miss; [|exact Hok|].
    + rewrite sub_hashless_prefix by assumption.
      rewrite IH; [reflexivity|]. pose proof (length_drop_le 6 r). lia.
    + change (take 7 (String "#" (w +:+ sub m (drop 6 r))))
        with (String "#" (take 6 (w +:+ sub m (drop 6 r)))).
      rewrite <- Hw at 1. rewrite take_app_length, Hlow.
      exact (Hnc _ _ E).
  - rewrite (sub_cons_miss _ _ _ Hok E).
    rewrite sub_cons_miss; [rewrite IH by lia; reflexivity | exact Hok|].
    destruct (m !! lower (take 7 (String c (sub m r)))) as [v|] eqn:E2;
      [|reflexivity].
    exfalso.
    change (take 7 (String c (sub m r))) with (String c (take 6 (sub m r))) in E2.
    change (take 7 (String c r)) with (String c (take 6 r)) in E.
    remember (take 6 (sub m r)) as T eqn:HT.
    remember (take 6 r) as T0 eqn:HT0.
    cbn [lower] in E, E2.
    destruct (Hok _ _ E2) as [Hk _].
    apply lower_hex_color_shape in Hk as (t & Heq & Hlt & Hhex).
    injection Heq as _ Ht.
    assert (HlenT : String.length T = 6) by (rewrite <- length_lower, Ht; exact Hlt).
    assert (HhT : hashless T = true) by (apply hashless_of_lowered; rewrite Ht; exact Hhex).
    assert (Htake : T = T0).
    { subst T T0. apply take_sub_hashless; assumption. }
    rewrite Htake in E2. congruence. }
apply (H (String.length text)). lia.
Qed.

(** ** Properties of the recolouring pass *)

Lemma build_entries_ok old_palette new_palette css_files fs m :
palette_ok old_palette → palette_ok new_palette →
build_full_color_map old_palette new_palette css_files fs = Some m →
map_Forall entry_ok m.
Proof.
intros Hold Hnew
  (d & op & oh & os & ol & np & nh & ns & nl_ & Hd & _ & _ & _ & _ & Hm)
  %build_full_color_map_inv.
pose proof (direct_mappings_entries _ _ _ Hold Hnew Hd) as Hdok.
destruct Hm as [[_ ->]|[_ Hm]]; [exact Hdok|].
refine (shift_all_entries _ _ _ _ _ _ Hdok _ Hm).
apply Forall_forall. intros x Hx%elem_of_elements.
apply collect_hexes_lower in Hx as [Hx|Hx]; [set_solver|exact Hx].
Qed.

Lemma entries_color_map_ok (m : gmap string string) :
map_Forall entry_ok m → color_map_ok m.
Proof. intros H k v Hkv. destruct (H k v Hkv) as (? & ? & _). auto. Qed.

Lemma read_text_write_text fs p text s fs' :
Fs.read_text fs p = Some text → Fs.write_text fs p s = Some fs' →
Fs.read_text fs' p = Some s.
Proof.
unfold Fs.read_text, Fs.write_text, Fs.read, Fs.write.
destruct (fs !! p) as [[d [] w]|] eqn:E; cbn; try discriminate. intros _.
destruct w; [|discriminate]. intros [= <-].
rewrite lookup_insert_eq. reflexivity.
Qed.

Lemma write_text_other fs p s fs' q :
Fs.write_text fs p s = Some fs' → q ≠ p → fs' !! q = fs !! q.
Proof.
unfold Fs.write_text, Fs.write. intros H Hq.
destruct (fs !! p) as [f|]; [destruct (Fs.writable f); [|discriminate]|];
  injection H as <-; apply lookup_insert_ne; congruence.
Qed.

(** [recolor_file] applied a second time with a map that respects the
    colour-map invariant and rewrites none of the colours it introduces
    reports no change and leaves every file as the first call left it. *)
Theorem recolor_file_twice_without_chain path (m : gmap string string) fs :
color_map_ok m → no_chain m →
recolor_file path m (recolor_file path m fs).2
= (false, (recolor_file path m fs).2).
Proof.
intros Hok Hnc. unfold recolor_file at 2 3.
destruct (Fs.read_text fs path) as [text|] eqn:Er.
- destruct (decide (m = ∅)) as [Hm|Hm].
  { cbn [snd]. unfold recolor_file. rewrite Er.
    destruct (decide (m = ∅)); [reflexivity | contradiction]. }
  destruct (decide (sub m text = text)) as [Hs|Hs].
  { cbn [snd]. unfold recolor_file. rewrite Er.
    destruct (decide (m = ∅)); [contradiction|].
    destruct (decide (sub m text = text)); [reflexivity | contradiction]. }
  destruct (Fs.write_text fs path (sub m text)) as [fs'|] eqn:Ew; cbn [snd].
  + unfold recolor_file. rewrite (read_text_write_text _ _ _ _ _ Er Ew).
    destruct (decide (m = ∅)); [contradiction|].
    rewrite sub_idempotent by assumption.
    destruct (decide (sub m text = sub m text)); [reflexivity | contradiction].
  + unfold recolor_file. rewrite Er, Ew.
    destruct (decide (m = ∅)); [contradiction|].
    destruct (decide (sub m text = text)); [contradiction | reflexivity].
- cbn [snd]. unfold recolor_file. rewrite Er. reflexivity.
Qed.

Lemma palette_Orange_ok : palette_ok palette_Orange.
Proof. unfold palette_ok. repeat constructor. Qed.

Lemma palette_Blue_ok : palette_ok palette_Blue.
Proof. unfold palette_ok. repeat constructor. Qed.

Lemma sample_map_ok : color_map_ok sample_map.
Proof.
apply entries_color_map_ok.
exact (build_entries_ok _ _ _ _ _ palette_Orange_ok palette_Blue_ok sample_map_built).
Qed.

Lemma sample_map_no_chain : no_chain sample_map.
Proof.
apply (bool_decide_eq_true_1 (map_Forall (λ _ v, sample_map !! v = None) sample_map)).
vm_compute. reflexivity.
Qed.

Lemma recolor_file_twice_without_chain_witness :
color_map_ok sample_map ∧ no_chain sample_map
∧ recolor_file "/gtk.css" sample_map (recolor_file "/gtk.css" sample_map sample_css).2
  = (false, (recolor_file "/gtk.css" sample_map sample_css).2).
Proof.
split; [exact sample_map_ok|]. split; [exact sample_map_no_chain|].
apply (recolor_file_twice_without_chain "/gtk.css" sample_map sample_css).
- exact sample_map_ok.
- exact sample_map_no_chain.
Defined.

(** What a call of [recolor_file] can do to the filesystem: when it returns
    false nothing at all has changed; when it returns true the file at
    [path] was readable, its text differed from the substituted text, it
    now holds exactly the substituted text, and every other file is as it
    was. *)
Theorem recolor_file_frame path (m : gmap string string) fs :
((recolor_file path m fs).1 = false ∧ (recolor_file path m fs).2 = fs)
∨ ((recolor_file path m fs).1 = true
   ∧ ∃ text, Fs.read_text fs path = Some text
             ∧ sub m text ≠ text
             ∧ Fs.read_text (recolor_file path m fs).2 path = Some (sub m text)
             ∧ ∀ q, q ≠ path → (recolor_file path m fs).2 !! q = fs !! q).
Proof.
unfold recolor_file.
destruct (Fs.read_text fs path) as [text|] eqn:Er; [|left; auto].
destruct (decide (m = ∅)); [left; auto|].
destruct (decide (sub m text = text)) as [Hs|Hs]; [left; auto|].
destruct (Fs.write_text fs path (sub m text)) as [fs'|] eqn:Ew; [|left; auto].
right. cbn [fst snd]. split; [reflexivity|]. exists text.
repeat split; auto.
- eapply read_text_write_text; eauto.
- intros q Hq. eapply write_text_other; eauto.
Qed.




(** A text without ['#'] is returned as it is by the substitution, so that
    [recolor_file] does not write the file. *)
Theorem recolor_file_hashless path (m : gmap string string) fs text :
color_map_ok m → Fs.read_text fs path = Some text → hashless text = true →
sub m text = text ∧ recolor_file path m fs = (false, fs).
Proof.
intros Hok Hr Hh.
assert (Hs : sub m text = text).
{ pose proof (sub_hashless_prefix m text "" Hok Hh) as H.
  assert (Happ : ∀ t, t +:+ "" = t).
  { induction t as [|c t IH]; [reflexivity|]. rewrite app_cons, IH. reflexivity. }
  rewrite Happ, sub_nil, Happ in H. exact H. }
split; [exact Hs|]. unfold recolor_file. rewrite Hr.
destruct (decide (m = ∅)); [reflexivity|].
destruct (decide (sub m text = text)); [reflexivity | contradiction].
Qed.

Definition plain_css : Fs.filesystem :=
{[ "/gtk.css" := Fs.mkFile (Fs.Text "a { color: red }") true true ]}.

Lemma recolor_file_hashless_witness :
color_map_ok sample_map
∧ Fs.read_text plain_css "/gtk.css" = Some "a { color: red }"
∧ hashless "a { color: red }" = true
∧ sub sample_map "a { color: red }" = "a { color: red }"
∧ recolor_file "/gtk.css" sample_map plain_css = (false, plain_css).
Proof.
split; [exact sample_map_ok|]. split; [reflexivity|]. split; [reflexivity|].
apply (recolor_file_hashless "/gtk.css" sample_map plain_css "a { color: red }").
- exact sample_map_ok.
- reflexivity.
- reflexivity.
Defined.

Lemma has_upper_lower_hex t : all_lower_hex t = true → has_upper t = false.
Proof.
induction t as [|c r IH]; cbn; [reflexivity|].
intros [Hc Hr]%andb_true_iff. rewrite IH by exact Hr.
destruct c as [[] [] [] [] [] [] [] []]; try reflexivity; discriminate.
Qed.

(** Case preservation: where a literal [g] spells a key [k] of the map
    (in any case), one pass writes the new colour in uppercase when the
    letters after the ['#'] are all uppercase (and there is at least one),
    and exactly as stored, in lowercase, otherwise.  Both spellings denote
    the colour stored for [k]. *)
Theorem sub_preserves_case (m : gmap string string) k v g rest :
color_map_ok m → m !! k = Some v → lower g = k →
sub m (g +:+ rest)
= (if isupper (tail g) then "#" +:+ upper (tail v) else v) +:+ sub m rest
∧ has_lower (upper (tail v)) = false
∧ has_upper v = false
∧ lower ("#" +:+ upper (tail v)) = v.
Proof.
intros Hok Hv Hg. destruct (Hok _ _ Hv) as [Hk Hvok].
assert (Hlen : String.length g = 7).
{ rewrite <- length_lower, Hg. apply lower_hex_color_length, Hk. }
apply lower_hex_color_shape in Hvok as (t & -> & Hlt & Ht).
split; [|split; [apply has_lower_upper|split]].
- destruct g as [|c g']; [discriminate|].
  assert (Htake : take 7 (String c (g' +:+ rest)) = String c g').
  { rewrite <- Hlen. exact (take_app_length (String c g') rest). }
  assert (Hdrop : drop 6 (g' +:+ rest) = rest).
  { cbn in Hlen. injection Hlen as <-. apply drop_app_length. }
  rewrite app_cons.
  rewrite (sub_cons_hit m c (g' +:+ rest) (String "#" t) Hok)
    by (rewrite Htake, Hg; exact Hv).
  rewrite Htake, Hdrop. unfold _replacer. rewrite Hg, Hv. reflexivity.
- cbn [has_upper]. rewrite has_upper_lower_hex by exact Ht. reflexivity.
- cbn [tail]. change ("#" +:+ upper t) with (String "#" (upper t)).
  cbn [lower]. rewrite lower_upper, lower_all_lower_hex by exact Ht. reflexivity.
Qed.

Lemma sub_preserves_case_witness :
color_map_ok sample_map
∧ sample_map !! "#ffb86c" = Some "#82b1ff"
∧ lower "#FFB86C" = "#ffb86c"
∧ sub sample_map ("#FFB86C" +:+ "; b: #FfB86c")
  = (if isupper (tail "#FFB86C") then "#" +:+ upper (tail "#82b1ff") else "#82b1ff")
    +:+ sub sample_map "; b: #FfB86c"
∧ has_lower (upper (tail "#82b1ff")) = false
∧ has_upper "#82b1ff" = false
∧ lower ("#" +:+ upper (tail "#82b1ff")) = "#82b1ff".
Proof.
split; [exact sample_map_ok|]. split; [vm_compute; reflexivity|].
split; [reflexivity|].
apply (sub_preserves_case sample_map "#ffb86c" "#82b1ff" "#FFB86C" "; b: #FfB86c").
- exact sample_map_ok.
- vm_compute. reflexivity.
- reflexivity.
Defined.

(** The two spellings at work on one line of a stylesheet. *)
Example sub_mixed_case_line :
sub sample_map "a: #FFB86C; b: #FfB86c; c: #ffb86c"
= "a: #82B1FF; b: #82b1ff; c: #82b1ff".
Proof. vm_compute. reflexivity. Qed.

(** Palettes whose primary hues are less than half a degree apart: the map
    is the map of the direct token entries, and the candidate files play no
    part in it. *)
Theorem same_hue_only_direct_entries
  old_palette new_palette css_files fs m op oh os ol np nh ns nl_ :
build_full_color_map old_palette new_palette css_files fs = Some m →
dict_get old_palette "primary" = Some op → hex_to_hsl op = Some (oh, os, ol) →
dict_get new_palette "primary" = Some np → hex_to_hsl np = Some (nh, ns, nl_) →
(PrimFloat.abs (nh - oh) <? 0.5)%float = true →
direct_mappings old_palette new_palette ∅ = Some m
∧ ∀ css_files' fs',
    build_full_color_map old_palette new_palette css_files' fs' = Some m.
Proof.
intros Hb Hop Hoh Hnp Hnh Hlt.
apply build_full_color_map_inv in Hb
  as (d & op' & oh' & os' & ol' & np' & nh' & ns' & nl' & Hd & Hop' & Hoh' & Hnp' & Hnh' & Hm).
assert (op' = op) as -> by congruence. assert (np' = np) as -> by congruence.
rewrite Hoh in Hoh'. rewrite Hnh in Hnh'.
injection Hoh' as <- <- <-. injection Hnh' as <- <- <-.
destruct Hm as [[_ ->]|[Hf _]]; [|congruence].
split; [exact Hd|]. intros css' fs'.
unfold build_full_color_map. rewrite Hd. cbn. rewrite Hop. cbn. rewrite Hoh. cbn.
rewrite Hnp. cbn. rewrite Hnh. cbn. rewrite Hlt. reflexivity.
Qed.

Definition two_tone_old : palette := [("primary", "#ffb86c"); ("surface", "#1A1110")].
Definition two_tone_new : palette := [("primary", "#FFB86C"); ("surface", "#101418")].

Definition two_tone_map : gmap string string := {[ "#1a1110" := "#101418" ]}.

(** [hex_to_hsl("#ffb86c")]. *)
Definition orange_hsl : float * float * float :=
Eval vm_compute in default (0, 0, 0)%float (hex_to_hsl "#ffb86c").

Lemma same_hue_only_direct_entries_witness :
build_full_color_map two_tone_old two_tone_new ["/gtk.css"] sample_css = Some two_tone_map
∧ dict_get two_tone_old "primary" = Some "#ffb86c"
∧ hex_to_hsl "#ffb86c" = Some orange_hsl
∧ dict_get two_tone_new "primary" = Some "#FFB86C"
∧ hex_to_hsl "#FFB86C" = Some orange_hsl
∧ (PrimFloat.abs (orange_hsl.1.1 - orange_hsl.1.1) <? 0.5)%float = true
∧ direct_mappings two_tone_old two_tone_new ∅ = Some two_tone_map
∧ ∀ css_files' fs',
    build_full_color_map two_tone_old two_tone_new css_files' fs' = Some two_tone_map.
Proof.
assert (H1 : build_full_color_map two_tone_old two_tone_new ["/gtk.css"] sample_css
             = Some two_tone_map) by (vm_compute; reflexivity).
assert (H2 : hex_to_hsl "#ffb86c" = Some orange_hsl) by (vm_compute; reflexivity).
assert (H3 : hex_to_hsl "#FFB86C" = Some orange_hsl) by (vm_compute; reflexivity).
assert (H4 : (PrimFloat.abs (orange_hsl.1.1 - orange_hsl.1.1) <? 0.5)%float = true)
  by (vm_compute; reflexivity).
do 6 (split; [assumption || reflexivity|]).
exact (same_hue_only_direct_entries two_tone_old two_tone_new ["/gtk.css"] sample_css
         two_tone_map "#ffb86c" orange_hsl.1.1 orange_hsl.1.2 orange_hsl.2
         "#FFB86C" orange_hsl.1.1 orange_hsl.1.2 orange_hsl.2
         H1 eq_refl H2 eq_refl H3 H4).
Defined.

(** Where an extrapolated entry comes from: its key is a colour found in
    one of the candidate files, it is not the new value of any direct entry
    (a colour just introduced is not shifted again), and its value is the
    key with its hue moved by the hue shift of the two primaries. *)
Theorem extrapolated_entry_provenance
  old_palette new_palette css_files fs m d op oh os ol np nh ns nl_ k v :
build_full_color_map old_palette new_palette css_files fs = Some m →
direct_mappings old_palette new_palette ∅ = Some d →
dict_get old_palette "primary" = Some op → hex_to_hsl op = Some (oh, os, ol) →
dict_get new_palette "primary" = Some np → hex_to_hsl np = Some (nh, ns, nl_) →
m !! k = Some v → d !! k = None →
k ∈ collect_hexes fs css_files ∅
∧ (k ∉ (map_img d : gset string))
∧ ∃ h s l, hex_to_hsl k = Some (h, s, l)
           ∧ v = hsl_to_hex (PyFloat.mod_ (h + (nh - oh))%float 360) s l
           ∧ v ≠ k.
Proof.
intros Hb Hd Hop Hoh Hnp Hnh.
apply build_full_color_map_inv in Hb
  as (d' & op' & oh' & os' & ol' & np' & nh' & ns' & nl' & Hd' & Hop' & Hoh' & Hnp' & Hnh' & Hm).
assert (d' = d) as -> by congruence.
assert (op' = op) as -> by congruence. assert (np' = np) as -> by congruence.
rewrite Hoh in Hoh'. rewrite Hnh in Hnh'.
injection Hoh' as <- <- <-. injection Hnh' as <- <- <-.
destruct Hm as [[_ ->]|[_ Hm]]; [congruence|].
revert k v. revert Hm.
apply (shift_all_ind (λ m0, ∀ k v, m0 !! k = Some v → d !! k = None →
  k ∈ collect_hexes fs css_files ∅
  ∧ (k ∉ (map_img d : gset string))
  ∧ ∃ h s l, hex_to_hsl k = Some (h, s, l)
             ∧ v = hsl_to_hex (PyFloat.mod_ (h + (nh - oh))%float 360) s l
             ∧ v ≠ k)).
- intros k v Hk Hn. congruence.
- intros m0 x h s l IH Hin _ _ Ht Hh _ Hne k v Hk Hn.
  destruct (decide (x = k)) as [<-|Hxk].
  + rewrite lookup_insert_eq in Hk. injection Hk as <-.
    split; [apply elem_of_elements, Hin|]. split; [exact Ht|].
    exists h, s, l. auto.
  + rewrite lookup_insert_ne in Hk by exact Hxk. eauto.
Qed.

Definition blue_hsl : float * float * float :=
Eval vm_compute in default (0, 0, 0)%float (hex_to_hsl "#82b1ff").

Definition sample_direct : gmap string string :=
default ∅ (direct_mappings palette_Orange palette_Blue ∅).

Lemma sample_direct_built :
direct_mappings palette_Orange palette_Blue ∅ = Some sample_direct.
Proof. apply some_default. vm_compute. reflexivity. Qed.

Lemma extrapolated_entry_provenance_witness :
build_full_color_map palette_Orange palette_Blue ["/gtk.css"] sample_css = Some sample_map
∧ direct_mappings palette_Orange palette_Blue ∅ = Some sample_direct
∧ dict_get palette_Orange "primary" = Some "#ffb86c"
∧ hex_to_hsl "#ffb86c" = Some orange_hsl
∧ dict_get palette_Blue "primary" = Some "#82b1ff"
∧ hex_to_hsl "#82b1ff" = Some blue_hsl
∧ sample_map !! "#ff8800" = Some "#005cff"
∧ sample_direct !! "#ff8800" = None
∧ "#ff8800" ∈ collect_hexes sample_css ["/gtk.css"] ∅
∧ ("#ff8800" ∉ (map_img sample_direct : gset string))
∧ ∃ h s l, hex_to_hsl "#ff8800" = Some (h, s, l)
           ∧ "#005cff"
             = hsl_to_hex (PyFloat.mod_ (h + (blue_hsl.1.1 - orange_hsl.1.1))%float 360) s l
           ∧ "#005cff" ≠ "#ff8800".
Proof.
assert (H2 : hex_to_hsl "#ffb86c" = Some orange_hsl) by (vm_compute; reflexivity).
assert (H3 : hex_to_hsl "#82b1ff" = Some blue_hsl) by (vm_compute; reflexivity).
assert (H4 : sample_map !! "#ff8800" = Some "#005cff") by (vm_compute; reflexivity).
assert (H5 : sample_direct !! "#ff8800" = None) by (vm_compute; reflexivity).
split; [exact sample_map_built|]. split; [exact sample_direct_built|].
do 6 (split; [assumption || reflexivity|]).
exact (extrapolated_entry_provenance palette_Orange palette_Blue ["/gtk.css"] sample_css
         sample_map sample_direct "#ffb86c" orange_hsl.1.1 orange_hsl.1.2 orange_hsl.2
         "#82b1ff" blue_hsl.1.1 blue_hsl.1.2 blue_hsl.2 "#ff8800" "#005cff"
         sample_map_built sample_direct_built eq_refl H2 eq_refl H3 H4 H5).
Defined.

(** Every literal that the scan of a file finds is a valid hex colour, and
    its lowercase form converts to HSL: the loop over the collected colours
    never raises. *)
Theorem found_literals_convert text lit :
lit ∈ findall text →
is_hex_color lit = true
∧ is_lower_hex_color (lower lit) = true
∧ is_Some (hex_to_hsl (lower lit)).
Proof.
intros Hin. pose proof (findall_from_hex 0 text) as HF.
rewrite Forall_forall in HF. pose proof (HF _ Hin) as Hhex.
split; [exact Hhex|]. split; [apply lower_hex_color, Hhex|].
apply hex_to_hsl_total, lower_hex_color_is_hex, lower_hex_color, Hhex.
Qed.

Lemma found_literals_convert_witness :
"#FFB86C" ∈ findall "a { color: #FFB86C; b: #12345; c: #aabbccdd }"
∧ is_hex_color "#FFB86C" = true
∧ is_lower_hex_color (lower "#FFB86C") = true
∧ is_Some (hex_to_hsl (lower "#FFB86C")).
Proof.
assert (H : "#FFB86C" ∈ findall "a { color: #FFB86C; b: #12345; c: #aabbccdd }").
{ vm_compute. constructor. }
split; [exact H|].
exact (found_literals_convert "a { color: #FFB86C; b: #12345; c: #aabbccdd }" "#FFB86C" H).
Defined.

(** A literal of five or of eight hex digits is not taken for a colour. *)
Example findall_wrong_length :
findall "a { color: #FFB86C; b: #12345; c: #aabbccdd }" = ["#FFB86C"].
Proof. vm_compute. reflexivity. Qed.

End GuiFacts.

(* ===================================================================== *)
(** * Facts about the installer *)
(* ===================================================================== *)

Module InstallerFacts.
Import PyStr PyStrFacts Installer InstallerVocab.

(** Unfolds the monad and its primitive operations. *)
Ltac munfold :=
  unfold mbind, M_bind, mret, M_ret, emit, print, path_exists, get, put,
    set_fs, set_backup, set_dconf, fs_op, copy_file, raise, try_,
    dconf_dump, dconf_reset, dconf_load in *.

Ltac mrun :=
  repeat (munfold; cbn); cbn [fs dconf dconf_refused log backup] in *.

(** The filesystem operations and the path computations stay folded while
    the monadic code is run. *)
#[local] Arguments Fs.exists_ : simpl never.
#[local] Arguments Fs.read : simpl never.
#[local] Arguments Fs.write : simpl never.
#[local] Arguments Fs.read_text : simpl never.
#[local] Arguments Fs.write_text : simpl never.
#[local] Arguments Fs.copy2 : simpl never.
#[local] Arguments Fs.join : simpl never.
#[local] Arguments backup_dest : simpl never.
#[local] Arguments backup_rel : simpl never.
#[local] Arguments BACKUP_BASE : simpl never.

Section Facts.

Variable HOME : string.
Variable THEME_DIR : string.
Variable external : Z → SystemInfo → bool → M (Status * string).

(** ** The filesystem primitives *)

Lemma exists_lookup fs p : Fs.exists_ fs p = true ↔ is_Some (fs !! p).
Proof.
unfold Fs.exists_. destruct (fs !! p); split; eauto; try discriminate.
intros [? ?]. discriminate.
Qed.

Lemma exists_false fs p : Fs.exists_ fs p = false ↔ fs !! p = None.
Proof. unfold Fs.exists_. destruct (fs !! p); split; congruence. Qed.

Lemma write_lookup fs p d fs' :
Fs.write fs p d = Some fs' →
(∃ r w, fs' !! p = Some (Fs.mkFile d r w)
        ∧ (fs !! p = None → r = true ∧ w = true)
        ∧ (∀ g, fs !! p = Some g → r = Fs.readable g ∧ w = Fs.writable g))
∧ ∀ q, q ≠ p → fs' !! q = fs !! q.
Proof.
unfold Fs.write. destruct (fs !! p) as [g|] eqn:E.
- destruct (Fs.writable g) eqn:Ew; [|discriminate]. intros [= <-]. split.
  + exists (Fs.readable g), true. rewrite lookup_insert_eq. split; [reflexivity|].
    split; [discriminate|]. intros g' [= <-]. auto.
  + intros q Hq. apply lookup_insert_ne. congruence.
- intros [= <-]. split.
  + exists true, true. rewrite lookup_insert_eq. split; [reflexivity|].
    split; [auto|]. discriminate.
  + intros q Hq. apply lookup_insert_ne. congruence.
Qed.

Lemma write_succeeds fs p d :
(∀ g, fs !! p = Some g → Fs.writable g = true) → is_Some (Fs.write fs p d).
Proof.
intros H. unfold Fs.write. destruct (fs !! p) as [g|] eqn:E; [|eauto].
rewrite (H g eq_refl). eauto.
Qed.

(** ** [backup_file] *)

(** A file that does not exist, or a manager in dry-run mode: nothing is
    copied and nothing is recorded; the answer tells whether the file
    exists. *)
Theorem backup_file_missing_or_dry_run path st :
Fs.exists_ (fs st) path = false ∨ bm_dry_run (backup st) = true →
∃ st', backup_file HOME path st = (Ok (Fs.exists_ (fs st) path), st')
       ∧ fs st' = fs st ∧ dconf st' = dconf st ∧ backup st' = backup st.
Proof.
intros H. unfold backup_file. mrun.
destruct (Fs.exists_ (fs st) path) eqn:E; cbn.
- destruct H as [H|H]; [discriminate|]. rewrite H. eauto.
- eauto.
Qed.

(** A live manager and a readable file whose place in the backup tree can
    be written: the copy holds the data of the file, one record is appended
    to the manifest, and no other file changes (the file itself included,
    unless it is its own backup place). *)
Theorem backup_file_copies_and_records path f st :
bm_dry_run (backup st) = false →
fs st !! path = Some f → Fs.readable f = true →
(∀ g, fs st !! backup_dest HOME (bm_backup_dir (backup st)) path = Some g →
      Fs.writable g = true) →
∃ st', backup_file HOME path st = (Ok true, st')
  ∧ Fs.content <$> (fs st' !! backup_dest HOME (bm_backup_dir (backup st)) path)
    = Some (Fs.content f)
  ∧ (∀ q, q ≠ backup_dest HOME (bm_backup_dir (backup st)) path →
          fs st' !! q = fs st !! q)
  ∧ backup st'
    = add_file_record (backup st) path
        (backup_dest HOME (bm_backup_dir (backup st)) path)
  ∧ dconf st' = dconf st.
Proof.
intros Hlive Hf Hr Hw.
assert (He : Fs.exists_ (fs st) path = true) by (apply exists_lookup; eauto).
destruct (write_succeeds (fs st) _ (Fs.content f) Hw) as [fs' Hfs'].
assert (Hc : Fs.copy2 (fs st) path (backup_dest HOME (bm_backup_dir (backup st)) path)
             = Some fs').
{ unfold Fs.copy2, Fs.read. rewrite Hf, Hr. exact Hfs'. }
unfold backup_file. mrun. rewrite He. cbn. rewrite Hlive. mrun. rewrite Hc. cbn.
eexists. split; [reflexivity|]. cbn.
apply write_lookup in Hfs' as [(r & w & Hl & _) Hother].
rewrite Hl. auto.
Qed.

(** A live manager and a copy that fails (the file cannot be read, or its
    place in the backup tree cannot be written): [OSError], and neither the
    filesystem nor the manifest has changed. *)
Theorem backup_file_copy_error path st :
bm_dry_run (backup st) = false →
Fs.exists_ (fs st) path = true →
Fs.copy2 (fs st) path (backup_dest HOME (bm_backup_dir (backup st)) path) = None →
∃ st', backup_file HOME path st = (Raise (OSError "copy"), st')
       ∧ fs st' = fs st ∧ backup st' = backup st.
Proof.
intros Hlive He Hc. unfold backup_file. mrun.
rewrite He. cbn. rewrite Hlive. mrun. rewrite Hc. cbn. eauto.
Qed.

(** ** Exact outcomes of the backup operations *)

Lemma backup_file_live_eq path st fs' :
bm_dry_run (backup st) = false →
Fs.exists_ (fs st) path = true →
Fs.copy2 (fs st) path (backup_dest HOME (bm_backup_dir (backup st)) path) = Some fs' →
backup_file HOME path st
= (Ok true,
   mkState fs' (dconf st) (dconf_refused st) (log st ++ [BackupFileCall path])
     (add_file_record (backup st) path
        (backup_dest HOME (bm_backup_dir (backup st)) path))).
Proof.
intros Hlive He Hc. unfold backup_file. mrun.
rewrite He. cbn. rewrite Hlive. mrun. rewrite Hc. cbn. reflexivity.
Qed.

Lemma save_manifest_live_eq st fs' :
bm_dry_run (backup st) = false →
Fs.write (fs st) (bm_backup_dir (backup st) // "manifest.json")
  (Fs.Json (bm_manifest (backup st))) = Some fs' →
save_manifest st
= (Ok tt,
   mkState fs' (dconf st) (dconf_refused st) (log st ++ [SaveManifestCall])
     (backup st)).
Proof.
intros Hlive Hw. unfold save_manifest. mrun. rewrite Hlive. mrun.
rewrite Hw. reflexivity.
Qed.

Lemma restore_file_entry_present original bak st fs' :
Fs.exists_ (fs st) bak = true →
Fs.copy2 (fs st) bak original = Some fs' →
restore_file_entry (original, bak) st
= (Ok tt,
   mkState fs' (dconf st) (dconf_refused st)
     (log st ++ [Print ("  [success]Restored:[/] " +:+ original)]) (backup st)).
Proof.
intros He Hc. unfold restore_file_entry. mrun. rewrite He. mrun.
rewrite Hc. reflexivity.
Qed.

Lemma restore_file_entry_missing original bak st :
Fs.exists_ (fs st) bak = false →
restore_file_entry (original, bak) st
= (Ok tt,
   mkState (fs st) (dconf st) (dconf_refused st)
     (log st ++ [Print ("  [warning]Backup file missing:[/] " +:+ bak)]) (backup st)).
Proof.
intros He. unfold restore_file_entry. mrun. rewrite He. reflexivity.
Qed.

Lemma restore_loaded backup_dir manifest st :
Fs.read (fs st) (backup_dir // "manifest.json") = Some (Fs.Json manifest) →
restore backup_dir st
= (restore_files (m_files manifest);;
   restore_dconf (m_dconf manifest);;
   mret true)
    (mkState (fs st) (dconf st) (dconf_refused st)
       (log st ++ [Print (nl +:+ "[info]Restoring from backup: "
                          +:+ m_timestamp manifest +:+ "[/]" +:+ nl)])
       (backup st)).
Proof.
intros Hr.
assert (He : Fs.exists_ (fs st) (backup_dir // "manifest.json") = true).
{ apply exists_lookup. unfold Fs.read in Hr.
  destruct (fs st !! _); [eauto | discriminate]. }
unfold restore. mrun. rewrite He. mrun. rewrite Hr. reflexivity.
Qed.

(** ** Where the copies go *)

Lemma app_literal_cons a c b : a +:+ String c b = (a +:+ String c "") +:+ b.
Proof. induction a as [|x a IH]; [reflexivity|]. rewrite !app_cons, IH. reflexivity. Qed.

Lemma lstrip_head chars s c r :
lstrip chars s = String c r → mem_char c chars = false.
Proof.
induction s as [|x s IH]; cbn; [discriminate|].
destruct (mem_char x chars) eqn:E; [exact IH|]. intros [= <- _]. exact E.
Qed.

(** The manifest is never the backup copy of a file. *)
Lemma manifest_path_not_backup_dest backup_dir path :
backup_dir // "manifest.json" ≠ backup_dest HOME backup_dir path.
Proof.
unfold backup_dest.
change (backup_dir // "manifest.json") with (backup_dir +:+ "/manifest.json").
change (backup_dir // "files") with (backup_dir +:+ "/files").
destruct (lstrip "~/" (backup_rel HOME path)) as [|c r] eqn:E.
- change ((backup_dir +:+ "/files") // "") with (backup_dir +:+ "/files").
  intros H. apply (inj (String.app backup_dir)) in H. discriminate.
- apply lstrip_head in E.
  assert (Hc : c ≠ "/"%char).
  { intros ->. discriminate. }
  assert (Hj : (backup_dir +:+ "/files") // String c r
               = backup_dir +:+ ("/files/" +:+ String c r)).
  { unfold Fs.join.
    destruct c as [[] [] [] [] [] [] [] []]; try congruence;
      induction backup_dir as [|x b IH]; try reflexivity;
      rewrite !app_cons; f_equal; exact IH. }
  rewrite Hj. intros H. apply (inj (String.app backup_dir)) in H. discriminate.
Qed.

(** ** Backup, then restore *)

(** Round trip for the first file that a live manager backs up: whatever
    happens to the file afterwards (any new content, or its deletion, as
    long as it can still be written), saving the manifest and restoring
    from it puts back the content the file had when it was backed up.  The
    file must not lie at its own backup place nor at the place of the
    manifest, both of which are free when the run starts. *)
Theorem backup_restore_round_trip path f st :
bm_dry_run (backup st) = false →
m_files (bm_manifest (backup st)) = [] → m_dconf (bm_manifest (backup st)) = [] →
fs st !! path = Some f → Fs.readable f = true →
fs st !! backup_dest HOME (bm_backup_dir (backup st)) path = None →
fs st !! (bm_backup_dir (backup st) // "manifest.json") = None →
path ≠ backup_dest HOME (bm_backup_dir (backup st)) path →
path ≠ bm_backup_dir (backup st) // "manifest.json" →
∃ st1, backup_file HOME path st = (Ok true, st1)
  ∧ ∀ st1',
      backup st1' = backup st1 →
      (∀ q, q ≠ path → fs st1' !! q = fs st1 !! q) →
      (∀ g, fs st1' !! path = Some g → Fs.writable g = true) →
      ∃ st2 st3,
        save_manifest st1' = (Ok tt, st2)
        ∧ restore (bm_backup_dir (backup st)) st2 = (Ok true, st3)
        ∧ Fs.content <$> (fs st3 !! path) = Some (Fs.content f).
Proof.
intros Hlive Hfiles Hdconf Hf Hr Hdest Hman Hpd Hpm.
set (bd := bm_backup_dir (backup st)) in *.
set (dest := backup_dest HOME bd path) in *.
set (mpath := bd // "manifest.json") in *.
assert (Hmd : mpath ≠ dest) by apply manifest_path_not_backup_dest.
(* the backup *)
assert (He : Fs.exists_ (fs st) path = true) by (apply exists_lookup; eauto).
destruct (write_succeeds (fs st) dest (Fs.content f)) as [fs1 Hw1].
{ intros g Hg. congruence. }
assert (Hc1 : Fs.copy2 (fs st) path dest = Some fs1).
{ unfold Fs.copy2, Fs.read. rewrite Hf, Hr. exact Hw1. }
eexists. split; [exact (backup_file_live_eq path st fs1 Hlive He Hc1)|].
apply write_lookup in Hw1 as [(r1 & w1 & Hl1 & Hnew1 & _) Hoth1].
destruct (Hnew1 Hdest) as [-> ->].
intros st1' Hb Hagree Hwp. cbn [fs backup] in Hb, Hagree.
(* the manifest *)
assert (Hb1 : bm_backup_dir (backup st1') = bd) by (rewrite Hb; reflexivity).
assert (Hlive1 : bm_dry_run (backup st1') = false) by (rewrite Hb; exact Hlive).
assert (Hm1 : bm_manifest (backup st1')
              = mkManifest (m_timestamp (bm_manifest (backup st))) [(path, dest)] []).
{ rewrite Hb. cbn. rewrite Hfiles, Hdconf. reflexivity. }
assert (Hman1 : fs st1' !! mpath = None).
{ rewrite Hagree by congruence. rewrite Hoth1 by exact Hmd. exact Hman. }
destruct (write_succeeds (fs st1') mpath (Fs.Json (bm_manifest (backup st1'))))
  as [fs2 Hw2].
{ intros g Hg. congruence. }
assert (Hw2' : Fs.write (fs st1') (bm_backup_dir (backup st1') // "manifest.json")
                  (Fs.Json (bm_manifest (backup st1'))) = Some fs2)
  by (rewrite Hb1; exact Hw2).
exists (mkState fs2 (dconf st1') (dconf_refused st1')
          (log st1' ++ [SaveManifestCall]) (backup st1')).
apply write_lookup in Hw2 as [(r2 & w2 & Hl2 & Hnew2 & _) Hoth2].
destruct (Hnew2 Hman1) as [-> ->].
(* the restore *)
assert (Hread2 : Fs.read fs2 mpath = Some (Fs.Json (bm_manifest (backup st1')))).
{ unfold Fs.read. rewrite Hl2. reflexivity. }
assert (Hd2 : fs2 !! dest = Some (Fs.mkFile (Fs.content f) true true)).
{ rewrite Hoth2 by congruence. rewrite Hagree by congruence. exact Hl1. }
destruct (write_succeeds fs2 path (Fs.content f)) as [fs3 Hw3].
{ intros g Hg. rewrite Hoth2 in Hg by congruence. eauto. }
assert (Hc3 : Fs.copy2 fs2 dest path = Some fs3).
{ unfold Fs.copy2, Fs.read. rewrite Hd2. exact Hw3. }
eexists. split; [exact (save_manifest_live_eq st1' fs2 Hlive1 Hw2')|].
split.
- erewrite restore_loaded by (cbn [fs]; exact Hread2). rewrite Hm1. cbn [m_files m_dconf].
  cbn [restore_files restore_dconf]. mrun.
  rewrite restore_file_entry_present with (fs' := fs3);
    [reflexivity | apply exists_lookup; cbn [fs]; eauto | exact Hc3].
- cbn [fs]. apply write_lookup in Hw3 as [(r3 & w3 & Hl3 & _) _].
  rewrite Hl3. reflexivity.
Qed.

(** ** [restore] *)

(** [restore] answers [False] exactly when the backup has no manifest, and
    then it has done nothing but print the error. *)
Theorem restore_false_iff_no_manifest backup_dir st :
(fs st !! (backup_dir // "manifest.json") = None →
 restore backup_dir st
 = (Ok false,
    mkState (fs st) (dconf st) (dconf_refused st)
      (log st ++ [Print "[error]No manifest.json found in backup[/]"])
      (backup st)))
∧ (∀ st', restore backup_dir st = (Ok false, st') →
          fs st !! (backup_dir // "manifest.json") = None).
Proof.
split.
- intros Hn. apply exists_false in Hn. unfold restore. mrun. rewrite Hn.
  reflexivity.
- intros st'. unfold restore. mrun.
  destruct (Fs.exists_ (fs st) (backup_dir // "manifest.json")) eqn:He; cbn.
  + destruct (Fs.read (fs st) (backup_dir // "manifest.json")) as [[s|m]|];
      mrun; try discriminate.
    destruct (restore_files _ _) as [[[]|e] s1]; [|discriminate].
    destruct (restore_dconf _ _) as [[[]|e] s2]; discriminate.
  + intros _. apply exists_false. exact He.
Qed.

Lemma write_accessible f p d f' :
accessible f → Fs.write f p d = Some f' → accessible f'.
Proof.
unfold accessible, Fs.write. intros Ha.
destruct (f !! p) as [g|] eqn:E.
- destruct (Ha p g E) as [Hr Hw]. rewrite Hw. intros [= <-].
  apply map_Forall_insert_2; [|exact Ha]. cbn. auto.
- intros [= <-]. apply map_Forall_insert_2; [|exact Ha]. cbn. auto.
Qed.

Lemma copy2_accessible f src dst g :
accessible f → f !! src = Some g →
∃ f', Fs.copy2 f src dst = Some f'
      ∧ accessible f'
      ∧ Fs.content <$> (f' !! dst) = Some (Fs.content g)
      ∧ ∀ q, q ≠ dst → f' !! q = f !! q.
Proof.
intros Ha Hs. destruct (Ha src g Hs) as [Hr _].
destruct (write_succeeds f dst (Fs.content g)) as [f' Hw].
{ intros h Hh. exact (proj2 (Ha dst h Hh)). }
exists f'. split.
{ unfold Fs.copy2, Fs.read. rewrite Hs, Hr. exact Hw. }
split; [exact (write_accessible _ _ _ _ Ha Hw)|].
apply write_lookup in Hw as [(r & w & Hl & _) Hoth].
rewrite Hl. auto.
Qed.

(** One turn of the first loop of [restore] on accessible files. *)
Lemma restore_file_entry_step o b st :
accessible (fs st) →
∃ st', restore_file_entry (o, b) st = (Ok tt, st')
  ∧ accessible (fs st')
  ∧ (∀ q, q ≠ o → fs st' !! q = fs st !! q)
  ∧ match fs st !! b with
    | Some g => Fs.content <$> (fs st' !! o) = Some (Fs.content g)
    | None => fs st' !! o = fs st !! o
    end
  ∧ dconf st' = dconf st ∧ dconf_refused st' = dconf_refused st
  ∧ length (log st') = S (length (log st)).
Proof.
intros Ha. destruct (fs st !! b) as [g|] eqn:Eb.
- destruct (copy2_accessible _ b o g Ha Eb) as (f' & Hc & Ha' & Hcont & Hoth).
  eexists. split.
  { apply restore_file_entry_present; [apply exists_lookup; eauto|exact Hc]. }
  cbn [fs dconf dconf_refused log].
  split; [exact Ha'|]. split; [exact Hoth|]. split; [exact Hcont|].
  split; [reflexivity|]. split; [reflexivity|].
  rewrite List.length_app. cbn. lia.
- eexists. split.
  { apply restore_file_entry_missing. apply exists_false. exact Eb. }
  cbn [fs dconf dconf_refused log].
  split; [exact Ha|]. split; [reflexivity|]. split; [reflexivity|].
  split; [reflexivity|]. split; [reflexivity|].
  rewrite List.length_app. cbn. lia.
Qed.

Lemma restore_files_cons e rest st st1 :
restore_file_entry e st = (Ok tt, st1) →
restore_files (e :: rest) st = restore_files rest st1.
Proof. intros H. cbn [restore_files]. munfold. rewrite H. reflexivity. Qed.


(** Restoring the files of a manifest whose originals are pairwise distinct
    and are not themselves backup copies, all files being accessible: every
    original whose backup copy exists ends with the data of that copy, every
    original whose copy is missing stays as it is, and no other file is
    touched. *)
Theorem restore_files_restores_each entries st :
accessible (fs st) →
NoDup entries.*1 →
(∀ e e', e ∈ entries → e' ∈ entries → e.1 ≠ e'.2) →
∃ st', restore_files entries st = (Ok tt, st')
  ∧ (∀ e, e ∈ entries →
       match fs st !! e.2 with
       | Some g => Fs.content <$> (fs st' !! e.1) = Some (Fs.content g)
       | None => fs st' !! e.1 = fs st !! e.1
       end)
  ∧ (∀ q, q ∉ entries.*1 → fs st' !! q = fs st !! q).
Proof.
revert st. induction entries as [|[o b] rest IH]; intros st Ha Hnd Hsep.
- exists st. cbn. split; [reflexivity|]. split; [|reflexivity].
  intros e He. inversion He.
- rewrite fmap_cons in Hnd. cbn in Hnd. apply NoDup_cons in Hnd as [Ho Hnd].
  destruct (restore_file_entry_step o b st Ha)
    as (st1 & Hrun & Ha1 & Hoth & Hhead & _).
  destruct (IH st1 Ha1 Hnd) as (st' & Hrun' & Heach & Hframe).
  { intros e e' He He'. apply Hsep; apply elem_of_cons; auto. }
  exists st'. rewrite (restore_files_cons _ _ _ _ Hrun).
  split; [exact Hrun'|]. split.
  + intros e He. apply elem_of_cons in He as [->|He].
    * cbn [fst snd] in *. rewrite (Hframe o Ho). exact Hhead.
    * assert (Hb : fs st1 !! e.2 = fs st !! e.2).
      { apply Hoth. intros Heq.
        apply (Hsep (o, b) e); [apply elem_of_cons; auto
                               |apply elem_of_cons; auto|]. cbn. congruence. }
      assert (Hne : e.1 ≠ o).
      { intros <-. apply Ho. apply list_elem_of_fmap. eauto. }
      specialize (Heach e He). rewrite Hb in Heach.
      destruct (fs st !! e.2); [exact Heach|].
      rewrite Heach. apply Hoth. exact Hne.
  + intros q Hq. rewrite fmap_cons in Hq. cbn in Hq.
    apply not_elem_of_cons in Hq as [Hq1 Hq2].
    rewrite Hframe by exact Hq2. apply Hoth. exact Hq1.
Qed.

(** One turn of the second loop of [restore]: the backup copy, when it is
    there, is a readable text. *)
Lemma restore_dconf_entry_step p b st :
(∀ g, fs st !! b = Some g →
      Fs.readable g = true ∧ is_text (Fs.content g) = true) →
∃ st', restore_dconf_entry (p, b) st = (Ok tt, st')
  ∧ fs st' = fs st ∧ dconf_refused st' = dconf_refused st
  ∧ (∀ q, q ≠ p → dconf st' !! q = dconf st !! q)
  ∧ match Fs.read_text (fs st) b with
    | Some data =>
        dconf st' !! p = if bool_decide (p ∈ dconf_refused st) then None
                         else Some data
    | None => dconf st' !! p = dconf st !! p
    end
  ∧ length (log st') = S (length (log st)).
Proof.
intros Hb. destruct (fs st !! b) as [g|] eqn:Eb.
- destruct (Hb g eq_refl) as [Hr Ht].
  assert (He : Fs.exists_ (fs st) b = true) by (apply exists_lookup; eauto).
  destruct (Fs.content g) as [s|m] eqn:Ec; [|discriminate].
  assert (Hrt : Fs.read_text (fs st) b = Some s).
  { unfold Fs.read_text, Fs.read. rewrite Eb, Hr, Ec. reflexivity. }
  rewrite Hrt. unfold restore_dconf_entry. mrun. rewrite He. mrun.
  rewrite Hrt. mrun.
  destruct (bool_decide (p ∈ dconf_refused st)) eqn:Eref; mrun.
  + eexists. split; [reflexivity|]. cbn [fs dconf dconf_refused log].
    split; [reflexivity|]. split; [reflexivity|]. split.
    { intros q Hq. apply lookup_delete_ne. congruence. }
    split; [apply lookup_delete_eq|].
    rewrite List.length_app. cbn. lia.
  + eexists. split; [reflexivity|]. cbn [fs dconf dconf_refused log].
    split; [reflexivity|]. split; [reflexivity|]. split.
    { intros q Hq. rewrite lookup_insert_ne by congruence.
      apply lookup_delete_ne. congruence. }
    split; [apply lookup_insert_eq|].
    rewrite List.length_app. cbn. lia.
- assert (He : Fs.exists_ (fs st) b = false) by (apply exists_false; exact Eb).
  assert (Hrt : Fs.read_text (fs st) b = None).
  { unfold Fs.read_text, Fs.read. rewrite Eb. reflexivity. }
  rewrite Hrt. unfold restore_dconf_entry. mrun. rewrite He. mrun.
  eexists. split; [reflexivity|]. cbn [fs dconf dconf_refused log].
  repeat split; auto. rewrite List.length_app. cbn. lia.
Qed.

Lemma restore_dconf_cons e rest st st1 :
restore_dconf_entry e st = (Ok tt, st1) →
restore_dconf (e :: rest) st = restore_dconf rest st1.
Proof. intros H. cbn [restore_dconf]. munfold. rewrite H. reflexivity. Qed.




(** ** Steps that install one file *)

#[local] Arguments backup_file : simpl never.
#[local] Arguments save_manifest : simpl never.
#[local] Arguments install_by_copy : simpl never.
#[local] Arguments call_install : simpl never.
#[local] Arguments _install_single : simpl never.

(** Steps 1, 2, 3, 4 and 7 with a live manager: when the destination
    exists, the version it held is kept in the backup tree and recorded in
    the manifest before the new file is written over it. *)
Theorem install_by_copy_keeps_previous number name src dst missing st fsrc fdst :
bm_dry_run (backup st) = false →
fs st !! src = Some fsrc → Fs.readable fsrc = true →
fs st !! dst = Some fdst → Fs.readable fdst = true → Fs.writable fdst = true →
(∀ g, fs st !! backup_dest HOME (bm_backup_dir (backup st)) dst = Some g →
      Fs.writable g = true) →
src ≠ dst →
backup_dest HOME (bm_backup_dir (backup st)) dst ≠ src →
backup_dest HOME (bm_backup_dir (backup st)) dst ≠ dst →
∃ st', install_by_copy HOME number name src dst missing false st
       = (Ok (mkResult number name SUCCESS "Installed"), st')
  ∧ Fs.content <$> (fs st' !! dst) = Some (Fs.content fsrc)
  ∧ Fs.content <$> (fs st' !! backup_dest HOME (bm_backup_dir (backup st)) dst)
    = Some (Fs.content fdst)
  ∧ backup st'
    = add_file_record (backup st) dst
        (backup_dest HOME (bm_backup_dir (backup st)) dst)
  ∧ ∀ q, q ≠ dst → q ≠ backup_dest HOME (bm_backup_dir (backup st)) dst →
         fs st' !! q = fs st !! q.
Proof.
intros Hlive Hsrc Hrs Hdst Hrd Hwd Hbw _ Hbs Hbd.
set (bdest := backup_dest HOME (bm_backup_dir (backup st)) dst) in *.
assert (Hes : Fs.exists_ (fs st) src = true) by (apply exists_lookup; eauto).
assert (Hed : Fs.exists_ (fs st) dst = true) by (apply exists_lookup; eauto).
destruct (write_succeeds (fs st) bdest (Fs.content fdst) Hbw) as [fs1 Hw1].
assert (Hc1 : Fs.copy2 (fs st) dst bdest = Some fs1).
{ unfold Fs.copy2, Fs.read. rewrite Hdst, Hrd. exact Hw1. }
apply write_lookup in Hw1 as [(r1 & w1 & Hl1 & _) Hoth1].
destruct (write_succeeds fs1 dst (Fs.content fsrc)) as [fs2 Hw2].
{ intros g Hg. rewrite Hoth1 in Hg by congruence. congruence. }
assert (Hc2 : Fs.copy2 fs1 src dst = Some fs2).
{ unfold Fs.copy2, Fs.read. rewrite Hoth1 by congruence. rewrite Hsrc, Hrs.
  exact Hw2. }
apply write_lookup in Hw2 as [(r2 & w2 & Hl2 & _) Hoth2].
eexists. split.
{ unfold install_by_copy. mrun. rewrite Hes. cbn.
  rewrite (backup_file_live_eq dst st fs1 Hlive Hed Hc1). mrun.
  rewrite Hc2. reflexivity. }
cbn [fs backup]. split; [rewrite Hl2; reflexivity|]. split.
{ rewrite Hoth2 by exact Hbd. rewrite Hl1. reflexivity. }
split; [reflexivity|].
intros q Hq1 Hq2. rewrite Hoth2 by exact Hq1. apply Hoth1. exact Hq2.
Qed.

(** A destination that cannot be backed up is not overwritten: with a live
    manager, when the copy into the backup tree fails the step raises and
    the files are as before. *)
Theorem install_by_copy_backup_error number name src dst missing dry_run st :
bm_dry_run (backup st) = false →
Fs.exists_ (fs st) src = true → Fs.exists_ (fs st) dst = true →
Fs.copy2 (fs st) dst (backup_dest HOME (bm_backup_dir (backup st)) dst) = None →
∃ st', install_by_copy HOME number name src dst missing dry_run st
       = (Raise (OSError "copy"), st')
  ∧ fs st' = fs st ∧ backup st' = backup st.
Proof.
intros Hlive Hes Hed Hc. unfold install_by_copy. mrun. rewrite Hes. cbn.
unfold backup_file. mrun. rewrite Hed. cbn. rewrite Hlive. mrun.
rewrite Hc. cbn. eauto.
Qed.

(** ** Dry run *)














Lemma Forall_select_steps (P : InstallerStep → Prop) nums :
Forall P (ALL_STEPS HOME THEME_DIR external) →
Forall P (select_steps HOME THEME_DIR external nums).
Proof.
intros H. apply Forall_forall. intros s Hs.
apply list_elem_of_filter in Hs as [_ Hs].
rewrite Forall_forall in H. exact (H s Hs).
Qed.

Lemma Forall_select_components (P : InstallerStep → Prop) args :
Forall P (ALL_STEPS HOME THEME_DIR external) →
Forall P (_select_components HOME THEME_DIR external args).
Proof.
intros H. unfold _select_components.
destruct (arg_components args); [apply Forall_select_steps|]; exact H.
Qed.







(** ** The selection and the results *)

Lemma fmap_filter_step_number (nums : gset Z) (l : list InstallerStep) :
step_number <$> filter (λ s, step_number s ∈ nums) l
= filter (λ n, n ∈ nums) (step_number <$> l).
Proof.
induction l as [|s l IH]; [reflexivity|].
rewrite fmap_cons, !filter_cons. destruct (decide (step_number s ∈ nums)).
- rewrite fmap_cons, IH. reflexivity.
- exact IH.
Qed.

(** The components always run in the order of their numbers, each at most
    once: the selection is the numbers 1 to 19 that were asked for, in
    increasing order, and numbers outside 1..19 select nothing. *)
Theorem select_steps_in_order (nums : gset Z) :
step_number <$> select_steps HOME THEME_DIR external nums
= filter (λ n, n ∈ nums) (seqZ 1 19).
Proof. unfold select_steps. rewrite fmap_filter_step_number. reflexivity. Qed.

Lemma own_result_install_by_copy n nm sudo src dst missing :
own_result (mkStep n nm sudo (λ si d, install_by_copy HOME n nm (src si) (dst si) missing d)).
Proof.
intros si d st r st'. cbn. unfold install_by_copy. mrun.
destruct (Fs.exists_ (fs st) (src si)); cbn.
- destruct (backup_file HOME (dst si) _) as [[b|e] st1]; [|discriminate].
  destruct d.
  + intros [= <- _]. auto.
  + destruct (Fs.copy2 _ _ _); cbn; [|discriminate]. intros [= <- _]. auto.
- intros [= <- _]. auto.
Qed.

Lemma own_result_flatpak : own_result (FlatpakOverridesInstaller HOME).
Proof.
intros si d st r st'. cbn. destruct (has_flatpak si); cbn.
- destruct d; cbn.
  + intros [= <- _]. auto.
  + mrun.
    destruct (backup_file HOME _ _) as [[b|e] st1]; [|discriminate]. cbn.
    destruct (Fs.write_text _ _ _); cbn; [|discriminate]. intros [= <- _]. auto.
- intros [= <- _]. auto.
Qed.

Lemma own_result_external n nm sudo : own_result (ExternalStep external n nm sudo).
Proof.
intros si d st r st'. cbn. mrun.
destruct (external n si d st) as [[x|e] st1]; [|discriminate].
intros [= <- _]. auto.
Qed.

Lemma own_result_all_steps : Forall own_result (ALL_STEPS HOME THEME_DIR external).
Proof.
unfold ALL_STEPS.
repeat first
  [ apply Forall_nil_2
  | apply Forall_cons_2;
    [first [apply own_result_external
           |apply own_result_flatpak
           |apply (own_result_install_by_copy _ _ _ (λ _, _) (λ si, _))]|] ].
Qed.

Lemma call_install_own step si d st r st' :
own_result step → call_install step si d st = (Ok r, st') →
number r = step_number step ∧ name r = step_name step.
Proof. intros H. unfold call_install. mrun. apply H. Qed.

Lemma error_prompt_own step si d answers st r rest st' :
own_result step →
error_prompt step si d answers st = (Ok (r, rest), st') →
number r = step_number step ∧ name r = step_name step.
Proof.
intros H. revert st. induction answers as [|choice more IH]; intros st;
  cbn [error_prompt].
{ discriminate. }
destruct (decide (choice = "r")).
{ mrun. destruct (call_install step si d st) as [[r0|e2] st1] eqn:E.
  - intros [= <- _ _]. exact (call_install_own _ _ _ _ _ _ H E).
  - destruct (is_Exception e2); [|discriminate]. apply IH. }
destruct (bool_decide (choice = "s" ∨ choice = "")).
{ intros [= <- _ _]. auto. }
destruct (decide (choice = "a")); [discriminate|].
mrun. apply IH.
Qed.

Lemma install_single_own args si step answers st r rest st' :
own_result step →
_install_single args si step answers st = (Ok (r, rest), st') →
number r = step_number step ∧ name r = step_name step.
Proof.
intros H. unfold _install_single. mrun.
destruct (call_install step si (arg_dry_run args) st) as [[r0|e] st1] eqn:E.
- intros [= <- _ _]. exact (call_install_own _ _ _ _ _ _ H E).
- destruct e; try (intros [= <- _ _]; cbn; auto; fail);
    (destruct (arg_non_interactive args);
     [intros [= <- _ _]; cbn; auto|apply error_prompt_own, H]).
Qed.

Lemma install_steps_cons args si step later answers results st r a1 st1 icon :
_install_single args si step answers st = (Ok (r, a1), st1) →
status_icon (status r) = Some icon →
_install_steps args si (step :: later) answers results st
= _install_steps args si later a1 (results ++ [r])%list
    (mkState (fs st1) (dconf st1) (dconf_refused st1)
       (log st1 ++ [Print ("  " +:+ icon +:+ " " +:+ step_name step +:+ ": "
                           +:+ message r)])
       (backup st1)).
Proof.
intros H1 H2. cbn [_install_steps]. unfold mbind at 1. unfold M_bind at 1.
rewrite H1. cbn [fst snd]. rewrite H2. reflexivity.
Qed.

Lemma install_steps_cons_pending args si step later answers results st r a1 st1 :
_install_single args si step answers st = (Ok (r, a1), st1) →
status_icon (status r) = None →
_install_steps args si (step :: later) answers results st
= (Raise (KeyError "Status.PENDING"), st1).
Proof.
intros H1 H2. cbn [_install_steps]. unfold mbind at 1. unfold M_bind at 1.
rewrite H1. cbn [fst snd]. rewrite H2. reflexivity.
Qed.

Lemma install_steps_cons_raise args si step later answers results st e st1 :
_install_single args si step answers st = (Raise e, st1) →
_install_steps args si (step :: later) answers results st = (Raise e, st1).
Proof.
intros H1. cbn [_install_steps]. unfold mbind at 1. unfold M_bind at 1.
rewrite H1. reflexivity.
Qed.

Lemma install_steps_results args si steps answers results st rs rest st' :
Forall own_result steps →
_install_steps args si steps answers results st = (Ok (rs, rest), st') →
∃ new, rs = (results ++ new)%list
  ∧ number <$> new = step_number <$> steps
  ∧ name <$> new = step_name <$> steps
  ∧ Forall (λ r, status r ≠ PENDING) new.
Proof.
intros H. revert answers results st.
induction H as [|step later Hstep _ IH]; intros answers results st.
{ cbn [_install_steps]. intros [= <- _ _]. exists []. rewrite app_nil_r. auto. }
destruct (_install_single args si step answers st) as [[[r a1]|e] st1] eqn:E.
2:{ rewrite (install_steps_cons_raise _ _ _ _ _ _ _ _ _ E). discriminate. }
destruct (status_icon (status r)) as [icon|] eqn:Ei.
2:{ rewrite (install_steps_cons_pending _ _ _ _ _ _ _ _ _ _ E Ei). discriminate. }
rewrite (install_steps_cons _ _ _ _ _ _ _ _ _ _ _ E Ei).
intros Hrun. apply IH in Hrun as (new & -> & Hn & Hm & Hp).
destruct (install_single_own _ _ _ _ _ _ _ _ Hstep E) as [Hnum Hname].
exists (r :: new). rewrite <- app_assoc. split; [reflexivity|].
rewrite !fmap_cons, Hn, Hm, Hnum, Hname. repeat split.
apply Forall_cons_2; [|exact Hp]. intros Hs. rewrite Hs in Ei. discriminate.
Qed.

(** When the loop of [_install_steps] ends normally, [self.results] holds
    exactly one result for every selected component, in the order of the
    components and under their numbers and names, and none is [PENDING]. *)
Theorem install_steps_one_result_per_step args si answers st rs rest st' :
_install_steps args si (_select_components HOME THEME_DIR external args)
  answers [] st = (Ok (rs, rest), st') →
number <$> rs = step_number <$> _select_components HOME THEME_DIR external args
∧ name <$> rs = step_name <$> _select_components HOME THEME_DIR external args
∧ Forall (λ r, status r ≠ PENDING) rs.
Proof.
intros Hrun.
apply install_steps_results in Hrun as (new & -> & Hn & Hm & Hp).
- auto.
- apply Forall_select_components, own_result_all_steps.
Qed.

(** ** Without a terminal *)

Lemma install_single_non_interactive args si step answers st :
arg_non_interactive args = true →
∃ r st', _install_single args si step answers st = (Ok (r, answers), st').
Proof.
intros Hn. unfold _install_single. mrun.
destruct (call_install step si (arg_dry_run args) st) as [[r0|e] st1]; [eauto|].
rewrite Hn. destruct e; eauto.
Qed.

(** In non-interactive mode the loop asks nothing and no exception of a
    step leaves it, [KeyboardInterrupt] included: either it ends with one
    more result for every step and the typed lines untouched, or a step
    has answered with the status [PENDING], for which the table of icons
    has no entry, and the loop dies of that [KeyError]. *)
Theorem install_steps_non_interactive args si steps answers results st :
arg_non_interactive args = true →
(∃ new st', _install_steps args si steps answers results st
            = (Ok ((results ++ new)%list, answers), st')
            ∧ length new = length steps)
∨ (∃ st', _install_steps args si steps answers results st
          = (Raise (KeyError "Status.PENDING"), st')).
Proof.
intros Hn. revert results st.
induction steps as [|step later IH]; intros results st.
{ left. exists [], st. rewrite app_nil_r. auto. }
destruct (install_single_non_interactive args si step answers st Hn)
  as (r & st1 & E).
destruct (status_icon (status r)) as [icon|] eqn:Ei.
- rewrite (install_steps_cons _ _ _ _ _ _ _ _ _ _ _ E Ei).
  destruct (IH (results ++ [r])%list
              (mkState (fs st1) (dconf st1) (dconf_refused st1)
                 (log st1 ++ [Print ("  " +:+ icon +:+ " " +:+ step_name step
                                     +:+ ": " +:+ message r)]) (backup st1)))
    as [(new & st' & Hrun & Hlen)|(st' & Hrun)].
  + left. exists (r :: new), st'. rewrite Hrun, <- app_assoc. cbn. auto.
  + right. exists st'. exact Hrun.
- right. exists st1. exact (install_steps_cons_pending _ _ _ _ _ _ _ _ _ _ E Ei).
Qed.

(** ** Abort at the prompt *)

Lemma install_steps_app args si pre post answers results st rs a1 s1 :
_install_steps args si pre answers results st = (Ok (rs, a1), s1) →
_install_steps args si (pre ++ post) answers results st
= _install_steps args si post a1 rs s1.
Proof.
revert answers results st. induction pre as [|step pre IH];
  intros answers results st.
{ cbn [_install_steps app]. intros [= <- <- <-]. reflexivity. }
rewrite <- app_comm_cons.
destruct (_install_single args si step answers st) as [[[r a2]|e] st1] eqn:E.
2:{ rewrite (install_steps_cons_raise _ _ _ _ _ _ _ _ _ E). discriminate. }
destruct (status_icon (status r)) as [icon|] eqn:Ei.
2:{ rewrite (install_steps_cons_pending _ _ _ _ _ _ _ _ _ _ E Ei). discriminate. }
rewrite !(install_steps_cons _ _ _ _ _ _ _ _ _ _ _ E Ei). apply IH.
Qed.

Lemma error_prompt_abort step si d rest st :
error_prompt step si d ("a" :: rest) st
= (Raise (KeyboardInterrupt "Aborted by user"), st).
Proof.
cbn [error_prompt].
destruct (decide ("a" = "r")) as [H|_]; [discriminate H|].
destruct (bool_decide ("a" = "s" ∨ "a" = "")) eqn:B.
{ apply bool_decide_eq_true in B. destruct B; discriminate. }
destruct (decide ("a" = "a")); [reflexivity|congruence].
Qed.

Lemma install_single_abort args si step rest st e st1 :
arg_non_interactive args = false →
call_install step si (arg_dry_run args) st = (Raise e, st1) →
is_Exception e = true →
_install_single args si step ("a" :: rest) st
= (Raise (KeyboardInterrupt "Aborted by user"),
   mkState (fs st1) (dconf st1) (dconf_refused st1)
     (log st1 ++ [Print (nl +:+ "  [error]Error in " +:+ step_name step +:+ ": "
                         +:+ exn_str e +:+ "[/]")])
     (backup st1)).
Proof.
intros Hni Hcall He. unfold _install_single.
unfold mbind at 1. unfold M_bind at 1. unfold try_. rewrite Hcall, Hni.
destruct e; try discriminate;
  (unfold mbind, M_bind, print, emit; rewrite error_prompt_abort; reflexivity).
Qed.

(** The user answers "a" at the prompt of a failing step, in a live run with
    backups: [main] returns 130 in the state in which the step failed, but
    for the two lines it prints.  The later steps are not run and
    [save_manifest] is not called: the copies made for the earlier steps
    stay in the backup tree, and the manifest that lists them is never
    written. *)
Theorem main_user_abort args si now answers st pre step later rs rest s1 e s2 :
arg_non_interactive args = false →
arg_dry_run args = false →
arg_no_backup args = false →
_select_components HOME THEME_DIR external args = (pre ++ step :: later)%list →
_install_steps args si pre answers []
  (mkState (fs st) (dconf st) (dconf_refused st)
     (log st ++ [Print ("[info]Backup directory:[/] "
                        +:+ bm_backup_dir (BackupManager_new HOME false now)
                        +:+ nl)])
     (BackupManager_new HOME false now))
= (Ok (rs, "a" :: rest), s1) →
call_install step si false s1 = (Raise e, s2) →
is_Exception e = true →
main HOME THEME_DIR external args si now answers st
= (Ok 130%Z,
   mkState (fs s2) (dconf s2) (dconf_refused s2)
     (log s2 ++ [Print (nl +:+ "  [error]Error in " +:+ step_name step +:+ ": "
                        +:+ exn_str e +:+ "[/]")]
             ++ [Print (nl +:+ "[warning]Interrupted.[/]")])
     (backup s2)).
Proof.
intros Hni Hdry Hnb Hsel Hpre Hcall He.
assert (Hsingle := install_single_abort args si step rest s1 e s2 Hni).
rewrite Hdry in Hsingle. specialize (Hsingle Hcall He).
assert (Hloop := install_steps_app args si pre (step :: later) answers [] _ _ _ _ Hpre).
rewrite (install_steps_cons_raise _ _ _ _ _ _ _ _ _ Hsingle) in Hloop.
assert (Hxl : ∃ x l, (pre ++ step :: later)%list = x :: l)
  by (destruct pre; cbn; eauto).
destruct Hxl as (x & l & Hxl).
unfold main, run. cbv zeta. rewrite Hsel, Hnb, Hdry. cbn [negb].
rewrite Hxl. cbv iota. rewrite <- Hxl.
unfold BackupManager_init.
unfold mbind, M_bind, try_, set_backup, print, emit, mret, M_ret.
cbn [fs dconf dconf_refused log backup].
unfold mbind, M_bind in Hloop. rewrite Hloop.
cbn [fs dconf dconf_refused log backup]. rewrite <- app_assoc. reflexivity.
Qed.

(** ** Where the copies go *)

Lemma startswith_app p s : startswith p (p +:+ s) = true.
Proof.
induction p as [|c p IH]; [reflexivity|]. rewrite app_cons. cbn.
destruct (ascii_dec c c); [exact IH|congruence].
Qed.

Lemma replace_from_skip old new p s :
replace_from old new (String.length p) (p +:+ s) = replace_from old new 0 s.
Proof.
induction p as [|c p IH]; [reflexivity|]. rewrite app_cons. cbn. exact IH.
Qed.

Lemma replace_prefix old new s :
old ≠ "" → replace (old +:+ s) old new = new +:+ replace s old new.
Proof.
intros Hne. destruct old as [|a o]; [congruence|]. unfold replace.
rewrite app_cons. cbn [replace_from]. rewrite <- app_cons.
rewrite startswith_app. cbn [String.length]. rewrite Nat.sub_1_r. cbn [Nat.pred].
rewrite replace_from_skip. reflexivity.
Qed.

(** [backup_file] does not keep apart a file under the home directory and
    the file of the same path under the root: the two are different files
    with one place in the backup tree, so the later backup overwrites the
    earlier one. *)
Theorem backup_dest_collision backup_dir x :
HOME ≠ "" →
startswith HOME (String "/" x) = false →
HOME +:+ String "/" x ≠ String "/" x
∧ backup_dest HOME backup_dir (HOME +:+ String "/" x)
  = backup_dest HOME backup_dir (String "/" x).
Proof.
intros Hne Hsw. split.
- intros Heq. apply (f_equal String.length) in Heq.
  rewrite length_app in Heq. destruct HOME; [congruence|]. cbn in Heq. lia.
- unfold backup_dest, backup_rel. rewrite (replace_prefix _ _ _ Hne).
  unfold replace at 1 2. cbn [replace_from]. rewrite Hsw.
  change ("~" +:+ String "/" ?r) with (String "~" (String "/" r)).
  reflexivity.
Qed.

(** ** dconf: backup, then restore *)

Lemma replace_slash_head s c r : replace s "/" "_" = String c r → c ≠ "/"%char.
Proof.
unfold replace. destruct s as [|a s]; cbn [replace_from startswith]; [discriminate|].
destruct (ascii_dec "/" a) as [Ha|Ha]; cbn [replace_from startswith].
- change ("_" +:+ ?x) with (String "_"%char x). intros [= <- _]. discriminate.
- intros [= <- _]. congruence.
Qed.

Lemma dconf_dest_not_manifest backup_dir path :
backup_dir // "dconf" // dconf_file_name path ≠ backup_dir // "manifest.json".
Proof.
change (backup_dir // "manifest.json") with (backup_dir +:+ "/manifest.json").
change (backup_dir // "dconf") with (backup_dir +:+ "/dconf").
destruct (dconf_file_name path) as [|c r] eqn:E.
- change ((backup_dir +:+ "/dconf") // "") with (backup_dir +:+ "/dconf").
  intros H. apply (inj (String.app backup_dir)) in H. discriminate.
- apply replace_slash_head in E.
  assert (Hj : (backup_dir +:+ "/dconf") // String c r
               = backup_dir +:+ ("/dconf/" +:+ String c r)).
  { unfold Fs.join.
    destruct c as [[] [] [] [] [] [] [] []]; try congruence;
      induction backup_dir as [|x b IH]; try reflexivity;
      rewrite !app_cons; f_equal; exact IH. }
  rewrite Hj. intros H. apply (inj (String.app backup_dir)) in H. discriminate.
Qed.

Lemma backup_dconf_live_eq path data st fs' :
bm_dry_run (backup st) = false →
dconf st !! path = Some data → data ≠ "" →
Fs.write_text (fs st) (bm_backup_dir (backup st) // "dconf" // dconf_file_name path)
  data = Some fs' →
backup_dconf path st
= (Ok true,
   mkState fs' (dconf st) (dconf_refused st) (log st ++ [BackupDconfCall path])
     (add_dconf_record (backup st) path
        (bm_backup_dir (backup st) // "dconf" // dconf_file_name path))).
Proof.
intros Hlive Hd Hne Hw. unfold backup_dconf. mrun. rewrite Hd. cbn.
destruct (decide (data = "")); [congruence|]. mrun. rewrite Hlive. mrun.
rewrite Hw. reflexivity.
Qed.

(** Round trip for the first dconf path that a live manager backs up:
    whatever the path holds afterwards, saving the manifest and restoring
    from it loads the dump taken at the backup, provided dconf accepts
    it. *)
Theorem dconf_backup_restore_round_trip path data st :
bm_dry_run (backup st) = false →
m_files (bm_manifest (backup st)) = [] → m_dconf (bm_manifest (backup st)) = [] →
dconf st !! path = Some data → data ≠ "" →
path ∉ dconf_refused st →
fs st !! (bm_backup_dir (backup st) // "dconf" // dconf_file_name path) = None →
fs st !! (bm_backup_dir (backup st) // "manifest.json") = None →
∃ st1, backup_dconf path st = (Ok true, st1)
  ∧ ∀ st1',
      backup st1' = backup st1 → fs st1' = fs st1 →
      dconf_refused st1' = dconf_refused st1 →
      ∃ st2 st3,
        save_manifest st1' = (Ok tt, st2)
        ∧ restore (bm_backup_dir (backup st)) st2 = (Ok true, st3)
        ∧ dconf st3 !! path = Some data.
Proof.
intros Hlive Hfiles Hdconf Hd Hne Hacc Hdest Hman.
set (bd := bm_backup_dir (backup st)) in *.
set (dest := bd // "dconf" // dconf_file_name path) in *.
set (mpath := bd // "manifest.json") in *.
assert (Hdm : dest ≠ mpath) by apply dconf_dest_not_manifest.
destruct (write_succeeds (fs st) dest (Fs.Text data)) as [fs1 Hw1].
{ intros g Hg. congruence. }
eexists. split; [exact (backup_dconf_live_eq path data st fs1 Hlive Hd Hne Hw1)|].
apply write_lookup in Hw1 as [(r1 & w1 & Hl1 & Hnew1 & _) Hoth1].
destruct (Hnew1 Hdest) as [-> ->].
intros st1' Hb Hfs Hrefused. cbn [fs backup dconf_refused] in Hb, Hfs, Hrefused.
assert (Hb1 : bm_backup_dir (backup st1') = bd) by (rewrite Hb; reflexivity).
assert (Hlive1 : bm_dry_run (backup st1') = false) by (rewrite Hb; exact Hlive).
assert (Hm1 : bm_manifest (backup st1')
              = mkManifest (m_timestamp (bm_manifest (backup st))) [] [(path, dest)]).
{ rewrite Hb. cbn. rewrite Hfiles, Hdconf. reflexivity. }
assert (Hman1 : fs st1' !! mpath = None).
{ rewrite Hfs. rewrite Hoth1 by congruence. exact Hman. }
destruct (write_succeeds (fs st1') mpath (Fs.Json (bm_manifest (backup st1'))))
  as [fs2 Hw2].
{ intros g Hg. congruence. }
assert (Hw2' : Fs.write (fs st1') (bm_backup_dir (backup st1') // "manifest.json")
                  (Fs.Json (bm_manifest (backup st1'))) = Some fs2)
  by (rewrite Hb1; exact Hw2).
exists (mkState fs2 (dconf st1') (dconf_refused st1')
          (log st1' ++ [SaveManifestCall]) (backup st1')).
apply write_lookup in Hw2 as [(r2 & w2 & Hl2 & Hnew2 & _) Hoth2].
destruct (Hnew2 Hman1) as [-> ->].
assert (Hread2 : Fs.read fs2 mpath = Some (Fs.Json (bm_manifest (backup st1')))).
{ unfold Fs.read. rewrite Hl2. reflexivity. }
assert (Hd2 : fs2 !! dest = Some (Fs.mkFile (Fs.Text data) true true)).
{ rewrite Hoth2 by exact Hdm. rewrite Hfs. exact Hl1. }
set (s2 := mkState fs2 (dconf st1') (dconf_refused st1')
             ((log st1' ++ [SaveManifestCall])
              ++ [Print (nl +:+ "[info]Restoring from backup: "
                         +:+ m_timestamp (bm_manifest (backup st1')) +:+ "[/]"
                         +:+ nl)])
             (backup st1')).
destruct (restore_dconf_entry_step path dest s2)
  as (st3 & Hrun & _ & _ & _ & Hhead & _).
{ intros g Hg. cbn [fs s2] in Hg. rewrite Hd2 in Hg. injection Hg as <-. auto. }
assert (Hrt : Fs.read_text (fs s2) dest = Some data).
{ unfold Fs.read_text, Fs.read. cbn [fs s2]. rewrite Hd2. reflexivity. }
rewrite Hrt in Hhead. cbn [dconf_refused s2] in Hhead.
rewrite Hrefused, bool_decide_eq_false_2 in Hhead by exact Hacc.
exists st3. split; [exact (save_manifest_live_eq st1' fs2 Hlive1 Hw2')|].
split; [|exact Hhead].
assert (Hmf : m_files (bm_manifest (backup st1')) = []) by (rewrite Hm1; reflexivity).
assert (Hmd : m_dconf (bm_manifest (backup st1')) = [(path, dest)])
  by (rewrite Hm1; reflexivity).
erewrite restore_loaded by (cbn [fs]; exact Hread2).
rewrite Hmf, Hmd. cbn [restore_files fs dconf dconf_refused log backup].
unfold mbind at 1. unfold M_bind at 1. cbn [mret M_ret].
subst s2. unfold mbind, M_bind.
rewrite (restore_dconf_cons _ [] _ _ Hrun). reflexivity.
Qed.

End Facts.

(** ** Sample runs

    A small machine on which the hypotheses of the theorems above hold. *)

Definition sample_home : string := "/home/u".
Definition sample_theme_dir : string := "/theme".

Definition sample_external : Z → SystemInfo → bool → M (Status * string) :=
  λ _ _ _, mret (SUCCESS, "done").

Definition sample_info : SystemInfo :=
  mkSystemInfo FEDORA "Fedora Linux" "47.1" DNF false true "/home/u" true.

Definition gtk4_src : string := "/theme/gtk-4.0/gtk.css".
Definition gtk4_dst : string := "/home/u/.config/gtk-4.0/gtk.css".
Definition gtk3_src : string := "/theme/gtk-3.0/gtk.css".
Definition gtk3_dst : string := "/home/u/.config/gtk-3.0/gtk.css".

Definition old_gtk4 : Fs.file := Fs.mkFile (Fs.Text "old gtk4") true true.
Definition new_gtk4 : Fs.file := Fs.mkFile (Fs.Text "new gtk4") true true.

Definition sample_fs : Fs.filesystem :=
  <[gtk4_src := new_gtk4]> (<[gtk4_dst := old_gtk4]> ∅).

(** The same files, the installed GTK4 file being unreadable. *)
Definition locked_fs : Fs.filesystem :=
  <[gtk4_src := new_gtk4]>
    (<[gtk4_dst := Fs.mkFile (Fs.Text "old gtk4") false true]> ∅).

Definition sample_state (f : Fs.filesystem) (dry_run : bool) : State :=
  mkState f ∅ ∅ [] (BackupManager_new sample_home dry_run "20240101_000000").

Lemma backup_file_missing_or_dry_run_witness :
(Fs.exists_ (fs (sample_state sample_fs true)) gtk4_dst = false
 ∨ bm_dry_run (backup (sample_state sample_fs true)) = true)
∧ ∃ st', backup_file sample_home gtk4_dst (sample_state sample_fs true)
         = (Ok (Fs.exists_ (fs (sample_state sample_fs true)) gtk4_dst), st')
    ∧ fs st' = fs (sample_state sample_fs true)
    ∧ dconf st' = dconf (sample_state sample_fs true)
    ∧ backup st' = backup (sample_state sample_fs true).
Proof.
assert (H : Fs.exists_ (fs (sample_state sample_fs true)) gtk4_dst = false
            ∨ bm_dry_run (backup (sample_state sample_fs true)) = true)
  by (right; reflexivity).
split; [exact H|].
exact (backup_file_missing_or_dry_run sample_home gtk4_dst
         (sample_state sample_fs true) H).
Defined.

Lemma sample_backup_place_free g :
fs (sample_state sample_fs false)
  !! backup_dest sample_home (bm_backup_dir (backup (sample_state sample_fs false)))
       gtk4_dst = Some g →
Fs.writable g = true.
Proof. intros H. vm_compute in H. discriminate H. Qed.

Lemma backup_file_copies_and_records_witness :
bm_dry_run (backup (sample_state sample_fs false)) = false
∧ fs (sample_state sample_fs false) !! gtk4_dst = Some old_gtk4
∧ Fs.readable old_gtk4 = true
∧ ∃ st', backup_file sample_home gtk4_dst (sample_state sample_fs false) = (Ok true, st')
  ∧ Fs.content <$> (fs st' !! backup_dest sample_home
                      (bm_backup_dir (backup (sample_state sample_fs false))) gtk4_dst)
    = Some (Fs.content old_gtk4)
  ∧ (∀ q, q ≠ backup_dest sample_home
                (bm_backup_dir (backup (sample_state sample_fs false))) gtk4_dst →
          fs st' !! q = fs (sample_state sample_fs false) !! q)
  ∧ backup st'
    = add_file_record (backup (sample_state sample_fs false)) gtk4_dst
        (backup_dest sample_home
           (bm_backup_dir (backup (sample_state sample_fs false))) gtk4_dst)
  ∧ dconf st' = dconf (sample_state sample_fs false).
Proof.
assert (H2 : fs (sample_state sample_fs false) !! gtk4_dst = Some old_gtk4)
  by (vm_compute; reflexivity).
split; [reflexivity|]. split; [exact H2|]. split; [reflexivity|].
exact (backup_file_copies_and_records sample_home gtk4_dst old_gtk4
         (sample_state sample_fs false) eq_refl H2 eq_refl
         sample_backup_place_free).
Defined.

Lemma backup_file_copy_error_witness :
bm_dry_run (backup (sample_state locked_fs false)) = false
∧ Fs.exists_ (fs (sample_state locked_fs false)) gtk4_dst = true
∧ Fs.copy2 (fs (sample_state locked_fs false)) gtk4_dst
    (backup_dest sample_home (bm_backup_dir (backup (sample_state locked_fs false)))
       gtk4_dst) = None
∧ ∃ st', backup_file sample_home gtk4_dst (sample_state locked_fs false)
         = (Raise (OSError "copy"), st')
    ∧ fs st' = fs (sample_state locked_fs false)
    ∧ backup st' = backup (sample_state locked_fs false).
Proof.
assert (H2 : Fs.exists_ (fs (sample_state locked_fs false)) gtk4_dst = true)
  by (vm_compute; reflexivity).
assert (H3 : Fs.copy2 (fs (sample_state locked_fs false)) gtk4_dst
    (backup_dest sample_home (bm_backup_dir (backup (sample_state locked_fs false)))
       gtk4_dst) = None) by (vm_compute; reflexivity).
split; [reflexivity|]. split; [exact H2|]. split; [exact H3|].
exact (backup_file_copy_error sample_home gtk4_dst (sample_state locked_fs false)
         eq_refl H2 H3).
Defined.

Lemma backup_restore_round_trip_witness :
bm_dry_run (backup (sample_state sample_fs false)) = false
∧ m_files (bm_manifest (backup (sample_state sample_fs false))) = []
∧ m_dconf (bm_manifest (backup (sample_state sample_fs false))) = []
∧ fs (sample_state sample_fs false) !! gtk4_dst = Some old_gtk4
∧ Fs.readable old_gtk4 = true
∧ fs (sample_state sample_fs false)
    !! backup_dest sample_home (bm_backup_dir (backup (sample_state sample_fs false)))
         gtk4_dst = None
∧ fs (sample_state sample_fs false)
    !! (bm_backup_dir (backup (sample_state sample_fs false)) // "manifest.json") = None
∧ gtk4_dst ≠ backup_dest sample_home
               (bm_backup_dir (backup (sample_state sample_fs false))) gtk4_dst
∧ gtk4_dst ≠ bm_backup_dir (backup (sample_state sample_fs false)) // "manifest.json"
∧ ∃ st1, backup_file sample_home gtk4_dst (sample_state sample_fs false) = (Ok true, st1)
  ∧ ∀ st1',
      backup st1' = backup st1 →
      (∀ q, q ≠ gtk4_dst → fs st1' !! q = fs st1 !! q) →
      (∀ g, fs st1' !! gtk4_dst = Some g → Fs.writable g = true) →
      ∃ st2 st3,
        save_manifest st1' = (Ok tt, st2)
        ∧ restore (bm_backup_dir (backup (sample_state sample_fs false))) st2
          = (Ok true, st3)
        ∧ Fs.content <$> (fs st3 !! gtk4_dst) = Some (Fs.content old_gtk4).
Proof.
assert (H4 : fs (sample_state sample_fs false) !! gtk4_dst = Some old_gtk4)
  by (vm_compute; reflexivity).
assert (H6 : fs (sample_state sample_fs false)
    !! backup_dest sample_home (bm_backup_dir (backup (sample_state sample_fs false)))
         gtk4_dst = None) by (vm_compute; reflexivity).
assert (H7 : fs (sample_state sample_fs false)
    !! (bm_backup_dir (backup (sample_state sample_fs false)) // "manifest.json") = None)
  by (vm_compute; reflexivity).
assert (H8 : gtk4_dst ≠ backup_dest sample_home
               (bm_backup_dir (backup (sample_state sample_fs false))) gtk4_dst)
  by (intros H; vm_compute in H; discriminate H).
assert (H9 : gtk4_dst
             ≠ bm_backup_dir (backup (sample_state sample_fs false)) // "manifest.json")
  by (intros H; vm_compute in H; discriminate H).
split; [reflexivity|]. split; [reflexivity|]. split; [reflexivity|].
split; [exact H4|]. split; [reflexivity|]. split; [exact H6|]. split; [exact H7|].
split; [exact H8|]. split; [exact H9|].
exact (backup_restore_round_trip sample_home gtk4_dst old_gtk4
         (sample_state sample_fs false) eq_refl eq_refl eq_refl H4 eq_refl
         H6 H7 H8 H9).
Defined.

(** The whole round trip on the sample machine: backup and installation
    of the GTK4 file, the manifest, the restore. *)
Definition installed_state : State :=
  (install (Gtk4Installer sample_home sample_theme_dir) sample_info false
     (sample_state sample_fs false)).2.

Definition recorded_state : State := (save_manifest installed_state).2.

Definition restored_state : State :=
  (restore (bm_backup_dir (backup recorded_state)) recorded_state).2.

Example sample_round_trip :
(install (Gtk4Installer sample_home sample_theme_dir) sample_info false
   (sample_state sample_fs false)).1
= Ok (mkResult 2 "GTK4 Theme" SUCCESS "Installed")
∧ fs installed_state !! gtk4_dst = Some new_gtk4
∧ (save_manifest installed_state).1 = Ok tt
∧ (restore (bm_backup_dir (backup recorded_state)) recorded_state).1 = Ok true
∧ fs restored_state !! gtk4_dst = Some old_gtk4.
Proof.
split; [vm_compute; reflexivity|]. split; [vm_compute; reflexivity|].
split; [vm_compute; reflexivity|]. split; [vm_compute; reflexivity|].
vm_compute; reflexivity.
Qed.

(** *** Restore *)

Definition restore_entries : list (string * string) :=
  [("/a", "/bk/files/a"); ("/b", "/bk/files/b")].

(** The backup copy of [/a] is there, that of [/b] is missing. *)
Definition restore_fs : Fs.filesystem :=
  <["/bk/files/a" := Fs.mkFile (Fs.Text "saved a") true true]>
    (<["/a" := Fs.mkFile (Fs.Text "themed a") true true]>
       (<["/b" := Fs.mkFile (Fs.Text "themed b") true true]> ∅)).

Definition restore_state : State :=
  mkState restore_fs ∅ ∅ [] (BackupManager_new sample_home false "20240101_000000").

Lemma restore_fs_accessible : accessible restore_fs.
Proof.
unfold accessible, restore_fs.
repeat (apply map_Forall_insert_2; [split; reflexivity|]).
apply map_Forall_empty.
Qed.

Lemma restore_entries_apart e e' :
e ∈ restore_entries → e' ∈ restore_entries → e.1 ≠ e'.2.
Proof.
unfold restore_entries. intros He He'.
repeat (apply elem_of_cons in He as [->|He]);
  repeat (apply elem_of_cons in He' as [->|He']);
  try (apply elem_of_nil in He as []);
  try (apply elem_of_nil in He' as []); discriminate.
Qed.

Lemma restore_entries_nodup : NoDup restore_entries.*1.
Proof.
apply NoDup_cons. split.
- intros H. apply list_elem_of_singleton in H. discriminate H.
- apply NoDup_singleton.
Qed.

Lemma restore_files_restores_each_witness :
accessible (fs restore_state)
∧ NoDup restore_entries.*1
∧ (∀ e e', e ∈ restore_entries → e' ∈ restore_entries → e.1 ≠ e'.2)
∧ ∃ st', restore_files restore_entries restore_state = (Ok tt, st')
  ∧ (∀ e, e ∈ restore_entries →
       match fs restore_state !! e.2 with
       | Some g => Fs.content <$> (fs st' !! e.1) = Some (Fs.content g)
       | None => fs st' !! e.1 = fs restore_state !! e.1
       end)
  ∧ (∀ q, q ∉ restore_entries.*1 → fs st' !! q = fs restore_state !! q).
Proof.
split; [exact restore_fs_accessible|]. split; [exact restore_entries_nodup|].
split; [exact restore_entries_apart|].
exact (restore_files_restores_each restore_entries restore_state
         restore_fs_accessible restore_entries_nodup restore_entries_apart).
Defined.

Definition dconf_entries : list (string * string) :=
  [("/org/gnome/shell/", "/bk/dconf/org_gnome_shell");
   ("/org/gnome/desktop/", "/bk/dconf/org_gnome_desktop")].

Definition dconf_fs : Fs.filesystem :=
  <["/bk/dconf/org_gnome_shell" := Fs.mkFile (Fs.Text "[/]") true true]>
    (<["/bk/dconf/org_gnome_desktop" := Fs.mkFile (Fs.Text "[interface]") true true]> ∅).

(** dconf refuses to load under [/org/gnome/desktop/]. *)
Definition dconf_state : State :=
  mkState dconf_fs
    (<["/org/gnome/shell/" := "themed"]> (<["/org/gnome/desktop/" := "themed"]> ∅))
    {["/org/gnome/desktop/"]} []
    (BackupManager_new sample_home false "20240101_000000").




Example sample_refused_path_is_reset :
dconf (restore_dconf dconf_entries dconf_state).2 !! "/org/gnome/desktop/" = None
∧ dconf (restore_dconf dconf_entries dconf_state).2 !! "/org/gnome/shell/"
  = Some "[/]".
Proof. split; vm_compute; reflexivity. Qed.








(** *** Installation *)

Lemma install_by_copy_keeps_previous_witness :
bm_dry_run (backup (sample_state sample_fs false)) = false
∧ fs (sample_state sample_fs false) !! gtk4_src = Some new_gtk4
∧ Fs.readable new_gtk4 = true
∧ fs (sample_state sample_fs false) !! gtk4_dst = Some old_gtk4
∧ Fs.readable old_gtk4 = true
∧ Fs.writable old_gtk4 = true
∧ (∀ g, fs (sample_state sample_fs false)
          !! backup_dest sample_home
               (bm_backup_dir (backup (sample_state sample_fs false))) gtk4_dst = Some g →
        Fs.writable g = true)
∧ gtk4_src ≠ gtk4_dst
∧ backup_dest sample_home (bm_backup_dir (backup (sample_state sample_fs false))) gtk4_dst
  ≠ gtk4_src
∧ backup_dest sample_home (bm_backup_dir (backup (sample_state sample_fs false))) gtk4_dst
  ≠ gtk4_dst
∧ ∃ st', install_by_copy sample_home 2 "GTK4 Theme" gtk4_src gtk4_dst
           "Source gtk-4.0/gtk.css not found" false (sample_state sample_fs false)
         = (Ok (mkResult 2 "GTK4 Theme" SUCCESS "Installed"), st')
  ∧ Fs.content <$> (fs st' !! gtk4_dst) = Some (Fs.content new_gtk4)
  ∧ Fs.content <$> (fs st' !! backup_dest sample_home
                      (bm_backup_dir (backup (sample_state sample_fs false))) gtk4_dst)
    = Some (Fs.content old_gtk4)
  ∧ backup st'
    = add_file_record (backup (sample_state sample_fs false)) gtk4_dst
        (backup_dest sample_home
           (bm_backup_dir (backup (sample_state sample_fs false))) gtk4_dst)
  ∧ ∀ q, q ≠ gtk4_dst →
         q ≠ backup_dest sample_home
               (bm_backup_dir (backup (sample_state sample_fs false))) gtk4_dst →
         fs st' !! q = fs (sample_state sample_fs false) !! q.
Proof.
assert (H2 : fs (sample_state sample_fs false) !! gtk4_src = Some new_gtk4)
  by (vm_compute; reflexivity).
assert (H4 : fs (sample_state sample_fs false) !! gtk4_dst = Some old_gtk4)
  by (vm_compute; reflexivity).
assert (H8 : gtk4_src ≠ gtk4_dst) by discriminate.
assert (H9 : backup_dest sample_home
               (bm_backup_dir (backup (sample_state sample_fs false))) gtk4_dst
             ≠ gtk4_src) by (intros H; vm_compute in H; discriminate H).
assert (H10 : backup_dest sample_home
                (bm_backup_dir (backup (sample_state sample_fs false))) gtk4_dst
              ≠ gtk4_dst) by (intros H; vm_compute in H; discriminate H).
split; [reflexivity|]. split; [exact H2|]. split; [reflexivity|].
split; [exact H4|]. split; [reflexivity|]. split; [reflexivity|].
split; [exact sample_backup_place_free|]. split; [exact H8|].
split; [exact H9|]. split; [exact H10|].
exact (install_by_copy_keeps_previous sample_home 2 "GTK4 Theme" gtk4_src gtk4_dst
         "Source gtk-4.0/gtk.css not found" (sample_state sample_fs false)
         new_gtk4 old_gtk4 eq_refl H2 eq_refl H4 eq_refl eq_refl
         sample_backup_place_free H8 H9 H10).
Defined.

Lemma install_by_copy_backup_error_witness :
bm_dry_run (backup (sample_state locked_fs false)) = false
∧ Fs.exists_ (fs (sample_state locked_fs false)) gtk4_src = true
∧ Fs.exists_ (fs (sample_state locked_fs false)) gtk4_dst = true
∧ Fs.copy2 (fs (sample_state locked_fs false)) gtk4_dst
    (backup_dest sample_home (bm_backup_dir (backup (sample_state locked_fs false)))
       gtk4_dst) = None
∧ ∃ st', install_by_copy sample_home 2 "GTK4 Theme" gtk4_src gtk4_dst
           "Source gtk-4.0/gtk.css not found" false (sample_state locked_fs false)
         = (Raise (OSError "copy"), st')
  ∧ fs st' = fs (sample_state locked_fs false)
  ∧ backup st' = backup (sample_state locked_fs false).
Proof.
assert (H2 : Fs.exists_ (fs (sample_state locked_fs false)) gtk4_src = true)
  by (vm_compute; reflexivity).
assert (H3 : Fs.exists_ (fs (sample_state locked_fs false)) gtk4_dst = true)
  by (vm_compute; reflexivity).
assert (H4 : Fs.copy2 (fs (sample_state locked_fs false)) gtk4_dst
    (backup_dest sample_home (bm_backup_dir (backup (sample_state locked_fs false)))
       gtk4_dst) = None) by (vm_compute; reflexivity).
split; [reflexivity|]. split; [exact H2|]. split; [exact H3|]. split; [exact H4|].
exact (install_by_copy_backup_error sample_home 2 "GTK4 Theme" gtk4_src gtk4_dst
         "Source gtk-4.0/gtk.css not found" false (sample_state locked_fs false)
         eq_refl H2 H3 H4).
Defined.

(** *** Whole runs *)

Definition batch_args : Args := mkArgs true false (Some {[2%Z; 3%Z]}) false.
Definition live_args : Args := mkArgs false false (Some {[2%Z; 3%Z]}) false.



Definition is_ok {A} (r : result A) : bool :=
  match r with Ok _ => true | Raise _ => false end.

Definition is_raise {A} (r : result A) : bool :=
  match r with Ok _ => false | Raise _ => true end.

Lemma ok_outcome {A} (d : A) (p : result A * State) :
is_ok p.1 = true →
p = (Ok (match p.1 with Ok a => a | Raise _ => d end), p.2).
Proof. destruct p as [[a|e] st]; [reflexivity|discriminate]. Qed.

Lemma raise_outcome {A} (d : exn) (p : result A * State) :
is_raise p.1 = true →
p = (Raise (match p.1 with Ok _ => d | Raise e => e end), p.2).
Proof. destruct p as [[a|e] st]; [discriminate|reflexivity]. Qed.

(** The GTK4 and GTK3 themes asked for, the GTK3 source missing. *)
Definition batch_loop : result (list ComponentResult * list string) * State :=
  _install_steps batch_args sample_info
    (_select_components sample_home sample_theme_dir sample_external batch_args)
    [] [] (sample_state sample_fs false).

Definition batch_results : list ComponentResult :=
  match batch_loop.1 with Ok a => a.1 | Raise _ => [] end.

Lemma batch_loop_outcome :
_install_steps batch_args sample_info
  (_select_components sample_home sample_theme_dir sample_external batch_args)
  [] [] (sample_state sample_fs false)
= (Ok (batch_results, []), batch_loop.2).
Proof.
transitivity
  (Ok (match batch_loop.1 with Ok a => a | Raise _ => ([], []) end), batch_loop.2).
- apply (ok_outcome ([], []) batch_loop). vm_compute. reflexivity.
- apply (f_equal (λ x, (Ok x, batch_loop.2))). vm_compute. reflexivity.
Qed.

Lemma install_steps_one_result_per_step_witness :
_install_steps batch_args sample_info
  (_select_components sample_home sample_theme_dir sample_external batch_args)
  [] [] (sample_state sample_fs false)
= (Ok (batch_results, []), batch_loop.2)
∧ number <$> batch_results
  = step_number <$> _select_components sample_home sample_theme_dir sample_external
                      batch_args
∧ name <$> batch_results
  = step_name <$> _select_components sample_home sample_theme_dir sample_external
                    batch_args
∧ Forall (λ r, status r ≠ PENDING) batch_results.
Proof.
split; [exact batch_loop_outcome|].
exact (install_steps_one_result_per_step sample_home sample_theme_dir sample_external
         batch_args sample_info [] (sample_state sample_fs false) batch_results []
         batch_loop.2 batch_loop_outcome).
Defined.

Example sample_batch_results :
batch_results
= [mkResult 2 "GTK4 Theme" SUCCESS "Installed";
   mkResult 3 "GTK3 Theme" FAILED "Source gtk-3.0/gtk.css not found"].
Proof. vm_compute. reflexivity. Qed.

Lemma install_steps_non_interactive_witness :
arg_non_interactive batch_args = true
∧ ((∃ new st',
      _install_steps batch_args sample_info
        [Gtk4Installer sample_home sample_theme_dir] ["a"] []
        (sample_state locked_fs false)
      = (Ok (([] ++ new)%list, ["a"]), st')
      ∧ length new = length [Gtk4Installer sample_home sample_theme_dir])
   ∨ (∃ st',
        _install_steps batch_args sample_info
          [Gtk4Installer sample_home sample_theme_dir] ["a"] []
          (sample_state locked_fs false)
        = (Raise (KeyError "Status.PENDING"), st'))).
Proof.
split; [reflexivity|].
exact (install_steps_non_interactive batch_args sample_info
         [Gtk4Installer sample_home sample_theme_dir] ["a"] []
         (sample_state locked_fs false) eq_refl).
Defined.

(** A step of the kind that is not modelled and that answers [PENDING]. *)
Example pending_status_is_a_key_error :
(_install_steps batch_args sample_info
   [ExternalStep (λ _ _ _, mret (PENDING, "later")) 5 "Fastfetch Config" false]
   [] [] (sample_state sample_fs false)).1
= Raise (KeyError "Status.PENDING").
Proof. vm_compute. reflexivity. Qed.

(** The GTK4 theme installs, the GTK3 theme cannot be backed up, and the
    user answers "a". *)
Definition abort_fs : Fs.filesystem :=
  <[gtk3_src := Fs.mkFile (Fs.Text "new gtk3") true true]>
    (<[gtk3_dst := Fs.mkFile (Fs.Text "old gtk3") false true]> sample_fs).

Definition abort_start : State :=
  mkState abort_fs ∅ ∅
    ([] ++ [Print ("[info]Backup directory:[/] "
                   +:+ bm_backup_dir (BackupManager_new sample_home false "20240101_000000")
                   +:+ nl)])
    (BackupManager_new sample_home false "20240101_000000").

Definition abort_first : result (list ComponentResult * list string) * State :=
  _install_steps live_args sample_info [Gtk4Installer sample_home sample_theme_dir]
    ["a"] [] abort_start.

Definition abort_results : list ComponentResult :=
  match abort_first.1 with Ok a => a.1 | Raise _ => [] end.

Definition abort_second : result ComponentResult * State :=
  call_install (Gtk3Installer sample_home sample_theme_dir) sample_info false
    abort_first.2.

Lemma abort_first_outcome :
_install_steps live_args sample_info [Gtk4Installer sample_home sample_theme_dir]
  ["a"] [] abort_start
= (Ok (abort_results, ["a"]), abort_first.2).
Proof.
transitivity
  (Ok (match abort_first.1 with Ok a => a | Raise _ => ([], []) end), abort_first.2).
- apply (ok_outcome ([], []) abort_first). vm_compute. reflexivity.
- apply (f_equal (λ x, (Ok x, abort_first.2))). vm_compute. reflexivity.
Qed.

Lemma abort_second_outcome :
call_install (Gtk3Installer sample_home sample_theme_dir) sample_info false
  abort_first.2
= (Raise (OSError "copy"), abort_second.2).
Proof.
transitivity
  (Raise (match abort_second.1 with Ok _ => EOFError | Raise e => e end)
     : result ComponentResult, abort_second.2).
- apply (raise_outcome EOFError abort_second). vm_compute. reflexivity.
- apply (f_equal (λ x, (Raise x : result ComponentResult, abort_second.2))).
  vm_compute. reflexivity.
Qed.

Lemma abort_selection :
_select_components sample_home sample_theme_dir sample_external live_args
= ([Gtk4Installer sample_home sample_theme_dir]
   ++ Gtk3Installer sample_home sample_theme_dir :: [])%list.
Proof.
unfold _select_components, live_args, arg_components, select_steps, ALL_STEPS.
repeat first
  [ rewrite filter_cons_True by (apply bool_decide_unpack; vm_compute; reflexivity)
  | rewrite filter_cons_False by (apply bool_decide_unpack; vm_compute; reflexivity) ].
reflexivity.
Qed.

Lemma main_user_abort_witness :
arg_non_interactive live_args = false
∧ arg_dry_run live_args = false
∧ arg_no_backup live_args = false
∧ _select_components sample_home sample_theme_dir sample_external live_args
  = ([Gtk4Installer sample_home sample_theme_dir]
     ++ Gtk3Installer sample_home sample_theme_dir :: [])%list
∧ _install_steps live_args sample_info [Gtk4Installer sample_home sample_theme_dir]
    ["a"] [] abort_start
  = (Ok (abort_results, ["a"]), abort_first.2)
∧ call_install (Gtk3Installer sample_home sample_theme_dir) sample_info false
    abort_first.2
  = (Raise (OSError "copy"), abort_second.2)
∧ is_Exception (OSError "copy") = true
∧ main sample_home sample_theme_dir sample_external live_args sample_info
    "20240101_000000" ["a"] (mkState abort_fs ∅ ∅ [] (BackupManager_new sample_home true ""))
  = (Ok 130%Z,
     mkState (fs abort_second.2) (dconf abort_second.2) (dconf_refused abort_second.2)
       (log abort_second.2
        ++ [Print (nl +:+ "  [error]Error in "
                   +:+ step_name (Gtk3Installer sample_home sample_theme_dir) +:+ ": "
                   +:+ exn_str (OSError "copy") +:+ "[/]")]
        ++ [Print (nl +:+ "[warning]Interrupted.[/]")])
       (backup abort_second.2)).
Proof.
split; [reflexivity|]. split; [reflexivity|]. split; [reflexivity|].
split; [exact abort_selection|]. split; [exact abort_first_outcome|].
split; [exact abort_second_outcome|]. split; [reflexivity|].
exact (main_user_abort sample_home sample_theme_dir sample_external live_args
         sample_info "20240101_000000" ["a"]
         (mkState abort_fs ∅ ∅ [] (BackupManager_new sample_home true ""))
         [Gtk4Installer sample_home sample_theme_dir]
         (Gtk3Installer sample_home sample_theme_dir) [] abort_results []
         abort_first.2 (OSError "copy") abort_second.2
         eq_refl eq_refl eq_refl abort_selection abort_first_outcome
         abort_second_outcome eq_refl).
Defined.

(** After that abort the copy of the GTK4 file is in the backup tree, the
    manifest is not, and [restore] finds nothing to restore from. *)
Example sample_abort_leaves_no_manifest :
let st := (main sample_home sample_theme_dir sample_external live_args sample_info
             "20240101_000000" ["a"]
             (mkState abort_fs ∅ ∅ [] (BackupManager_new sample_home true ""))).2 in
Fs.content <$> (fs st !! backup_dest sample_home (bm_backup_dir (backup st)) gtk4_dst)
= Some (Fs.Text "old gtk4")
∧ fs st !! gtk4_dst = Some new_gtk4
∧ m_files (bm_manifest (backup st))
  = [(gtk4_dst, backup_dest sample_home (bm_backup_dir (backup st)) gtk4_dst)]
∧ fs st !! (bm_backup_dir (backup st) // "manifest.json") = None
∧ (restore (bm_backup_dir (backup st)) st).1 = Ok false.
Proof.
cbv zeta.
split; [vm_compute; reflexivity|]. split; [vm_compute; reflexivity|].
split; [vm_compute; reflexivity|]. split; [vm_compute; reflexivity|].
vm_compute; reflexivity.
Qed.

(** *** Paths *)

Lemma backup_dest_collision_witness :
sample_home ≠ ""
∧ startswith sample_home (String "/" "etc/fstab") = false
∧ sample_home +:+ String "/" "etc/fstab" ≠ String "/" "etc/fstab"
∧ backup_dest sample_home "/bk" (sample_home +:+ String "/" "etc/fstab")
  = backup_dest sample_home "/bk" (String "/" "etc/fstab").
Proof.
assert (H1 : sample_home ≠ "") by discriminate.
split; [exact H1|]. split; [reflexivity|].
exact (backup_dest_collision sample_home "/bk" "etc/fstab" H1 eq_refl).
Defined.

(** *** dconf *)

Definition shell_dump : string := "[/]" +:+ nl +:+ "enabled-extensions=['user-theme']".

Definition settings_state : State :=
  mkState sample_fs (<["/org/gnome/shell/" := shell_dump]> ∅) ∅ []
    (BackupManager_new sample_home false "20240101_000000").

Lemma dconf_backup_restore_round_trip_witness :
bm_dry_run (backup settings_state) = false
∧ m_files (bm_manifest (backup settings_state)) = []
∧ m_dconf (bm_manifest (backup settings_state)) = []
∧ dconf settings_state !! "/org/gnome/shell/" = Some shell_dump
∧ shell_dump ≠ ""
∧ ("/org/gnome/shell/" ∉ dconf_refused settings_state)
∧ fs settings_state
    !! (bm_backup_dir (backup settings_state) // "dconf"
        // dconf_file_name "/org/gnome/shell/") = None
∧ fs settings_state !! (bm_backup_dir (backup settings_state) // "manifest.json") = None
∧ ∃ st1, backup_dconf "/org/gnome/shell/" settings_state = (Ok true, st1)
  ∧ ∀ st1',
      backup st1' = backup st1 → fs st1' = fs st1 →
      dconf_refused st1' = dconf_refused st1 →
      ∃ st2 st3,
        save_manifest st1' = (Ok tt, st2)
        ∧ restore (bm_backup_dir (backup settings_state)) st2 = (Ok true, st3)
        ∧ dconf st3 !! "/org/gnome/shell/" = Some shell_dump.
Proof.
assert (H4 : dconf settings_state !! "/org/gnome/shell/" = Some shell_dump)
  by (vm_compute; reflexivity).
assert (H5 : shell_dump ≠ "") by discriminate.
assert (H6 : "/org/gnome/shell/" ∉ dconf_refused settings_state)
  by (apply not_elem_of_empty).
assert (H7 : fs settings_state
    !! (bm_backup_dir (backup settings_state) // "dconf"
        // dconf_file_name "/org/gnome/shell/") = None) by (vm_compute; reflexivity).
assert (H8 : fs settings_state
               !! (bm_backup_dir (backup settings_state) // "manifest.json") = None)
  by (vm_compute; reflexivity).
split; [reflexivity|]. split; [reflexivity|]. split; [reflexivity|].
split; [exact H4|]. split; [exact H5|]. split; [exact H6|]. split; [exact H7|].
split; [exact H8|].
exact (dconf_backup_restore_round_trip "/org/gnome/shell/" shell_dump settings_state
         eq_refl eq_refl eq_refl H4 H5 H6 H7 H8).
Defined.

Example sample_dconf_file_name :
dconf_file_name "/org/gnome/shell/" = "org_gnome_shell".
Proof. reflexivity. Qed.

End InstallerFacts.
